(** * Class Attendance Pro: the session / attendance state machine of server.ts

    A shallow embedding of the HTTP handlers of [src/server.ts] that read
    and write the tables [students], [units], [lessons] and [attendance] of
    the SQLite database, and the properties of the attendance state machine
    (OTP window of 20 minutes, lazy expiry, restart, cascade delete, the two
    "active lesson" queries).

    Modelling conventions.
    - A table is the list of its rows in rowid order; [INSERT] appends,
      [UPDATE ... WHERE] is a [map], [DELETE ... WHERE] a [filter], and a
      [.get()] without [ORDER BY] is the first match of a table scan.
    - Instants are integers: milliseconds since the epoch.  The columns
      [start_time], [end_time] and [marked_at] hold [toISOString()] texts in
      the source; [new Date(text).getTime()] reads back the same
      millisecond, so the model stores the millisecond itself.
    - [(now - startTime) / (1000 * 60) > 20] is a comparison of doubles; for
      integer milliseconds it holds exactly when [now - startTime] exceeds
      [20 * 60000], which is how it is written here (likewise for hours).
    - Every handler reads the clock once: the instants of one request
      coincide, and SQLite's ['now'] is that same instant.
    - [Math.random()] is an oracle [rng : nat -> Z]: the n-th draw of the
      request, already scaled, [rng n = floor (Math.random() * 900000)].
    - [PRAGMA foreign_keys] is never set by the source, so whether the
      [FOREIGN KEY] clauses of the schema are enforced is the driver's
      default: it is a field of the database state, and the statements that
      SQLite would refuse are refused when it is [true].
    - A prepared statement is run with the values the source passes to
      [.run], [.get] or [.all]; the one call that passes fewer values than
      the statement has parameters is modelled as the driver treats it.
    - [SELECT id FROM students] reads no column but the rowid, so SQLite
      answers it from the index of the [UNIQUE] column [admission_number]
      (a covering index, smaller than the table): the ids come in the
      order of the admission numbers, compared byte by byte (BINARY
      collation), not in rowid order.
    - [new Date(t).toISOString()] throws a RangeError when [t] is outside
      the range of a Date, 8.64e15 milliseconds either side of the epoch.
      The clock itself is inside it; an end time computed from a duration
      need not be.
    - Request bodies carry the fields the client sends, with their types;
      where a handler itself parses or tests a field ([unit_id],
      [duration]) the model keeps what the handler can observe of it. *)

From Stdlib Require Import ZArith List String Bool Lia DecimalString DecimalZ.
From Stdlib Require Import Permutation Sorted.
Import ListNotations.
Open Scope Z_scope.

(** ** Rows *)

(** attendance.status: the three texts the handlers write. *)
Inductive Status := Pending | Present | Absent.

Definition Status_eqb (a b : Status) : bool :=
  match a, b with
  | Pending, Pending | Present, Present | Absent, Absent => true
  | _, _ => false
  end.

Record StudentRow := {
  s_id : Z;
  s_name : string;
  admission_number : string
}.

Record UnitRow := {
  u_id : Z;
  u_name : string;
  lecturer : string
}.

(** [unit_id] is the one nullable key the handlers can leave NULL:
    [parseInt] of a non-numeric text is NaN, which SQLite stores as NULL. *)
Record LessonRow := {
  l_id : Z;
  unit_id : option Z;
  date : Z;
  venue : string;
  duration : Z;
  start_time : Z;
  end_time : Z;
  scheduled_start : string;
  scheduled_end : string;
  lecturer_otp : string;
  lecturer_present : Z;
  otp_enabled : Z
}.

Record AttendanceRow := {
  a_id : Z;
  lesson_id : Z;
  student_id : Z;
  otp : string;
  status : Status;
  marked_at : option Z
}.

(** ** The database *)

(** [seq_*] are the rows of [sqlite_sequence]: the largest rowid an
    AUTOINCREMENT table has ever held. *)
Record Db := {
  foreign_keys : bool;
  students : list StudentRow;
  units : list UnitRow;
  lessons : list LessonRow;
  attendance : list AttendanceRow;
  seq_students : Z;
  seq_units : Z;
  seq_lessons : Z;
  seq_attendance : Z
}.

Definition empty_db (fk : bool) : Db :=
  {| foreign_keys := fk; students := []; units := []; lessons := [];
     attendance := []; seq_students := 0; seq_units := 0; seq_lessons := 0;
     seq_attendance := 0 |}.

Definition set_students (l : list StudentRow) (q : Z) (d : Db) : Db :=
  {| foreign_keys := foreign_keys d; students := l; units := units d;
     lessons := lessons d; attendance := attendance d;
     seq_students := q; seq_units := seq_units d;
     seq_lessons := seq_lessons d; seq_attendance := seq_attendance d |}.

Definition set_units (l : list UnitRow) (q : Z) (d : Db) : Db :=
  {| foreign_keys := foreign_keys d; students := students d; units := l;
     lessons := lessons d; attendance := attendance d;
     seq_students := seq_students d; seq_units := q;
     seq_lessons := seq_lessons d; seq_attendance := seq_attendance d |}.

Definition set_lessons (l : list LessonRow) (q : Z) (d : Db) : Db :=
  {| foreign_keys := foreign_keys d; students := students d; units := units d;
     lessons := l; attendance := attendance d;
     seq_students := seq_students d; seq_units := seq_units d;
     seq_lessons := q; seq_attendance := seq_attendance d |}.

Definition set_attendance (l : list AttendanceRow) (q : Z) (d : Db) : Db :=
  {| foreign_keys := foreign_keys d; students := students d; units := units d;
     lessons := lessons d; attendance := l;
     seq_students := seq_students d; seq_units := seq_units d;
     seq_lessons := seq_lessons d; seq_attendance := q |}.

(** AUTOINCREMENT: one more than the largest rowid the table holds or has
    ever held. *)
Definition max_id (ids : list Z) : Z := fold_right Z.max 0 ids.

Definition next_id (q : Z) (ids : list Z) : Z := 1 + Z.max q (max_id ids).

Arguments next_id : simpl never.

(** ** Row predicates shared by the statements *)

Definition has_student (d : Db) (id : Z) : bool :=
  existsb (fun s => s_id s =? id) (students d).

Definition has_unit (d : Db) (id : Z) : bool :=
  existsb (fun u => u_id u =? id) (units d).

Definition has_lesson (d : Db) (id : Z) : bool :=
  existsb (fun l => l_id l =? id) (lessons d).

Definition of_unit (id : Z) (l : LessonRow) : bool :=
  match unit_id l with
  | Some u => u =? id
  | None => false
  end.

Definition of_lesson (id : Z) (a : AttendanceRow) : bool := lesson_id a =? id.

Definition of_student (id : Z) (a : AttendanceRow) : bool := student_id a =? id.

(** ** SQL statements

    A statement that a constraint can refuse returns [None] when SQLite
    throws. *)

(** INSERT INTO students (name, admission_number): admission_number is
    UNIQUE. *)
Definition insert_student (name adm : string) (d : Db) : option (Z * Db) :=
  if existsb (fun s => String.eqb (admission_number s) adm) (students d)
  then None
  else
    let id := next_id (seq_students d) (map s_id (students d)) in
    Some (id, set_students
                (students d ++ [{| s_id := id; s_name := name;
                                   admission_number := adm |}]) id d).

(** INSERT INTO units (name, lecturer) *)
Definition insert_unit (name lect : string) (d : Db) : Z * Db :=
  let id := next_id (seq_units d) (map u_id (units d)) in
  (id, set_units (units d ++ [{| u_id := id; u_name := name;
                                 lecturer := lect |}]) id d).

(** INSERT INTO lessons (unit_id, date, venue, duration, start_time,
    end_time, scheduled_start, scheduled_end, lecturer_otp); the columns
    lecturer_present and otp_enabled take their DEFAULT 0.  A non-NULL
    unit_id must name a unit when foreign keys are enforced. *)
Definition insert_lesson (uid : option Z) (dt : Z) (ven : string) (dur st en : Z)
    (ss se lotp : string) (d : Db) : option (Z * Db) :=
  let fk_ok := match uid with
               | Some u => negb (foreign_keys d) || has_unit d u
               | None => true
               end in
  if fk_ok then
    let id := next_id (seq_lessons d) (map l_id (lessons d)) in
    Some (id, set_lessons
                (lessons d ++ [{| l_id := id; unit_id := uid; date := dt;
                                  venue := ven; duration := dur;
                                  start_time := st; end_time := en;
                                  scheduled_start := ss; scheduled_end := se;
                                  lecturer_otp := lotp; lecturer_present := 0;
                                  otp_enabled := 0 |}]) id d)
  else None.

(** INSERT INTO attendance (lesson_id, student_id, otp, status); marked_at
    stays NULL.  Both keys must resolve when foreign keys are enforced. *)
Definition insert_attendance (lid sid : Z) (code : string) (st : Status) (d : Db)
    : option Db :=
  if negb (foreign_keys d) || (has_lesson d lid && has_student d sid) then
    let id := next_id (seq_attendance d) (map a_id (attendance d)) in
    Some (set_attendance
            (attendance d ++ [{| a_id := id; lesson_id := lid;
                                 student_id := sid; otp := code; status := st;
                                 marked_at := None |}]) id d)
  else None.

(** DELETE FROM attendance WHERE lesson_id = ? (no table references
    attendance, so nothing can refuse it). *)
Definition delete_attendance_of_lesson (lid : Z) (d : Db) : Db :=
  set_attendance (filter (fun a => negb (of_lesson lid a)) (attendance d))
                 (seq_attendance d) d.

(** DELETE FROM attendance WHERE student_id = ? *)
Definition delete_attendance_of_student (sid : Z) (d : Db) : Db :=
  set_attendance (filter (fun a => negb (of_student sid a)) (attendance d))
                 (seq_attendance d) d.

(** DELETE FROM lessons WHERE unit_id = ?: refused when an attendance row
    would be left pointing at a deleted lesson. *)
Definition delete_lessons_of_unit (uid : Z) (d : Db) : option Db :=
  let gone := filter (of_unit uid) (lessons d) in
  let kept := filter (fun l => negb (of_unit uid l)) (lessons d) in
  let orphan a := existsb (fun l => l_id l =? lesson_id a) gone
                  && negb (existsb (fun l => l_id l =? lesson_id a) kept) in
  if foreign_keys d && existsb orphan (attendance d) then None
  else Some (set_lessons kept (seq_lessons d) d).

(** DELETE FROM units WHERE id = ?: refused when a lesson would be left
    pointing at the deleted unit. *)
Definition delete_unit_row (uid : Z) (d : Db) : option Db :=
  let gone := filter (fun u => u_id u =? uid) (units d) in
  let kept := filter (fun u => negb (u_id u =? uid)) (units d) in
  let orphan l := match unit_id l with
                  | Some u => existsb (fun r => u_id r =? u) gone
                              && negb (existsb (fun r => u_id r =? u) kept)
                  | None => false
                  end in
  if foreign_keys d && existsb orphan (lessons d) then None
  else Some (set_units kept (seq_units d) d).

(** DELETE FROM students WHERE id = ?: refused when an attendance row would
    be left pointing at the deleted student. *)
Definition delete_student_row (sid : Z) (d : Db) : option Db :=
  let gone := filter (fun s => s_id s =? sid) (students d) in
  let kept := filter (fun s => negb (s_id s =? sid)) (students d) in
  let orphan a := existsb (fun s => s_id s =? student_id a) gone
                  && negb (existsb (fun s => s_id s =? student_id a) kept) in
  if foreign_keys d && existsb orphan (attendance d) then None
  else Some (set_students kept (seq_students d) d).

(** UPDATE students SET name = ?, admission_number = ? WHERE id = ?: the
    UNIQUE index refuses a number that another student holds, or that two
    updated rows would share. *)
Definition update_student (id : Z) (name adm : string) (d : Db) : option Db :=
  let hit := filter (fun s => s_id s =? id) (students d) in
  let rest := filter (fun s => negb (s_id s =? id)) (students d) in
  let clash := match hit with
               | [] => false
               | [_] => existsb (fun s => String.eqb (admission_number s) adm) rest
               | _ => true
               end in
  if clash then None
  else Some (set_students
               (map (fun s => if s_id s =? id
                              then {| s_id := s_id s; s_name := name;
                                      admission_number := adm |}
                              else s) (students d))
               (seq_students d) d).

(** UPDATE units SET name = ?, lecturer = ? WHERE id = ? *)
Definition update_unit (id : Z) (name lect : string) (d : Db) : Db :=
  set_units (map (fun u => if u_id u =? id
                           then {| u_id := u_id u; u_name := name;
                                   lecturer := lect |}
                           else u) (units d))
            (seq_units d) d.

(** UPDATE lessons SET lecturer_present = 1 WHERE id = ? *)
Definition set_lecturer_present (l : LessonRow) : LessonRow :=
  {| l_id := l_id l; unit_id := unit_id l; date := date l; venue := venue l;
     duration := duration l; start_time := start_time l;
     end_time := end_time l; scheduled_start := scheduled_start l;
     scheduled_end := scheduled_end l; lecturer_otp := lecturer_otp l;
     lecturer_present := 1; otp_enabled := otp_enabled l |}.

(** UPDATE lessons SET otp_enabled = 1 WHERE id = ? *)
Definition set_otp_enabled (l : LessonRow) : LessonRow :=
  {| l_id := l_id l; unit_id := unit_id l; date := date l; venue := venue l;
     duration := duration l; start_time := start_time l;
     end_time := end_time l; scheduled_start := scheduled_start l;
     scheduled_end := scheduled_end l; lecturer_otp := lecturer_otp l;
     lecturer_present := lecturer_present l; otp_enabled := 1 |}.

(** UPDATE lessons SET start_time = ?, end_time = ?, otp_enabled = 0
    WHERE id = ? *)
Definition reset_times (st en : Z) (l : LessonRow) : LessonRow :=
  {| l_id := l_id l; unit_id := unit_id l; date := date l; venue := venue l;
     duration := duration l; start_time := st; end_time := en;
     scheduled_start := scheduled_start l;
     scheduled_end := scheduled_end l; lecturer_otp := lecturer_otp l;
     lecturer_present := lecturer_present l; otp_enabled := 0 |}.

Definition update_lessons (id : Z) (f : LessonRow -> LessonRow) (d : Db) : Db :=
  set_lessons (map (fun l => if l_id l =? id then f l else l) (lessons d))
              (seq_lessons d) d.

(** SET status = 'absent' *)
Definition set_absent (a : AttendanceRow) : AttendanceRow :=
  {| a_id := a_id a; lesson_id := lesson_id a; student_id := student_id a;
     otp := otp a; status := Absent; marked_at := marked_at a |}.

(** SET status = 'present', marked_at = ? *)
Definition set_present (t : Z) (a : AttendanceRow) : AttendanceRow :=
  {| a_id := a_id a; lesson_id := lesson_id a; student_id := student_id a;
     otp := otp a; status := Present; marked_at := Some t |}.

Definition update_attendance (p : AttendanceRow -> bool)
    (f : AttendanceRow -> AttendanceRow) (d : Db) : Db :=
  set_attendance (map (fun a => if p a then f a else a) (attendance d))
                 (seq_attendance d) d.

Definition is_pending (a : AttendanceRow) : bool := Status_eqb (status a) Pending.

(** ** Clock tests *)

Definition minute : Z := 1000 * 60.
Definition hour : Z := 1000 * 60 * 60.

(** [diffMins > 20] for a lesson that started at [st]. *)
Definition otp_expired (now st : Z) : bool := now - st >? 20 * minute.

(** Whether [new Date(t)] is a valid date: [toISOString()] throws
    (RangeError: Invalid time value) when it is not. *)
Definition date_valid (t : Z) : bool :=
  (-8640000000000000 <=? t) && (t <=? 8640000000000000).

(** [diffHours > 24] *)
Definition older_than_a_day (now st : Z) : bool := now - st >? 24 * hour.

(** [datetime(start_time) > datetime('now', '-24 hours')]: SQLite's
    [datetime()] prints whole seconds, dropping the milliseconds, and the
    two texts are compared. *)
Definition sql_recent (now st : Z) : bool :=
  st / 1000 >? (now - 24 * hour) / 1000.

(** ** Queries *)

(** [ORDER BY key DESC LIMIT 1] *)
Fixpoint latest_by {A : Type} (key : A -> Z) (l : list A) : option A :=
  match l with
  | [] => None
  | x :: r =>
      match latest_by key r with
      | Some y => if key x <? key y then Some y else Some x
      | None => Some x
      end
  end.

(** SELECT ... FROM lessons WHERE datetime(start_time) >
    datetime('now', '-24 hours') ORDER BY id DESC LIMIT 1: the active
    lesson of POST /api/students and POST /api/lessons/restart. *)
Definition recent_lesson (now : Z) (d : Db) : option LessonRow :=
  latest_by l_id (filter (fun l => sql_recent now (start_time l)) (lessons d)).

(** The index [sqlite_autoindex_students_1] of the UNIQUE column: the
    rows by admission number, bytewise; rows with the same number (there
    are none in a table the index guards) by rowid. *)
Fixpoint index_insert (s : StudentRow) (index : list StudentRow)
    : list StudentRow :=
  match index with
  | [] => [s]
  | x :: rest =>
      if String.leb (admission_number s) (admission_number x)
      then s :: x :: rest
      else x :: index_insert s rest
  end.

Definition admission_index (table : list StudentRow) : list StudentRow :=
  fold_right index_insert [] table.

(** SELECT id FROM students: a scan of the covering index. *)
Definition select_student_ids (table : list StudentRow) : list Z :=
  map s_id (admission_index table).

(** FROM lessons l JOIN units u ON l.unit_id = u.id *)
Definition lessons_join_units (d : Db) : list (LessonRow * UnitRow) :=
  flat_map (fun l => map (pair l) (filter (fun u => of_unit (u_id u) l) (units d)))
           (lessons d).

(** SELECT l.*, u.name, u.lecturer FROM lessons l JOIN units u ...
    ORDER BY l.id DESC LIMIT 1: the candidate of GET /api/lessons/active. *)
Definition latest_lesson (d : Db) : option (LessonRow * UnitRow) :=
  latest_by (fun p => l_id (fst p)) (lessons_join_units d).

(** SELECT a.*, s.name, s.admission_number FROM attendance a
    JOIN students s ON a.student_id = s.id WHERE a.lesson_id = ? *)
Definition attendance_join_students (lid : Z) (d : Db)
    : list (AttendanceRow * StudentRow) :=
  flat_map (fun a => map (pair a)
                         (filter (fun s => s_id s =? student_id a) (students d)))
           (filter (of_lesson lid) (attendance d)).

(** ** OTP generation *)

(** [Math.floor(100000 + Math.random() * 900000).toString()], for the
    scaled draw [r]. *)
Definition gen_otp (r : Z) : string :=
  NilZero.string_of_int (Z.to_int (100000 + r)).

(** The loop [for (const student of students) insertAttendance.run(...)]:
    the k-th student takes draw [n + k]; the flag tells whether every
    insert went through, and the database is the one left when the loop
    stopped.  The statement names no status: the column DEFAULT 'pending'
    applies. *)
Fixpoint insert_attendance_rows (lid : Z) (sids : list Z) (rng : nat -> Z)
    (n : nat) (d : Db) : Db * bool :=
  match sids with
  | [] => (d, true)
  | sid :: r =>
      match insert_attendance lid sid (gen_otp (rng n)) Pending d with
      | Some d' => insert_attendance_rows lid r rng (S n) d'
      | None => (d, false)
      end
  end.

(** ** Responses *)

Inductive Body :=
| JSuccess                       (* { success: true } *)
| JId (id : Z)                   (* { id } *)
| JStarted (lessonId : Z)        (* { lessonId, success: true } *)
| JNull                          (* null *)
| JActive (l : LessonRow) (u : UnitRow)
          (rows : list (AttendanceRow * StudentRow))
                                 (* { ...lesson, attendance } *)
| JError (msg : string).         (* { error } *)

Record Response := { code : Z; body : Body }.

Definition ok (b : Body) : Response := {| code := 200; body := b |}.
Definition err (c : Z) (msg : string) : Response :=
  {| code := c; body := JError msg |}.

Definition is_ok (r : Response) : bool := code r =? 200.

(** ** Handlers

    Each handler takes the instant [now] of the request and the database and
    returns the response with the database it leaves. *)

(** POST /api/students.  The catch covers both inserts, and there is no
    transaction: were the attendance insert refused, the student row would
    stay. *)
Definition post_students (name adm : string) (rng : nat -> Z) (now : Z) (d : Db)
    : Response * Db :=
  match insert_student name adm d with
  | None => (err 400 "Admission number already exists", d)
  | Some (studentId, d1) =>
      match recent_lesson now d1 with
      | Some activeLesson =>
          let st := if otp_expired now (start_time activeLesson)
                    then Absent else Pending in
          match insert_attendance (l_id activeLesson) studentId
                                  (gen_otp (rng 0%nat)) st d1 with
          | Some d2 => (ok (JId studentId), d2)
          | None => (err 400 "Admission number already exists", d1)
          end
      | None => (ok (JId studentId), d1)
      end
  end.

(** POST /api/units *)
Definition post_units (name lect : string) (d : Db) : Response * Db :=
  let '(id, d1) := insert_unit name lect d in (ok (JId id), d1).

(** PUT /api/students/:id *)
Definition put_student (id : Z) (name adm : string) (d : Db) : Response * Db :=
  match update_student id name adm d with
  | Some d1 => (ok JSuccess, d1)
  | None => (err 400 "Admission number already exists", d)
  end.

(** DELETE /api/students/:id: one transaction, rolled back as a whole. *)
Definition delete_student (id : Z) (d : Db) : Response * Db :=
  match delete_student_row id (delete_attendance_of_student id d) with
  | Some d1 => (ok JSuccess, d1)
  | None => (err 500 "FOREIGN KEY constraint failed", d)
  end.

(** PUT /api/units/:id *)
Definition put_unit (id : Z) (name lect : string) (d : Db) : Response * Db :=
  (ok JSuccess, update_unit id name lect d).

(** [db.prepare('SELECT id FROM lessons WHERE unit_id = ?').all(...values)]:
    the statement has one parameter, and better-sqlite3 runs a statement
    only when it is given as many values as it has parameters; otherwise it
    throws (RangeError: Too few / Too many parameter values were
    provided). *)
Definition select_lessons_of_unit (values : list Z) (d : Db)
    : option (list LessonRow) :=
  match values with
  | [uid] => Some (filter (of_unit uid) (lessons d))
  | _ => None
  end.

(** The rest of the transaction of DELETE /api/units/:id, once the lessons
    of the unit are read: the attendance of each is deleted in a loop, then
    the lessons, then the unit. *)
Definition delete_unit_rows (unit_lessons : list LessonRow) (id : Z) (d : Db)
    : option Db :=
  let d1 := fold_left (fun acc lesson =>
                         delete_attendance_of_lesson (l_id lesson) acc)
                      unit_lessons d in
  match delete_lessons_of_unit id d1 with
  | Some d2 => delete_unit_row id d2
  | None => None
  end.

(** DELETE /api/units/:id: one transaction, rolled back when a statement
    throws.  The source reads the lessons of the unit with [.all()], without
    the id. *)
Definition delete_unit (id : Z) (d : Db) : Response * Db :=
  match select_lessons_of_unit [] d with
  | None => (err 500 "Too few parameter values were provided", d)
  | Some unit_lessons =>
      match delete_unit_rows unit_lessons id d with
      | Some d' => (ok JSuccess, d')
      | None => (err 500 "FOREIGN KEY constraint failed", d)
      end
  end.

(** What POST /api/lessons/start observes of the body's [unit_id]:
    [!unit_id] holds, or it is truthy and [parseInt] yields NaN, or an
    integer. *)
Inductive UnitIdArg := UnitIdFalsy | UnitIdNaN | UnitIdNum (n : Z).

(** The body of POST /api/lessons/start; [sr_duration] is what [parseInt]
    makes of [duration], [None] for NaN. *)
Record StartReq := {
  sr_unit_id : UnitIdArg;
  sr_venue : string;
  sr_duration : option Z;
  sr_scheduled_start : string;
  sr_scheduled_end : string
}.

(** [parseInt(duration) || 60] *)
Definition durationNum (r : StartReq) : Z :=
  match sr_duration r with
  | Some n => if n =? 0 then 60 else n
  | None => 60
  end.

(** POST /api/lessons/start: draw 0 is the lecturer's code, draw 1 + k the
    code of the k-th student the SELECT yields.  [end_time] is computed, and
    [toISOString()] may throw, before anything is written; the catch
    answers 500.  Only the attendance loop is a transaction: when it is
    rolled back the lesson row stays. *)
Definition post_lessons_start (r : StartReq) (rng : nat -> Z) (now : Z) (d : Db)
    : Response * Db :=
  match sr_unit_id r with
  | UnitIdFalsy => (err 400 "Unit ID is required", d)
  | arg =>
      let unitIdNum := match arg with UnitIdNum n => Some n | _ => None end in
      let start := now in
      let finish := now + durationNum r * 60000 in
      if date_valid finish then
        match insert_lesson unitIdNum start (sr_venue r) (durationNum r) start
                            finish (sr_scheduled_start r) (sr_scheduled_end r)
                            (gen_otp (rng 0%nat)) d with
        | None => (err 500 "FOREIGN KEY constraint failed", d)
        | Some (lessonId, d1) =>
            match insert_attendance_rows lessonId
                                         (select_student_ids (students d1))
                                         rng 1 d1 with
            | (d2, true) => (ok (JStarted lessonId), d2)
            | (_, false) => (err 500 "FOREIGN KEY constraint failed", d1)
            end
        end
      else (err 500 "Invalid time value", d)
  end.

(** POST /api/lecturer/mark *)
Definition post_lecturer_mark (lid : Z) (code : string) (d : Db) : Response * Db :=
  match find (fun l => l_id l =? lid) (lessons d) with
  | None => (err 404 "Lesson not found", d)
  | Some lesson =>
      if negb (String.eqb (lecturer_otp lesson) code)
      then (err 400 "Invalid Lecturer OTP", d)
      else (ok JSuccess, update_lessons lid set_lecturer_present d)
  end.

(** POST /api/lessons/restart: no transaction and no catch; the k-th
    student the SELECT yields takes draw k.  [end_time] is computed, and
    [toISOString()] may throw, before the first write; with no catch in the
    handler, the framework answers 500 with an error page of its own.  Of
    the answer to an uncaught exception only the status code is meant: the
    message stands for the page. *)
Definition post_lessons_restart (rng : nat -> Z) (now : Z) (d : Db)
    : Response * Db :=
  match recent_lesson now d with
  | None => (err 404 "No active lesson to restart", d)
  | Some activeLesson =>
      let start := now in
      let finish := now + duration activeLesson * 60000 in
      if date_valid finish then
        let d1 := update_lessons (l_id activeLesson) (reset_times start finish) d in
        let sids := select_student_ids (students d1) in
        let d2 := delete_attendance_of_lesson (l_id activeLesson) d1 in
        match insert_attendance_rows (l_id activeLesson) sids rng 0 d2 with
        | (d3, true) => (ok JSuccess, d3)
        | (d3, false) => (err 500 "FOREIGN KEY constraint failed", d3)
        end
      else (err 500 "Invalid time value", d)
  end.

(** POST /api/lessons/:id/enable-otp *)
Definition post_enable_otp (id : Z) (d : Db) : Response * Db :=
  (ok JSuccess, update_lessons id set_otp_enabled d).

(** UPDATE attendance SET status = 'absent' WHERE lesson_id = ? AND
    status = 'pending' *)
Definition expire_lesson (lid : Z) (d : Db) : Db :=
  update_attendance (fun a => of_lesson lid a && is_pending a) set_absent d.

(** GET /api/lessons/active *)
Definition get_lessons_active (now : Z) (d : Db) : Response * Db :=
  match latest_lesson d with
  | None => (ok JNull, d)
  | Some (lesson, u) =>
      if older_than_a_day now (start_time lesson) then (ok JNull, d)
      else
        let d1 := if otp_expired now (start_time lesson)
                  then expire_lesson (l_id lesson) d else d in
        (ok (JActive lesson u (attendance_join_students (l_id lesson) d1)), d1)
  end.

(** UPDATE attendance SET status = 'absent' WHERE lesson_id = ? AND
    student_id = ? AND status = 'pending' *)
Definition expire_student (lid sid : Z) (d : Db) : Db :=
  update_attendance
    (fun a => of_lesson lid a && of_student sid a && is_pending a) set_absent d.

(** SELECT * FROM attendance WHERE lesson_id = ? AND student_id = ? AND
    otp = ?  (text comparison, BINARY collation: case-sensitive) *)
Definition find_record (lid sid : Z) (code : string) (d : Db)
    : option AttendanceRow :=
  find (fun a => of_lesson lid a && of_student sid a && String.eqb (otp a) code)
       (attendance d).

(** POST /api/attendance/mark *)
Definition post_attendance_mark (lid sid : Z) (code : string) (now : Z) (d : Db)
    : Response * Db :=
  match find (fun l => l_id l =? lid) (lessons d) with
  | None => (err 404 "Lesson not found", d)
  | Some lesson =>
      if otp_enabled lesson =? 0
      then (err 400 "OTP input is not yet enabled by the representative", d)
      else if otp_expired now (start_time lesson)
      then (err 400 "OTP has expired (20 minutes elapsed)",
            expire_student lid sid d)
      else
        match find_record lid sid code d with
        | None => (err 400 "Invalid OTP", d)
        | Some record =>
            if Status_eqb (status record) Present
            then (err 400 "Already marked present", d)
            else (ok JSuccess,
                  update_attendance (fun a => a_id a =? a_id record)
                                    (set_present now) d)
        end
  end.

(** ** The server as a transition system

    The handlers that write one of the four tables; the remaining routes
    only read them or touch the settings table. *)

Inductive Op :=
| PostStudents (name adm : string) (rng : nat -> Z)
| PostUnits (name lect : string)
| PutStudent (id : Z) (name adm : string)
| DeleteStudent (id : Z)
| PutUnit (id : Z) (name lect : string)
| DeleteUnit (id : Z)
| LessonsStart (r : StartReq) (rng : nat -> Z)
| LecturerMark (lid : Z) (code : string)
| LessonsRestart (rng : nat -> Z)
| EnableOtp (id : Z)
| LessonsActive
| AttendanceMark (lid sid : Z) (code : string).

Definition handle (o : Op) (now : Z) (d : Db) : Response * Db :=
  match o with
  | PostStudents name adm rng => post_students name adm rng now d
  | PostUnits name lect => post_units name lect d
  | PutStudent id name adm => put_student id name adm d
  | DeleteStudent id => delete_student id d
  | PutUnit id name lect => put_unit id name lect d
  | DeleteUnit id => delete_unit id d
  | LessonsStart r rng => post_lessons_start r rng now d
  | LecturerMark lid code => post_lecturer_mark lid code d
  | LessonsRestart rng => post_lessons_restart rng now d
  | EnableOtp id => post_enable_otp id d
  | LessonsActive => get_lessons_active now d
  | AttendanceMark lid sid code => post_attendance_mark lid sid code now d
  end.

(** The server and its clock.  Requests are served one at a time and the
    clock never runs backwards: a request arrives [delay] milliseconds
    after the previous one. *)
Record World := { db : Db; clock : Z }.

Definition step (w : World) (req : N * Op) : World :=
  let now := clock w + Z.of_N (fst req) in
  {| db := snd (handle (snd req) now (db w)); clock := now |}.

Definition run (w : World) (reqs : list (N * Op)) : World :=
  fold_left step reqs w.

(** A server started on an empty database at instant [t0]. *)
Definition boot (fk : bool) (t0 : Z) : World :=
  {| db := empty_db fk; clock := t0 |}.

Definition reachable (w : World) : Prop :=
  exists fk t0 reqs, w = run (boot fk t0) reqs.

(** ** Vocabulary of the properties *)

(** *** Rows before and after a request *)

(** [a'] is what an expiry that targets the rows satisfying [P] leaves of
    row [a]: a targeted pending row becomes absent, any other row is kept
    as it is. *)
Definition expired_where (P : AttendanceRow -> Prop) (a a' : AttendanceRow)
    : Prop :=
  (P a /\ status a = Pending /\ a' = set_absent a)
  \/ (~ (P a /\ status a = Pending) /\ a' = a).

(** No row of lesson [lid] is still pending. *)
Definition no_pending_left (lid : Z) (d : Db) : Prop :=
  forall a, In a (attendance d) -> lesson_id a = lid -> status a <> Pending.

(** [x'] is what a successful submission for row [a] at instant [now]
    leaves of row [x]. *)
Definition marked_where (a : AttendanceRow) (now : Z) (x x' : AttendanceRow)
    : Prop :=
  (x = a /\ x' = set_present now a) \/ (x <> a /\ x' = x).

(** The lesson-side conditions of a submission at instant [now]: the lesson
    exists, OTP input is enabled, at most 20 minutes since start_time. *)
Definition lesson_open (d : Db) (now lid : Z) : Prop :=
  exists lesson, In lesson (lessons d) /\ l_id lesson = lid
                 /\ otp_enabled lesson <> 0
                 /\ now - start_time lesson <= 20 * minute.

(** [a] is the row of student [sid] for lesson [lid] and holds exactly the
    submitted code. *)
Definition code_matches (d : Db) (lid sid : Z) (code : string)
    (a : AttendanceRow) : Prop :=
  In a (attendance d) /\ lesson_id a = lid /\ student_id a = sid
  /\ otp a = code.

(** Attendance row [a] references a lesson of unit [id]. *)
Definition in_unit (id : Z) (d : Db) (a : AttendanceRow) : bool :=
  existsb (fun l => of_unit id l && (l_id l =? lesson_id a)) (lessons d).

(** *** Sessions *)

(** The rows a session start or restart is expected to add for the
    students [sids] of lesson [lid]: one pending row per student, in
    order, the k-th with rowid [id + k] and the code of draw [n + k]. *)
Fixpoint fresh_rows (lid : Z) (sids : list Z) (rng : nat -> Z) (n : nat) (id : Z)
    : list AttendanceRow :=
  match sids with
  | [] => []
  | sid :: r =>
      {| a_id := id; lesson_id := lid; student_id := sid;
         otp := gen_otp (rng n); status := Pending; marked_at := None |}
      :: fresh_rows lid r rng (S n) (id + 1)
  end.

(** [sqlite_sequence] of a table whose sequence was [q] after [k] rows were
    inserted, the first with rowid [first]. *)
Definition seq_after (q first : Z) (k : nat) : Z :=
  match k with
  | O => q
  | S k' => first + Z.of_nat k'
  end.

(** The integer [parseInt] made of the body's unit_id, NULL for NaN. *)
Definition unitIdNum (arg : UnitIdArg) : option Z :=
  match arg with
  | UnitIdNum n => Some n
  | _ => None
  end.

(** *** The active lesson *)

(** Lesson [l] can be joined to a unit row: [l.unit_id = u.id] for some
    unit [u]. *)
Definition joinable (d : Db) (l : LessonRow) : Prop :=
  exists u, In u (units d) /\ unit_id l = Some (u_id u).

(** The most recently created lesson: the row of largest rowid. *)
Definition newest (d : Db) (l : LessonRow) : Prop :=
  In l (lessons d) /\ forall l', In l' (lessons d) -> l_id l' <= l_id l.

(** The most recently created lesson among those that join a unit. *)
Definition newest_joinable (d : Db) (l : LessonRow) : Prop :=
  In l (lessons d) /\ joinable d l
  /\ forall l', In l' (lessons d) -> joinable d l' -> l_id l' <= l_id l.

(** The lesson a response of GET /api/lessons/active carries, if any. *)
Definition active_lesson_of (r : Response) : option LessonRow :=
  match body r with
  | JActive l _ _ => Some l
  | _ => None
  end.

(** *** Running servers *)

(** A status may only leave pending: [s'] is [s], or [s] was pending. *)
Definition status_le (s s' : Status) : Prop := s' = s \/ s = Pending.

(** What holds of the database of a running server at clock [t]: rowids
    are unique and bounded by their sequence, attendance rows reference
    keys that have been issued, a student has at most one row per lesson,
    and an absent row belongs to a lesson that started more than 20 minutes
    ago. *)
Record Inv (d : Db) (t : Z) : Prop := {
  inv_lesson_key : NoDup (map l_id (lessons d));
  inv_lesson_seq : forall l, In l (lessons d) -> l_id l <= seq_lessons d;
  inv_student_key : NoDup (map s_id (students d));
  inv_student_seq : forall s, In s (students d) -> s_id s <= seq_students d;
  inv_att_key : NoDup (map a_id (attendance d));
  inv_att_seq : forall a, In a (attendance d) -> a_id a <= seq_attendance d;
  inv_att_lesson : forall a, In a (attendance d) -> lesson_id a <= seq_lessons d;
  inv_att_student :
    forall a, In a (attendance d) -> student_id a <= seq_students d;
  inv_att_pair :
    NoDup (map (fun a => (lesson_id a, student_id a)) (attendance d));
  inv_absent :
    forall a l, In a (attendance d) -> In l (lessons d) ->
                l_id l = lesson_id a -> status a = Absent ->
                t - start_time l > 20 * minute
}.

(** Every attendance row of [d'] either continues a row of [d] (same
    rowid and keys, status advanced at most out of pending) or is new,
    with a rowid [d] never issued. *)
Definition rows_evolve (d d' : Db) : Prop :=
  seq_attendance d <= seq_attendance d'
  /\ forall a', In a' (attendance d') ->
       (exists a, In a (attendance d) /\ a_id a = a_id a'
                  /\ lesson_id a = lesson_id a' /\ student_id a = student_id a'
                  /\ status_le (status a) (status a'))
       \/ seq_attendance d < a_id a'.

(** Every lesson of [d'] either continues a lesson of [d], with OTP input
    still enabled if it was, or is new. *)
Definition lessons_evolve (d d' : Db) : Prop :=
  seq_lessons d <= seq_lessons d'
  /\ forall l', In l' (lessons d') ->
       (exists l, In l (lessons d) /\ l_id l = l_id l'
                  /\ (otp_enabled l <> 0 -> otp_enabled l' <> 0))
       \/ seq_lessons d < l_id l'.

Definition is_restart (o : Op) : bool :=
  match o with
  | LessonsRestart _ => true
  | _ => false
  end.

(** *** A classroom

    The concrete servers the examples run on.  Requests carry the delay
    since the previous one, in milliseconds. *)

Definition draws (n : nat) : Z := Z.of_nat n * 7.

Definition maths_session : StartReq :=
  {| sr_unit_id := UnitIdNum 1; sr_venue := "Room 4";
     sr_duration := Some 60; sr_scheduled_start := "08:00";
     sr_scheduled_end := "09:00" |}.

(** One unit and two students, no session yet; foreign keys enforced. *)
Definition enrolled : World :=
  run (boot true 0)
      [(0%N, PostUnits "Maths" "Dr Otieno");
       (0%N, PostStudents "Achieng" "ADM-001" draws);
       (0%N, PostStudents "Baraka" "ADM-002" draws)].

(** A session started at instant 0, OTP input enabled one millisecond
    later.  The codes drawn are 100007 and 100014. *)
Definition classroom : World :=
  run enrolled
      [(0%N, LessonsStart maths_session draws);
       (1%N, EnableOtp 1)].

(** The first student submitted the right code one second later. *)
Definition first_marked : World :=
  run classroom [(1000%N, AttendanceMark 1 1 "100007")].

(** A second session started a minute after the first, with a unit_id that
    is no number. *)
Definition stray_session : StartReq :=
  {| sr_unit_id := UnitIdNaN; sr_venue := "Lab"; sr_duration := None;
     sr_scheduled_start := "10:00"; sr_scheduled_end := "11:00" |}.

Definition two_sessions : World :=
  run classroom [(60000%N, LessonsStart stray_session draws)].

(** The same on a connection that does not enforce foreign keys: the
    second session is started for unit 7, which does not exist. *)
Definition dangling_session : StartReq :=
  {| sr_unit_id := UnitIdNum 7; sr_venue := "Lab"; sr_duration := None;
     sr_scheduled_start := "10:00"; sr_scheduled_end := "11:00" |}.

Definition two_sessions_unenforced : World :=
  run (boot false 0)
      [(0%N, PostUnits "Maths" "Dr Otieno");
       (0%N, LessonsStart maths_session draws);
       (60000%N, LessonsStart dangling_session draws)].

(** A database whose newer lesson carries the older start_time: lesson 1
    started at hour 100, lesson 2 at instant 0. *)
Definition out_of_order : Db :=
  let l (id st : Z) :=
    {| l_id := id; unit_id := Some 1; date := st; venue := "Room 4";
       duration := 60; start_time := st; end_time := st + 3600000;
       scheduled_start := "08:00"; scheduled_end := "09:00";
       lecturer_otp := "100000"; lecturer_present := 0; otp_enabled := 0 |} in
  set_lessons [l 1 (100 * hour); l 2 0] 2 (db enrolled).

(** The classroom polled 20 minutes after the codes were enabled: both rows
    are absent. *)
Definition swept : World :=
  run classroom [(1200000%N, LessonsActive)].

(** *** Registration *)

(** The attendance row POST /api/students adds for a new student [sid]
    when lesson [l] is the active one at instant [now]: absent from the
    outset when the 20 minutes are over, pending otherwise. *)
Definition late_row (rowid sid : Z) (l : LessonRow) (code : string) (now : Z)
    : AttendanceRow :=
  {| a_id := rowid; lesson_id := l_id l; student_id := sid; otp := code;
     status := if otp_expired now (start_time l) then Absent else Pending;
     marked_at := None |}.

(** *** References and admission numbers *)

(** What the handlers keep besides [Inv], with or without foreign-key
    enforcement: every attendance row points at a lesson and at a student
    that exist, and no two students share an admission number. *)
Record Sound (d : Db) : Prop := {
  sound_lesson :
    forall a, In a (attendance d) -> has_lesson d (lesson_id a) = true;
  sound_student :
    forall a, In a (attendance d) -> has_student d (student_id a) = true;
  sound_admission : NoDup (map admission_number (students d))
}.

(** SET name = ?, admission_number = ? on the student of rowid [id]. *)
Definition renamed (id : Z) (name adm : string) (s : StudentRow) : StudentRow :=
  if s_id s =? id
  then {| s_id := s_id s; s_name := name; admission_number := adm |}
  else s.

(** A session whose end time is no date: 200000000000 minutes. *)
Definition endless_session : StartReq :=
  {| sr_unit_id := UnitIdNum 1; sr_venue := "Room 4";
     sr_duration := Some 200000000000; sr_scheduled_start := "08:00";
     sr_scheduled_end := "09:00" |}.

(** A session that ends on the last instant a date can hold, when it is
    started at instant 0: 144000000000 minutes. *)
Definition longest_session : StartReq :=
  {| sr_unit_id := UnitIdNum 1; sr_venue := "Room 4";
     sr_duration := Some 144000000000; sr_scheduled_start := "08:00";
     sr_scheduled_end := "09:00" |}.

(** That session started and OTP input enabled. *)
Definition longest_classroom : World :=
  run enrolled
      [(0%N, LessonsStart longest_session draws);
       (1%N, EnableOtp 1)].

(** One unit and two students, the second registered with the smaller
    admission number. *)
Definition late_enrolment : World :=
  run (boot true 0)
      [(0%N, PostUnits "Maths" "Dr Otieno");
       (0%N, PostStudents "Achieng" "ADM-002" draws);
       (0%N, PostStudents "Baraka" "ADM-001" draws)].

(** A classroom on a connection that does not enforce foreign keys. *)
Definition unenforced_classroom : World :=
  run (boot false 0)
      [(0%N, PostUnits "Maths" "Dr Otieno");
       (0%N, PostStudents "Achieng" "ADM-001" draws);
       (0%N, LessonsStart maths_session draws)].

(** *** Dates *)

(** The instants a Date can hold: 100 000 000 days either side of the
    epoch, in milliseconds. *)
Definition in_date_range (t : Z) : Prop :=
  -8640000000000000 <= t <= 8640000000000000.

(** *** The order of the admission numbers *)

(** [a] comes no later than [b] by admission number, compared byte by
    byte. *)
Definition admission_le (a b : StudentRow) : Prop :=
  String.leb (admission_number a) (admission_number b) = true.

(** How many students of the table have an admission number that comes
    before the one of [s]. *)
Definition admission_rank (s : StudentRow) (table : list StudentRow) : nat :=
  List.length
    (filter (fun x => String.ltb (admission_number x) (admission_number s))
            table).

(** *** What a code looks like *)

Definition is_digit (c : Ascii.ascii) : bool :=
  let n := Ascii.nat_of_ascii c in (48 <=? n)%nat && (n <=? 57)%nat.

Fixpoint all_digits (s : string) : bool :=
  match s with
  | EmptyString => true
  | String c rest => is_digit c && all_digits rest
  end.

Definition six_digits (s : string) : bool :=
  (String.length s =? 6)%nat && all_digits s.

(** [keep] holds of the [count] integers from [r] on. *)
Fixpoint below (count : nat) (r : Z) (keep : Z -> bool) : bool :=
  match count with
  | O => true
  | S k => keep r && below k (r + 1) keep
  end.

(** *** Records that stay *)

Definition unit_kept (u u' : UnitRow) : Prop := u_id u' = u_id u.

(** The lesson is the same session: what a restart, the lecturer's
    verification and the OTP switch leave alone. *)
Definition lesson_kept (l l' : LessonRow) : Prop :=
  l_id l' = l_id l /\ unit_id l' = unit_id l /\ date l' = date l
  /\ venue l' = venue l /\ duration l' = duration l
  /\ scheduled_start l' = scheduled_start l
  /\ scheduled_end l' = scheduled_end l
  /\ lecturer_otp l' = lecturer_otp l
  /\ (lecturer_present l <> 0 -> lecturer_present l' <> 0).

(** The table [table'] holds the rows of [table] in their order, each one
    continued by a row that [kept] relates to it, and then new rows only. *)
Definition extends {Row : Type} (kept : Row -> Row -> Prop)
    (table table' : list Row) : Prop :=
  exists same more, table' = same ++ more /\ Forall2 kept table same.

(** No request removes a unit or a lesson, or changes what identifies a
    lesson. *)
Definition persist (d d' : Db) : Prop :=
  extends unit_kept (units d) (units d')
  /\ extends lesson_kept (lessons d) (lessons d').

(** * Properties *)

(** ** Lists and rows *)

Lemma Forall2_map_same {A : Type} (R : A -> A -> Prop) (f : A -> A) (l : list A) :
  (forall a, In a l -> R a (f a)) -> Forall2 R l (map f l).
Proof.
  induction l as [|x l IH]; intros H; cbn; constructor.
  - apply H; now left.
  - apply IH; intros a Ha; apply H; now right.
Qed.

Lemma date_valid_true (t : Z) : date_valid t = true <-> in_date_range t.
Proof.
  unfold date_valid, in_date_range.
  rewrite andb_true_iff, !Z.leb_le; reflexivity.
Qed.

Lemma date_valid_false (t : Z) : date_valid t = false <-> ~ in_date_range t.
Proof.
  rewrite <- date_valid_true; destruct (date_valid t); split;
    congruence || (intros H; exfalso; now apply H).
Qed.

Lemma Status_eqb_eq (a b : Status) : Status_eqb a b = true <-> a = b.
Proof. destruct a, b; cbn; split; congruence. Qed.

Lemma Status_eqb_neq (a b : Status) : Status_eqb a b = false <-> a <> b.
Proof. destruct a, b; cbn; split; congruence. Qed.

Lemma is_pending_true (a : AttendanceRow) : is_pending a = true <-> status a = Pending.
Proof. apply Status_eqb_eq. Qed.

Lemma find_lesson_some (lid : Z) (ls : list LessonRow) (l : LessonRow) :
  find (fun x => l_id x =? lid) ls = Some l -> In l ls /\ l_id l = lid.
Proof.
  intros H; apply find_some in H; destruct H as [Hin Heq].
  split; [assumption | now apply Z.eqb_eq].
Qed.

Lemma otp_expired_true (now st : Z) :
  otp_expired now st = true <-> now - st > 20 * minute.
Proof. unfold otp_expired; rewrite Z.gtb_gt; reflexivity. Qed.

Lemma otp_expired_false (now st : Z) :
  otp_expired now st = false <-> now - st <= 20 * minute.
Proof.
  unfold otp_expired; rewrite Z.gtb_ltb, Z.ltb_ge; reflexivity.
Qed.

(** What an expiry statement does to each row. *)
Lemma update_absent_rows (p : AttendanceRow -> bool) (P : AttendanceRow -> Prop)
    (d : Db) :
  (forall a, p a = true <-> P a /\ status a = Pending) ->
  Forall2 (expired_where P) (attendance d)
          (attendance (update_attendance p set_absent d)).
Proof.
  intros Hp; cbn; apply Forall2_map_same; intros a _.
  destruct (p a) eqn:E.
  - left; apply Hp in E; tauto.
  - right; split; [|reflexivity].
    intros H; apply Hp in H; congruence.
Qed.


Lemma expire_lesson_rows (lid : Z) (d : Db) :
  Forall2 (expired_where (fun a => lesson_id a = lid))
          (attendance d) (attendance (expire_lesson lid d)).
Proof.
  apply update_absent_rows; intros a.
  unfold of_lesson.
  rewrite !andb_true_iff, !Z.eqb_eq, is_pending_true; tauto.
Qed.


(** ** Late submissions and the expiry sweep *)



Lemma Forall2_in_right {A : Type} (R : A -> A -> Prop) (l l' : list A) (y : A) :
  Forall2 R l l' -> In y l' -> exists x, In x l /\ R x y.
Proof.
  induction 1 as [|x x' l l' Hxy _ IH]; intros Hin.
  - contradiction.
  - destruct Hin as [<-|Hin].
    + exists x; split; [now left | assumption].
    + destruct (IH Hin) as [z [Hz Hr]]; exists z; split; [now right | assumption].
Qed.

Lemma expired_lesson_no_pending (lid : Z) (d d' : Db) :
  Forall2 (expired_where (fun a => lesson_id a = lid))
          (attendance d) (attendance d') ->
  no_pending_left lid d'.
Proof.
  intros HF a' Hin Hl.
  destruct (Forall2_in_right _ _ _ _ HF Hin) as [a [_ [(_ & _ & ->)|(Hn & ->)]]].
  - cbn; discriminate.
  - intros Hp; apply Hn; split; assumption.
Qed.





(** ** Cascade delete of a unit *)

Lemma set_attendance_same (d : Db) :
  set_attendance (attendance d) (seq_attendance d) d = d.
Proof. destruct d; reflexivity. Qed.

Lemma filter_all {R : Type} (rows : list R) :
  filter (fun _ => true) rows = rows.
Proof.
  induction rows as [|x rows IH]; cbn; [reflexivity | now rewrite IH].
Qed.

Lemma filter_filter {A : Type} (p q : A -> bool) (l : list A) :
  filter p (filter q l) = filter (fun x => q x && p x) l.
Proof.
  induction l as [|x l IH]; cbn; [reflexivity|].
  destruct (q x); cbn; [destruct (p x)|]; now rewrite IH.
Qed.

Lemma existsb_filter {A : Type} (p q : A -> bool) (l : list A) :
  existsb p (filter q l) = existsb (fun x => q x && p x) l.
Proof.
  induction l as [|x l IH]; cbn; [reflexivity|].
  destruct (q x); cbn; now rewrite IH.
Qed.

(** The loop over the lessons of the unit deletes the rows that reference
    one of them, and nothing else. *)
Lemma delete_loop (ls : list LessonRow) (d : Db) :
  fold_left (fun acc lesson => delete_attendance_of_lesson (l_id lesson) acc) ls d
  = set_attendance
      (filter (fun a => negb (existsb (fun l => l_id l =? lesson_id a) ls))
              (attendance d))
      (seq_attendance d) d.
Proof.
  revert d; induction ls as [|l ls IH]; intros d; cbn [fold_left].
  - cbn [existsb negb]; rewrite filter_all; symmetry; apply set_attendance_same.
  - rewrite IH; unfold delete_attendance_of_lesson, set_attendance; cbn.
    f_equal; rewrite filter_filter; apply filter_ext; intros a.
    unfold of_lesson; rewrite (Z.eqb_sym (l_id l)), negb_orb; reflexivity.
Qed.

(** Given the lessons of the unit, the rest of the transaction cannot be
    refused and cascades: it removes the unit, its lessons and their
    attendance rows, and keeps every other row. *)
Lemma delete_unit_rows_cascade (id : Z) (d : Db) :
  exists d',
    delete_unit_rows (filter (of_unit id) (lessons d)) id d = Some d'
    /\ units d' = filter (fun u => negb (u_id u =? id)) (units d)
    /\ lessons d' = filter (fun l => negb (of_unit id l)) (lessons d)
    /\ attendance d' = filter (fun a => negb (in_unit id d a)) (attendance d)
    /\ students d' = students d.
Proof.
  unfold delete_unit_rows; rewrite delete_loop.
  set (d1 := set_attendance _ _ d).
  assert (H1 : delete_lessons_of_unit id d1
               = Some (set_lessons (filter (fun l => negb (of_unit id l)) (lessons d))
                                   (seq_lessons d) d1)).
  { unfold delete_lessons_of_unit.
    replace (existsb _ (attendance d1)) with false; [now rewrite andb_false_r|].
    symmetry; apply not_true_is_false; intros H.
    apply existsb_exists in H; destruct H as [a [Hin Ho]].
    subst d1; cbn in Hin, Ho.
    apply filter_In in Hin; destruct Hin as [_ Hk].
    apply andb_true_iff in Ho; destruct Ho as [Ho _].
    rewrite Ho in Hk; discriminate. }
  rewrite H1; set (d2 := set_lessons _ _ d1).
  assert (H2 : delete_unit_row id d2
               = Some (set_units (filter (fun u => negb (u_id u =? id)) (units d))
                                 (seq_units d) d2)).
  { unfold delete_unit_row.
    replace (existsb _ (lessons d2)) with false; [now rewrite andb_false_r|].
    symmetry; apply not_true_is_false; intros H.
    apply existsb_exists in H; destruct H as [l [Hin Ho]].
    subst d2 d1; cbn in Hin, Ho.
    apply filter_In in Hin; destruct Hin as [_ Hk].
    unfold of_unit in Hk; destruct (unit_id l) as [u|]; [|discriminate].
    apply andb_true_iff in Ho; destruct Ho as [Ho _].
    apply existsb_exists in Ho; destruct Ho as [r [Hr Heq]].
    apply filter_In in Hr; destruct Hr as [_ Hid].
    apply Z.eqb_eq in Hid, Heq; subst.
    rewrite Z.eqb_refl in Hk; discriminate. }
  rewrite H2; eexists; split; [reflexivity|]; subst d2 d1; cbn.
  repeat split.
  apply filter_ext; intros a; unfold in_unit.
  now rewrite existsb_filter.
Qed.

(** The handler never reaches that part: its SELECT is run without a
    value for its parameter, the driver throws, and the transaction is
    rolled back. *)
Lemma delete_unit_result (id : Z) (d : Db) :
  delete_unit id d = (err 500 "Too few parameter values were provided", d).
Proof. reflexivity. Qed.

(** Had the unbound parameter been read as NULL instead, the SELECT would
    find no lesson and the loop would delete no attendance row: the rest of
    the transaction keeps the attendance table as it is, or is refused (as
    in the classroom, where foreign keys are enforced and lesson 1 has
    attendance). *)
Lemma delete_unit_rows_without_lessons (id : Z) (d d' : Db) :
  delete_unit_rows [] id d = Some d' -> attendance d' = attendance d.
Proof.
  unfold delete_unit_rows, delete_lessons_of_unit, delete_unit_row; cbn [fold_left].
  match goal with |- context [if ?c then None else _] => destruct c end;
    [discriminate|].
  match goal with |- context [if ?c then None else _] => destruct c end;
    [discriminate|].
  now intros [= <-].
Qed.

Lemma delete_unit_rows_refused_in_classroom :
  delete_unit_rows [] 1 (db classroom) = None.
Proof. reflexivity. Qed.

(** C4, code defect: DELETE /api/units/:id answers 500 and deletes
    nothing, whatever the unit.  In the classroom, the unit, its lesson and
    the two attendance rows of that lesson are all still there after the
    request. *)
Theorem delete_unit_deletes_nothing :
  (forall id d,
     delete_unit id d = (err 500 "Too few parameter values were provided", d))
  /\ (let r := delete_unit 1 (db classroom) in
      code (fst r) = 500
      /\ has_unit (snd r) 1 = true
      /\ has_lesson (snd r) 1 = true
      /\ List.length (filter (in_unit 1 (db classroom)) (attendance (snd r)))
         = 2%nat).
Proof.
  split; [intros id d; apply delete_unit_result|].
  cbv zeta; repeat split.
Qed.

(** ** Starting and restarting a session *)

Lemma max_id_cons (x : Z) (ids : list Z) :
  max_id (x :: ids) = Z.max x (max_id ids).
Proof. reflexivity. Qed.

Lemma max_id_nonneg (ids : list Z) : 0 <= max_id ids.
Proof.
  induction ids as [|x l IH]; [cbn; lia | rewrite max_id_cons; lia].
Qed.

Lemma max_id_ge (ids : list Z) (x : Z) : In x ids -> x <= max_id ids.
Proof.
  induction ids as [|y l IH]; intros H; [contradiction|].
  rewrite max_id_cons; destruct H as [->|H]; [lia | specialize (IH H); lia].
Qed.

Lemma max_id_snoc (ids : list Z) (x : Z) :
  max_id (ids ++ [x]) = Z.max (max_id ids) (Z.max x 0).
Proof.
  induction ids as [|y l IH]; [cbn; lia|].
  cbn [app]; rewrite !max_id_cons, IH; lia.
Qed.

Lemma next_id_gt_seq (q : Z) (ids : list Z) : q < next_id q ids.
Proof. unfold next_id; lia. Qed.

Lemma next_id_gt_ids (q : Z) (ids : list Z) (x : Z) :
  In x ids -> x < next_id q ids.
Proof. intros H; apply max_id_ge in H; unfold next_id; lia. Qed.

Lemma next_id_after_insert (q : Z) (ids : list Z) :
  next_id (next_id q ids) (ids ++ [next_id q ids]) = next_id q ids + 1.
Proof.
  unfold next_id; rewrite max_id_snoc.
  pose proof (max_id_nonneg ids); lia.
Qed.

Lemma latest_by_in {A : Type} (key : A -> Z) (l : list A) (x : A) :
  latest_by key l = Some x -> In x l.
Proof.
  revert x; induction l as [|y l IH]; cbn; intros x H; [discriminate|].
  destruct (latest_by key l) as [z|].
  - destruct (key y <? key z); injection H as <-; [right; now apply IH | now left].
  - injection H as <-; now left.
Qed.

Lemma recent_lesson_in (now : Z) (d : Db) (l : LessonRow) :
  recent_lesson now d = Some l ->
  In l (lessons d) /\ sql_recent now (start_time l) = true.
Proof.
  intros H; apply latest_by_in in H; now apply filter_In in H.
Qed.

Lemma has_lesson_in (d : Db) (l : LessonRow) :
  In l (lessons d) -> has_lesson d (l_id l) = true.
Proof.
  intros H; apply existsb_exists; exists l; split; [assumption | apply Z.eqb_refl].
Qed.

Lemma has_student_in (d : Db) (s : StudentRow) :
  In s (students d) -> has_student d (s_id s) = true.
Proof.
  intros H; apply existsb_exists; exists s; split; [assumption | apply Z.eqb_refl].
Qed.

(** The insert loop goes through whenever its keys resolve, and appends
    exactly the expected rows. *)
Lemma insert_rows_ok (lid : Z) (sids : list Z) (rng : nat -> Z) (n : nat) (d : Db) :
  (foreign_keys d = true ->
   has_lesson d lid = true /\ Forall (fun sid => has_student d sid = true) sids) ->
  let first := next_id (seq_attendance d) (map a_id (attendance d)) in
  insert_attendance_rows lid sids rng n d
  = (set_attendance (attendance d ++ fresh_rows lid sids rng n first)
                    (seq_after (seq_attendance d) first (List.length sids)) d,
     true).
Proof.
  revert n d; induction sids as [|sid r IH]; intros n d Hfk; cbv zeta.
  - cbn; rewrite app_nil_r, set_attendance_same; reflexivity.
  - cbn [insert_attendance_rows]; unfold insert_attendance.
    assert (Hg : negb (foreign_keys d) || (has_lesson d lid && has_student d sid) = true).
    { destruct (foreign_keys d); [|reflexivity].
      destruct (Hfk eq_refl) as [Hl Hs]; inversion Hs; subst.
      cbn; apply andb_true_iff; split; assumption. }
    rewrite Hg.
    remember (next_id (seq_attendance d) (map a_id (attendance d))) as first eqn:Hfirst.
    rewrite IH.
    + cbn [attendance seq_attendance set_attendance].
      rewrite map_app; cbn [map a_id].
      rewrite Hfirst at 2 3 5 6; rewrite next_id_after_insert, <- Hfirst.
      rewrite <- app_assoc; cbn [app fresh_rows List.length seq_after].
      unfold set_attendance; cbn; f_equal; f_equal.
      destruct r; cbn [List.length seq_after]; lia.
    + cbn; intros Hk; destruct (Hfk Hk) as [Hl Hs]; split; [assumption|].
      now inversion Hs.
Qed.

Lemma fresh_rows_length (lid : Z) (sids : list Z) (rng : nat -> Z) (n : nat) (id : Z) :
  List.length (fresh_rows lid sids rng n id) = List.length sids.
Proof.
  revert n id; induction sids as [|sid r IH]; intros n id; cbn;
    [reflexivity | now rewrite IH].
Qed.

(** Row k of the expected rows: student k, pending, never marked, with its
    own draw and rowid. *)
Lemma fresh_rows_nth (lid : Z) (sids : list Z) (rng : nat -> Z) (n : nat) (id : Z)
    (k : nat) (sid : Z) :
  nth_error sids k = Some sid ->
  nth_error (fresh_rows lid sids rng n id) k
  = Some {| a_id := id + Z.of_nat k; lesson_id := lid; student_id := sid;
            otp := gen_otp (rng (n + k)%nat); status := Pending;
            marked_at := None |}.
Proof.
  revert n id k; induction sids as [|x r IH]; intros n id k H.
  - destruct k; discriminate.
  - destruct k as [|k]; cbn [nth_error fresh_rows] in *.
    + injection H as ->; now rewrite Z.add_0_r, Nat.add_0_r.
    + rewrite (IH (S n) (id + 1) k H).
      replace (id + 1 + Z.of_nat k) with (id + Z.of_nat (S k)) by lia.
      replace (S n + k)%nat with (n + S k)%nat by lia.
      reflexivity.
Qed.

Lemma index_insert_perm (s : StudentRow) (index : list StudentRow) :
  Permutation (index_insert s index) (s :: index).
Proof.
  induction index as [|x rest IH]; cbn [index_insert]; [reflexivity|].
  destruct (String.leb (admission_number s) (admission_number x));
    [reflexivity|].
  rewrite IH; apply perm_swap.
Qed.

(** The index holds the rows of the table, each once. *)
Lemma admission_index_perm (table : list StudentRow) :
  Permutation (admission_index table) table.
Proof.
  induction table as [|s table IH]; cbn; [reflexivity|].
  now rewrite index_insert_perm, IH.
Qed.

Lemma select_student_ids_perm (table : list StudentRow) :
  Permutation (select_student_ids table) (map s_id table).
Proof. apply Permutation_map, admission_index_perm. Qed.

Lemma select_student_ids_length (table : list StudentRow) :
  List.length (select_student_ids table) = List.length table.
Proof.
  rewrite (Permutation_length (select_student_ids_perm table)).
  apply length_map.
Qed.

Lemma select_student_ids_NoDup (table : list StudentRow) :
  NoDup (map s_id table) -> NoDup (select_student_ids table).
Proof.
  apply Permutation_NoDup; symmetry; apply select_student_ids_perm.
Qed.

Lemma select_student_ids_in (table : list StudentRow) (sid : Z) :
  In sid (select_student_ids table) -> exists s, s_id s = sid /\ In s table.
Proof.
  intros H; apply in_map_iff.
  exact (Permutation_in _ (select_student_ids_perm table) H).
Qed.

(** *** The index is sorted *)

Lemma ascii_compare_refl (a : Ascii.ascii) : Ascii.compare a a = Eq.
Proof. unfold Ascii.compare; apply N.compare_refl. Qed.

Lemma ascii_compare_lt_trans (a b c : Ascii.ascii) :
  Ascii.compare a b = Lt -> Ascii.compare b c = Lt -> Ascii.compare a c = Lt.
Proof.
  unfold Ascii.compare; rewrite !N.compare_lt_iff; apply N.lt_trans.
Qed.

Lemma string_compare_refl (a : string) : String.compare a a = Eq.
Proof.
  induction a as [|x a IH]; cbn; [reflexivity|].
  now rewrite ascii_compare_refl.
Qed.

Lemma string_compare_lt_trans (a b c : string) :
  String.compare a b = Lt -> String.compare b c = Lt -> String.compare a c = Lt.
Proof.
  revert b c; induction a as [|x a IH]; intros [|y b] [|z c]; cbn;
    try discriminate; try reflexivity.
  destruct (Ascii.compare x y) eqn:Cxy; try discriminate;
    destruct (Ascii.compare y z) eqn:Cyz; try discriminate; intros H1 H2.
  - apply Ascii.compare_eq_iff in Cxy, Cyz; subst.
    rewrite ascii_compare_refl; now apply (IH b c).
  - apply Ascii.compare_eq_iff in Cxy; subst; now rewrite Cyz.
  - apply Ascii.compare_eq_iff in Cyz; subst; now rewrite Cxy.
  - now rewrite (ascii_compare_lt_trans x y z).
Qed.

Lemma string_leb_trans (a b c : string) :
  String.leb a b = true -> String.leb b c = true -> String.leb a c = true.
Proof.
  unfold String.leb.
  destruct (String.compare a b) eqn:Cab; try discriminate;
    destruct (String.compare b c) eqn:Cbc; try discriminate; intros _ _.
  - apply String.compare_eq_iff in Cab, Cbc; subst; now rewrite string_compare_refl.
  - apply String.compare_eq_iff in Cab; subst; now rewrite Cbc.
  - apply String.compare_eq_iff in Cbc; subst; now rewrite Cab.
  - now rewrite (string_compare_lt_trans a b c).
Qed.

(** Before, in the strict sense: no later and not the same number. *)
Lemma string_ltb_of_leb (a b : string) :
  String.leb a b = true -> a <> b -> String.ltb a b = true.
Proof.
  unfold String.leb, String.ltb; intros H Hne.
  destruct (String.compare a b) eqn:C; [|reflexivity | discriminate].
  apply String.compare_eq_iff in C; contradiction.
Qed.

Lemma string_ltb_not_leb (a b : string) :
  String.leb a b = true -> String.ltb b a = false.
Proof.
  unfold String.leb, String.ltb; rewrite (String.compare_antisym a b).
  destruct (String.compare b a); cbn; [reflexivity | discriminate | reflexivity].
Qed.

Lemma index_insert_sorted (s : StudentRow) (index : list StudentRow) :
  StronglySorted admission_le index ->
  StronglySorted admission_le (index_insert s index).
Proof.
  induction 1 as [|x rest Hrest IH Hx]; cbn [index_insert].
  - constructor; [constructor | constructor].
  - destruct (String.leb (admission_number s) (admission_number x)) eqn:C.
    + constructor; [now constructor|].
      constructor; [exact C|].
      apply Forall_forall; intros y Hy.
      unfold admission_le; apply (string_leb_trans _ _ _ C).
      exact (proj1 (Forall_forall _ _) Hx y Hy).
    + constructor; [exact IH|].
      apply Forall_forall; intros y Hy.
      apply (Permutation_in _ (index_insert_perm s rest)) in Hy.
      destruct Hy as [<- | Hy].
      * unfold admission_le.
        destruct (String.leb_total (admission_number s) (admission_number x));
          [congruence | assumption].
      * exact (proj1 (Forall_forall _ _) Hx y Hy).
Qed.

Lemma admission_index_sorted (table : list StudentRow) :
  StronglySorted admission_le (admission_index table).
Proof.
  induction table as [|s table IH]; cbn; [constructor|].
  now apply index_insert_sorted.
Qed.

Lemma admission_rank_perm (s : StudentRow) (table table' : list StudentRow) :
  Permutation table table' -> admission_rank s table = admission_rank s table'.
Proof.
  unfold admission_rank; induction 1 as [|x l l' _ IH|x y l|l l' l'' _ IH1 _ IH2];
    cbn; [reflexivity | | | congruence].
  - destruct (String.ltb _ _); cbn; now rewrite IH.
  - now destruct (String.ltb (admission_number y) _),
                 (String.ltb (admission_number x) _).
Qed.

Lemma filter_nobody (keep : StudentRow -> bool) (table : list StudentRow) :
  (forall s, In s table -> keep s = false) -> filter keep table = [].
Proof.
  induction table as [|s table IH]; intros H; cbn; [reflexivity|].
  rewrite (H s (or_introl eq_refl)); apply IH; intros y Hy; apply H; now right.
Qed.

(** In a sorted table without repeated numbers a row stands at its rank. *)
Lemma sorted_position (index : list StudentRow) (k : nat) (s : StudentRow) :
  StronglySorted admission_le index ->
  NoDup (map admission_number index) ->
  nth_error index k = Some s -> admission_rank s index = k.
Proof.
  intros Hs; revert k; induction Hs as [|x rest Hrest IH Hx]; intros k Hnd Hk.
  - destruct k; discriminate.
  - inversion Hnd as [|? ? Hnot Hnd']; subst.
    unfold admission_rank; cbn [filter].
    destruct k as [|k]; cbn [nth_error] in Hk.
    + injection Hk as <-.
      unfold String.ltb at 1; rewrite string_compare_refl.
      rewrite filter_nobody; [reflexivity|].
      intros y Hy; apply string_ltb_not_leb.
      exact (proj1 (Forall_forall _ _) Hx y Hy).
    + pose proof (nth_error_In _ _ Hk) as Hin.
      rewrite string_ltb_of_leb.
      * cbn [List.length]; f_equal; now apply IH.
      * exact (proj1 (Forall_forall _ _) Hx s Hin).
      * intros E; apply Hnot; rewrite E; now apply in_map.
Qed.

(** The scan of the index yields a student after exactly the students
    whose admission numbers come before. *)
Lemma select_position (table : list StudentRow) (s : StudentRow) :
  NoDup (map admission_number table) -> In s table ->
  nth_error (select_student_ids table) (admission_rank s table) = Some (s_id s).
Proof.
  intros Hnd Hin.
  pose proof (admission_index_perm table) as Hp.
  assert (Hin' : In s (admission_index table))
    by (apply (Permutation_in _ (Permutation_sym Hp)); assumption).
  apply In_nth_error in Hin'; destruct Hin' as [k Hk].
  assert (Hr : admission_rank s (admission_index table) = k).
  { apply sorted_position; [apply admission_index_sorted | | assumption].
    apply (Permutation_NoDup (l := map admission_number table)); [|assumption].
    apply Permutation_map; now symmetry. }
  rewrite <- (admission_rank_perm s _ _ Hp), Hr.
  unfold select_student_ids; now rewrite nth_error_map, Hk.
Qed.

Lemma all_students_resolve (d : Db) :
  Forall (fun sid => has_student d sid = true) (select_student_ids (students d)).
Proof.
  apply Forall_forall; intros sid H.
  apply (Permutation_in _ (select_student_ids_perm (students d))) in H.
  apply in_map_iff in H.
  destruct H as [s [<- Hs]]; now apply has_student_in.
Qed.

Lemma fresh_rows_at (old : list AttendanceRow) (lid : Z) (sids : list Z)
    (rng : nat -> Z) (n : nat) (id : Z) (k : nat) (sid : Z) :
  nth_error sids k = Some sid ->
  nth_error (old ++ fresh_rows lid sids rng n id) (List.length old + k)
  = Some {| a_id := id + Z.of_nat k; lesson_id := lid; student_id := sid;
            otp := gen_otp (rng (n + k)%nat); status := Pending;
            marked_at := None |}.
Proof.
  intros H; rewrite nth_error_app2 by lia.
  replace (List.length old + k - List.length old)%nat with k by lia.
  now apply fresh_rows_nth.
Qed.

Lemma to_int_proper (z : Z) :
  Z.to_int z <> Decimal.Pos Decimal.Nil /\ Z.to_int z <> Decimal.Neg Decimal.Nil.
Proof.
  destruct z as [|p|p]; cbn; split; try discriminate;
    intros H; injection H as H; now apply DecimalPos.Unsigned.to_uint_nonnil in H.
Qed.

Lemma gen_otp_read_back (r : Z) :
  option_map Z.of_int (NilZero.int_of_string (gen_otp r)) = Some (100000 + r).
Proof.
  unfold gen_otp; destruct (to_int_proper (100000 + r)) as [Hp Hn].
  rewrite (NilZero.isi _ Hp Hn); cbn [option_map]; now rewrite DecimalZ.of_to.
Qed.

(** What a start that is not refused leaves behind. *)
Lemma start_goes_through (r : StartReq) (rng : nat -> Z) (now : Z) (d : Db) :
  sr_unit_id r <> UnitIdFalsy ->
  (forall n, sr_unit_id r = UnitIdNum n -> foreign_keys d = true ->
             has_unit d n = true) ->
  date_valid (now + durationNum r * 60000) = true ->
  let lessonId := next_id (seq_lessons d) (map l_id (lessons d)) in
  let first := next_id (seq_attendance d) (map a_id (attendance d)) in
  let sids := select_student_ids (students d) in
  post_lessons_start r rng now d
  = (ok (JStarted lessonId),
     set_attendance
       (attendance d ++ fresh_rows lessonId sids rng 1 first)
       (seq_after (seq_attendance d) first (List.length sids))
       (set_lessons
          (lessons d
           ++ [{| l_id := lessonId; unit_id := unitIdNum (sr_unit_id r);
                  date := now; venue := sr_venue r; duration := durationNum r;
                  start_time := now; end_time := now + durationNum r * 60000;
                  scheduled_start := sr_scheduled_start r;
                  scheduled_end := sr_scheduled_end r;
                  lecturer_otp := gen_otp (rng 0%nat);
                  lecturer_present := 0; otp_enabled := 0 |}])
          lessonId d)).
Proof.
  intros Htruthy Hfk Hdate lessonId first sids.
  assert (Hins : insert_lesson (unitIdNum (sr_unit_id r)) now (sr_venue r)
                   (durationNum r) now (now + durationNum r * 60000)
                   (sr_scheduled_start r) (sr_scheduled_end r)
                   (gen_otp (rng 0%nat)) d
                 = Some (lessonId,
                         set_lessons
                           (lessons d
                            ++ [{| l_id := lessonId;
                                   unit_id := unitIdNum (sr_unit_id r);
                                   date := now; venue := sr_venue r;
                                   duration := durationNum r;
                                   start_time := now;
                                   end_time := now + durationNum r * 60000;
                                   scheduled_start := sr_scheduled_start r;
                                   scheduled_end := sr_scheduled_end r;
                                   lecturer_otp := gen_otp (rng 0%nat);
                                   lecturer_present := 0; otp_enabled := 0 |}])
                           lessonId d)).
  { unfold insert_lesson.
    destruct (sr_unit_id r) as [| |n] eqn:E; cbn [unitIdNum]; try reflexivity.
    destruct (foreign_keys d) eqn:F; cbn [negb orb]; [|reflexivity].
    now rewrite (Hfk n eq_refl eq_refl). }
  unfold post_lessons_start; rewrite Hdate.
  destruct (sr_unit_id r) as [| |n] eqn:E; [contradiction| |];
    cbn [unitIdNum] in Hins; rewrite Hins;
    match goal with
    | |- context [insert_attendance_rows ?l ?s ?g ?n ?x] =>
        rewrite (insert_rows_ok l s g n x)
    end; try reflexivity;
    intros _; (split; [|apply all_students_resolve]);
    apply existsb_exists; eexists; (split; [apply in_or_app; right; now left|]);
    apply Z.eqb_refl.
Qed.

(** C7: POST /api/lessons/start goes through when its unit_id is truthy,
    names an existing unit if it parses to a number and foreign keys are
    enforced, and the end time, start plus duration minutes, is a valid
    date.  It then answers success and appends exactly one lesson row, with
    a rowid no lesson has, OTP input disabled, and a lecturer code made
    from the request's first draw: read as a number it is 100000 plus that
    draw.  It appends to attendance exactly one row per registered
    student, the students taken in the order of their admission numbers:
    pending, unmarked, for the new lesson, the k-th with a code made from
    its own draw 1 + k; with admission numbers that are all different,
    that is the student who has k students before it by admission number.
    Students and units are not touched. *)
Theorem start_creates_session (r : StartReq) (rng : nat -> Z) (now : Z) (d : Db) :
  sr_unit_id r <> UnitIdFalsy ->
  (forall n, sr_unit_id r = UnitIdNum n -> foreign_keys d = true ->
             has_unit d n = true) ->
  in_date_range (now + durationNum r * 60000) ->
  let lessonId := next_id (seq_lessons d) (map l_id (lessons d)) in
  let first := next_id (seq_attendance d) (map a_id (attendance d)) in
  let sids := select_student_ids (students d) in
  let res := post_lessons_start r rng now d in
  fst res = ok (JStarted lessonId)
  /\ ~ In lessonId (map l_id (lessons d))
  /\ (exists l, lessons (snd res) = lessons d ++ [l]
        /\ l = {| l_id := lessonId; unit_id := unitIdNum (sr_unit_id r);
                  date := now; venue := sr_venue r; duration := durationNum r;
                  start_time := now; end_time := now + durationNum r * 60000;
                  scheduled_start := sr_scheduled_start r;
                  scheduled_end := sr_scheduled_end r;
                  lecturer_otp := gen_otp (rng 0%nat); lecturer_present := 0;
                  otp_enabled := 0 |}
        /\ option_map Z.of_int (NilZero.int_of_string (lecturer_otp l))
           = Some (100000 + rng 0%nat))
  /\ Permutation sids (map s_id (students d))
  /\ attendance (snd res)
     = attendance d ++ fresh_rows lessonId sids rng 1 first
  /\ List.length (attendance (snd res))
     = (List.length (attendance d) + List.length (students d))%nat
  /\ (forall k sid, nth_error sids k = Some sid ->
        exists a,
          nth_error (attendance (snd res)) (List.length (attendance d) + k)
          = Some a
          /\ a = {| a_id := first + Z.of_nat k; lesson_id := lessonId;
                    student_id := sid; otp := gen_otp (rng (S k));
                    status := Pending; marked_at := None |}
          /\ option_map Z.of_int (NilZero.int_of_string (otp a))
             = Some (100000 + rng (S k)))
  /\ (NoDup (map admission_number (students d)) ->
      forall s, In s (students d) ->
        let k := admission_rank s (students d) in
        nth_error (attendance (snd res)) (List.length (attendance d) + k)
        = Some {| a_id := first + Z.of_nat k; lesson_id := lessonId;
                  student_id := s_id s; otp := gen_otp (rng (S k));
                  status := Pending; marked_at := None |})
  /\ students (snd res) = students d
  /\ units (snd res) = units d.
Proof.
  intros Htruthy Hfk Hdate lessonId first sids res.
  apply date_valid_true in Hdate.
  subst res; rewrite (start_goes_through r rng now d Htruthy Hfk Hdate).
  fold lessonId first sids.
  cbn [fst snd attendance lessons students units set_attendance set_lessons].
  split; [reflexivity|];
    split; [|split; [|split; [|split; [|split; [|split; [|split]]]]]].
  - intros Hin; apply (next_id_gt_ids (seq_lessons d)) in Hin.
    fold lessonId in Hin; lia.
  - eexists; split; [reflexivity|]; split; [reflexivity|].
    apply gen_otp_read_back.
  - apply select_student_ids_perm.
  - reflexivity.
  - rewrite length_app, fresh_rows_length; unfold sids.
    now rewrite select_student_ids_length.
  - intros k sid Hk; eexists; split; [apply fresh_rows_at; exact Hk|].
    split; [reflexivity | apply gen_otp_read_back].
  - intros Hnd s Hs; apply fresh_rows_at.
    now apply select_position.
  - split; reflexivity.
Qed.

Lemma start_creates_session_witness :
  sr_unit_id maths_session <> UnitIdFalsy
  /\ fst (post_lessons_start maths_session draws 0 (db enrolled)) = ok (JStarted 1)
  /\ List.length (attendance (snd (post_lessons_start maths_session draws 0
                                                      (db enrolled)))) = 2%nat.
Proof.
  assert (H1 : sr_unit_id maths_session <> UnitIdFalsy) by discriminate.
  assert (H2 : forall n, sr_unit_id maths_session = UnitIdNum n ->
                         foreign_keys (db enrolled) = true ->
                         has_unit (db enrolled) n = true).
  { intros n E _; injection E as <-; reflexivity. }
  assert (H3 : in_date_range (0 + durationNum maths_session * 60000))
    by (vm_compute; split; discriminate).
  destruct (start_creates_session maths_session draws 0 (db enrolled) H1 H2 H3)
    as (A & _ & _ & _ & _ & B & _).
  split; [exact H1 | split; [exact A | exact B]].
Defined.

(** A start that names a unit and is refused all the same: the end time
    is no date, [toISOString()] throws, and nothing is created. *)
Lemma start_far_end_refused :
  sr_unit_id endless_session = UnitIdNum 1
  /\ has_unit (db enrolled) 1 = true
  /\ post_lessons_start endless_session draws 0 (db enrolled)
     = (err 500 "Invalid time value", db enrolled).
Proof. split; [reflexivity|]; split; reflexivity. Qed.

(** The rows of a start follow the admission numbers, not the order of
    registration. *)
Lemma start_rows_follow_admission :
  map student_id
      (attendance (snd (post_lessons_start maths_session draws 0
                                           (db late_enrolment))))
  = [2; 1].
Proof. vm_compute; reflexivity. Qed.

Lemma existsb_of_map {R K : Type} (hit : K -> bool) (key : R -> K)
    (rows : list R) :
  existsb hit (map key rows) = existsb (fun x => hit (key x)) rows.
Proof.
  induction rows as [|x rows IH]; cbn; [reflexivity | now rewrite IH].
Qed.

Lemma update_lessons_ids (id : Z) (f : LessonRow -> LessonRow) (d : Db) :
  (forall l, l_id (f l) = l_id l) ->
  map l_id (lessons (update_lessons id f d)) = map l_id (lessons d).
Proof.
  intros Hf; cbn; rewrite map_map; apply map_ext; intros l.
  destruct (l_id l =? id); [apply Hf | reflexivity].
Qed.

Lemma has_lesson_ids (d d' : Db) (id : Z) :
  map l_id (lessons d') = map l_id (lessons d) ->
  has_lesson d' id = has_lesson d id.
Proof.
  intros H; unfold has_lesson.
  rewrite <- (existsb_of_map (fun x => x =? id) l_id (lessons d')).
  rewrite <- (existsb_of_map (fun x => x =? id) l_id (lessons d)).
  now rewrite H.
Qed.

(** C6: POST /api/lessons/restart.  When the 24-hour query selects an
    active lesson and the new end time, the instant of the request plus
    the lesson's duration, is a valid date, it succeeds: the lessons table
    keeps its rows (same rowids, in order), the active one updated in
    place with start_time the instant of the request, the new end_time and
    OTP input off; the attendance rows of that lesson are deleted and one
    pending row per registered student is appended, the students taken in
    the order of their admission numbers, the k-th with a code made from
    its own draw k (with admission numbers that are all different, the
    student who has k students before it by admission number); other
    attendance rows, students and units are kept.
    When the end time is no date the request fails with 500 before
    anything is written.  When the query selects no lesson the answer is
    404 and the database is the one it was. *)
Theorem restart_resets_attendance (rng : nat -> Z) (now : Z) (d : Db) :
  let res := post_lessons_restart rng now d in
  match recent_lesson now d with
  | Some active =>
      let kept := filter (fun a => negb (lesson_id a =? l_id active))
                         (attendance d) in
      let sids := select_student_ids (students d) in
      let first := next_id (seq_attendance d) (map a_id kept) in
      (in_date_range (now + duration active * 60000) ->
        fst res = ok JSuccess
        /\ map l_id (lessons (snd res)) = map l_id (lessons d)
        /\ lessons (snd res)
           = map (fun l => if l_id l =? l_id active
                           then {| l_id := l_id l; unit_id := unit_id l;
                                   date := date l; venue := venue l;
                                   duration := duration l; start_time := now;
                                   end_time := now + duration active * 60000;
                                   scheduled_start := scheduled_start l;
                                   scheduled_end := scheduled_end l;
                                   lecturer_otp := lecturer_otp l;
                                   lecturer_present := lecturer_present l;
                                   otp_enabled := 0 |}
                           else l) (lessons d)
        /\ Permutation sids (map s_id (students d))
        /\ attendance (snd res)
           = kept ++ fresh_rows (l_id active) sids rng 0 first
        /\ (forall k sid, nth_error sids k = Some sid ->
              exists a,
                nth_error (attendance (snd res)) (List.length kept + k)
                = Some a
                /\ a = {| a_id := first + Z.of_nat k; lesson_id := l_id active;
                          student_id := sid; otp := gen_otp (rng k);
                          status := Pending; marked_at := None |}
                /\ option_map Z.of_int (NilZero.int_of_string (otp a))
                   = Some (100000 + rng k))
        /\ (NoDup (map admission_number (students d)) ->
            forall s, In s (students d) ->
              let k := admission_rank s (students d) in
              nth_error (attendance (snd res)) (List.length kept + k)
              = Some {| a_id := first + Z.of_nat k; lesson_id := l_id active;
                        student_id := s_id s; otp := gen_otp (rng k);
                        status := Pending; marked_at := None |})
        /\ students (snd res) = students d
        /\ units (snd res) = units d)
      /\ (~ in_date_range (now + duration active * 60000) ->
          code (fst res) = 500 /\ snd res = d)
  | None => res = (err 404 "No active lesson to restart", d)
  end.
Proof.
  cbv zeta; unfold post_lessons_restart.
  destruct (recent_lesson now d) as [active|] eqn:E; [|reflexivity].
  split; [intros V; apply date_valid_true in V
         | intros V; apply date_valid_false in V; rewrite V; split; reflexivity];
    rewrite V.
  apply recent_lesson_in in E; destruct E as [Hin _].
  match goal with
  | |- context [insert_attendance_rows ?l ?s ?g ?n ?x] =>
      rewrite (insert_rows_ok l s g n x)
  end.
  - cbn [fst snd attendance lessons students units set_attendance set_lessons
         update_lessons delete_attendance_of_lesson seq_attendance].
    split; [reflexivity|]; split; [|split; [|split; [|split; [|split; [|split]]]]].
    + rewrite map_map; apply map_ext; intros l.
      destruct (l_id l =? l_id active); reflexivity.
    + reflexivity.
    + apply select_student_ids_perm.
    + reflexivity.
    + intros k sid Hk; eexists; split; [apply fresh_rows_at; exact Hk|].
      split; [reflexivity | apply gen_otp_read_back].
    + intros Hnd s Hs; apply (fresh_rows_at _ _ _ _ 0%nat).
      now apply select_position.
    + split; reflexivity.
  - intros _; split.
    + unfold delete_attendance_of_lesson.
      rewrite (has_lesson_ids d).
      * now apply has_lesson_in.
      * cbn [lessons set_attendance].
        apply update_lessons_ids; reflexivity.
    + apply (all_students_resolve d).
Qed.

(** A restart with an active lesson that deletes nothing: the lesson
    started at instant 0 ends on the last instant a date can hold, and a
    minute later the new end time is no date. *)
Lemma restart_far_end_refused :
  reachable longest_classroom
  /\ (exists active, recent_lesson 60000 (db longest_classroom) = Some active
                     /\ l_id active = 1)
  /\ map lesson_id (attendance (db longest_classroom)) = [1; 1]
  /\ code (fst (post_lessons_restart draws 60000 (db longest_classroom))) = 500
  /\ snd (post_lessons_restart draws 60000 (db longest_classroom))
     = db longest_classroom.
Proof.
  split.
  { exists true, 0,
      [(0%N, PostUnits "Maths" "Dr Otieno");
       (0%N, PostStudents "Achieng" "ADM-001" draws);
       (0%N, PostStudents "Baraka" "ADM-002" draws);
       (0%N, LessonsStart longest_session draws);
       (1%N, EnableOtp 1)].
    reflexivity. }
  split; [eexists; split; reflexivity|].
  split; [reflexivity|]; split; reflexivity.
Qed.

(** ** The active lesson *)

Lemma latest_by_none {A : Type} (key : A -> Z) (l : list A) :
  latest_by key l = None -> l = [].
Proof.
  destruct l as [|x l]; cbn; [reflexivity|].
  destruct (latest_by key l) as [y|]; [destruct (key x <? key y)|]; discriminate.
Qed.

Lemma latest_by_max {A : Type} (key : A -> Z) (l : list A) (x : A) :
  latest_by key l = Some x -> forall y, In y l -> key y <= key x.
Proof.
  revert x; induction l as [|z l IH]; cbn; intros x H y Hy; [contradiction|].
  destruct (latest_by key l) as [m|] eqn:E.
  - specialize (IH m eq_refl).
    destruct (key z <? key m) eqn:C; injection H as <-.
    + apply Z.ltb_lt in C; destruct Hy as [<-|Hy]; [lia | now apply IH].
    + apply Z.ltb_ge in C; destruct Hy as [<-|Hy]; [lia|].
      specialize (IH y Hy); lia.
  - injection H as <-; apply latest_by_none in E; subst l.
    destruct Hy as [<-|[]]; lia.
Qed.

Lemma join_in (d : Db) (l : LessonRow) (u : UnitRow) :
  In (l, u) (lessons_join_units d)
  <-> In l (lessons d) /\ In u (units d) /\ unit_id l = Some (u_id u).
Proof.
  unfold lessons_join_units; rewrite in_flat_map; split.
  - intros [l0 [Hl Hp]]; apply in_map_iff in Hp; destruct Hp as [u0 [E Hu]].
    injection E as -> ->; apply filter_In in Hu; destruct Hu as [Hu Hm].
    unfold of_unit in Hm; destruct (unit_id l) as [x|]; [|discriminate].
    apply Z.eqb_eq in Hm; subst; auto.
  - intros (Hl & Hu & E); exists l; split; [assumption|].
    apply in_map, filter_In; split; [assumption|].
    unfold of_unit; rewrite E; apply Z.eqb_refl.
Qed.

Lemma latest_lesson_newest (d : Db) (l : LessonRow) (u : UnitRow) :
  latest_lesson d = Some (l, u) ->
  newest_joinable d l /\ In u (units d) /\ unit_id l = Some (u_id u).
Proof.
  intros H; pose proof (latest_by_in _ _ _ H) as Hin.
  apply join_in in Hin; destruct Hin as (Hl & Hu & E).
  split; [|split; assumption].
  split; [assumption|]; split; [now exists u|].
  intros l' Hl' [u' [Hu' E']].
  apply (latest_by_max _ _ _ H (l', u')), join_in; auto.
Qed.

Lemma latest_lesson_none (d : Db) (l : LessonRow) :
  latest_lesson d = None -> In l (lessons d) -> ~ joinable d l.
Proof.
  intros H Hl [u [Hu E]]; apply latest_by_none in H.
  assert (Hin : In (l, u) (lessons_join_units d)) by (apply join_in; auto).
  rewrite H in Hin; contradiction.
Qed.

(** A PRIMARY KEY names one row. *)
Lemma unique_by_key {A K : Type} (key : A -> K) (l : list A) (x y : A) :
  NoDup (map key l) -> In x l -> In y l -> key x = key y -> x = y.
Proof.
  induction l as [|z l IH]; cbn; intros Hnd Hx Hy E; [contradiction|].
  inversion Hnd as [|? ? Hnot Hnd']; subst.
  destruct Hx as [->|Hx], Hy as [->|Hy].
  - reflexivity.
  - exfalso; apply Hnot; rewrite E; now apply in_map.
  - exfalso; apply Hnot; rewrite <- E; now apply in_map.
  - now apply IH.
Qed.

Lemma older_than_a_day_false (now st : Z) :
  older_than_a_day now st = false <-> now - st <= 24 * hour.
Proof. unfold older_than_a_day; rewrite Z.gtb_ltb, Z.ltb_ge; reflexivity. Qed.

Lemma older_than_a_day_true (now st : Z) :
  older_than_a_day now st = true <-> now - st > 24 * hour.
Proof. unfold older_than_a_day; rewrite Z.gtb_gt; reflexivity. Qed.

(** What GET /api/lessons/active answers, by the candidate of its query. *)
Lemma active_answer (now : Z) (d : Db) :
  let res := get_lessons_active now d in
  match latest_lesson d with
  | Some (l, u) =>
      if older_than_a_day now (start_time l)
      then res = (ok JNull, d)
      else active_lesson_of (fst res) = Some l /\ code (fst res) = 200
  | None => res = (ok JNull, d)
  end.
Proof.
  cbv zeta; unfold get_lessons_active.
  destruct (latest_lesson d) as [[l u]|]; [|reflexivity].
  destruct (older_than_a_day now (start_time l)); [reflexivity|].
  split; reflexivity.
Qed.

Lemma active_keeps_lessons (now : Z) (d : Db) :
  lessons (snd (get_lessons_active now d)) = lessons d.
Proof.
  unfold get_lessons_active.
  destruct (latest_lesson d) as [[l u]|]; [|reflexivity].
  destruct (older_than_a_day now (start_time l)); [reflexivity|].
  destruct (otp_expired now (start_time l)); reflexivity.
Qed.

(** C8, counterexample: after a second session was started with a unit_id
    that is no number, the most recently created lesson (rowid 2) started a
    minute ago, yet GET /api/lessons/active answers with lesson 1: the
    query joins units and the new lesson joins none. *)
Lemma active_skips_unitless_lesson :
  let d := db two_sessions in
  exists l2, newest d l2 /\ l_id l2 = 2
             /\ clock two_sessions - start_time l2 <= 24 * hour
             /\ exists l1, active_lesson_of
                             (fst (get_lessons_active (clock two_sessions) d))
                           = Some l1
                           /\ l_id l1 = 1.
Proof.
  cbv zeta; eexists; split; [split|].
  - vm_compute; right; left; reflexivity.
  - intros l' H; vm_compute in H.
    destruct H as [<-|[<-|[]]]; vm_compute; discriminate.
  - split; [reflexivity|]; split; [vm_compute; discriminate|].
    eexists; split; [vm_compute; reflexivity | reflexivity].
Qed.

(** The same with a numeric unit_id that names no unit, on a connection
    that does not enforce foreign keys. *)
Lemma active_skips_dangling_lesson :
  let d := db two_sessions_unenforced in
  exists l2, newest d l2 /\ l_id l2 = 2
             /\ clock two_sessions_unenforced - start_time l2 <= 24 * hour
             /\ exists l1, active_lesson_of
                             (fst (get_lessons_active
                                     (clock two_sessions_unenforced) d))
                           = Some l1
                           /\ l_id l1 = 1.
Proof.
  cbv zeta; eexists; split; [split|].
  - vm_compute; right; left; reflexivity.
  - intros l' H; vm_compute in H.
    destruct H as [<-|[<-|[]]]; vm_compute; discriminate.
  - split; [reflexivity|]; split; [vm_compute; discriminate|].
    eexists; split; [vm_compute; reflexivity | reflexivity].
Qed.

(** C8, as amended: with rowids unique (PRIMARY KEY), GET
    /api/lessons/active answers with lesson [l] exactly when [l] is the
    most recently created lesson among those whose unit row exists and at
    most 24 hours have passed since its start_time; in every other case
    (no such lesson, or it started more than 24 hours ago) it answers null
    and writes nothing.  It never writes the lessons table: no lesson is
    closed or cancelled. *)
Theorem active_is_newest_joinable (now : Z) (d : Db) :
  NoDup (map l_id (lessons d)) ->
  let res := get_lessons_active now d in
  (forall l, active_lesson_of (fst res) = Some l
             <-> newest_joinable d l /\ now - start_time l <= 24 * hour)
  /\ (active_lesson_of (fst res) = None -> res = (ok JNull, d))
  /\ code (fst res) = 200
  /\ lessons (snd res) = lessons d.
Proof.
  intros Hnd res; pose proof (active_answer now d) as HA; cbv zeta in HA.
  fold res in HA; split; [|split; [|split]].
  - intros l; destruct (latest_lesson d) as [[l0 u0]|] eqn:E.
    + apply latest_lesson_newest in E; destruct E as (Hnew & _ & _).
      assert (Hsame : newest_joinable d l -> l = l0).
      { intros (Hl & Hj & Hmax); destruct Hnew as (Hl0 & Hj0 & Hmax0).
        apply (unique_by_key l_id (lessons d)); try assumption.
        specialize (Hmax l0 Hl0 Hj0); specialize (Hmax0 l Hl Hj); lia. }
      destruct (older_than_a_day now (start_time l0)) eqn:O.
      * rewrite HA; cbn; split; [discriminate|].
        intros [Hn Hw]; apply Hsame in Hn; subst l0.
        apply older_than_a_day_true in O; unfold hour in *; lia.
      * destruct HA as [-> _]; apply older_than_a_day_false in O; split.
        -- intros [= <-]; split; assumption.
        -- intros [Hn _]; apply Hsame in Hn; now subst.
    + rewrite HA; cbn; split; [discriminate|].
      intros [(Hl & Hj & _) _]; exfalso.
      exact (latest_lesson_none d l E Hl Hj).
  - destruct (latest_lesson d) as [[l0 u0]|]; [|intros _; exact HA].
    destruct (older_than_a_day now (start_time l0)); [intros _; exact HA|].
    destruct HA as [-> _]; discriminate.
  - destruct (latest_lesson d) as [[l0 u0]|];
      [destruct (older_than_a_day now (start_time l0))|];
      try (rewrite HA; reflexivity); apply HA.
  - apply active_keeps_lessons.
Qed.

Lemma active_is_newest_joinable_witness :
  NoDup (map l_id (lessons (db two_sessions)))
  /\ exists l, l_id l = 1
               /\ newest_joinable (db two_sessions) l
               /\ clock two_sessions - start_time l <= 24 * hour.
Proof.
  assert (Hnd : NoDup (map l_id (lessons (db two_sessions)))).
  { vm_compute; repeat constructor; cbn; intuition discriminate. }
  split; [exact Hnd|].
  destruct (active_is_newest_joinable (clock two_sessions) (db two_sessions) Hnd)
    as (Hiff & _).
  eexists; split; [|apply Hiff; vm_compute; reflexivity]; reflexivity.
Defined.

(** ** The two active-lesson queries *)

Lemma sql_recent_within (now st : Z) :
  sql_recent now st = true -> now - st < 24 * hour.
Proof.
  unfold sql_recent, hour; rewrite Z.gtb_gt.
  Z.div_mod_to_equations; lia.
Qed.

Lemma within_sql_recent (now st : Z) :
  now - st <= 24 * hour - 1000 -> sql_recent now st = true.
Proof.
  unfold sql_recent, hour; rewrite Z.gtb_gt.
  Z.div_mod_to_equations; lia.
Qed.

(** C10, counterexample: exactly 24 hours after the classroom's session
    started, GET /api/lessons/active still answers with lesson 1
    ([diffHours > 24] is false) while the query of restart and of student
    registration selects nothing ([datetime(start_time) >
    datetime('now', '-24 hours')] is false). *)
Lemma active_queries_differ_at_24h :
  let d := db classroom in
  let now := 24 * hour in
  recent_lesson now d = None
  /\ exists l, active_lesson_of (fst (get_lessons_active now d)) = Some l
               /\ l_id l = 1 /\ now - start_time l = 24 * hour.
Proof.
  cbv zeta; split; [reflexivity|].
  eexists; split; [vm_compute; reflexivity|]; split; reflexivity.
Qed.

(** The other two ways the queries part.  A newest lesson that joins no
    unit is what restart selects and what GET /api/lessons/active skips. *)
Lemma active_queries_differ_without_unit :
  let d := db two_sessions in
  let now := clock two_sessions in
  exists l2 l1, recent_lesson now d = Some l2 /\ l_id l2 = 2
                /\ active_lesson_of (fst (get_lessons_active now d)) = Some l1
                /\ l_id l1 = 1.
Proof.
  cbv zeta; eexists; eexists; split; [vm_compute; reflexivity|].
  split; [reflexivity|]; split; [vm_compute; reflexivity | reflexivity].
Qed.

(** When the newest lesson started long ago and an older one recently,
    restart selects the older one and GET /api/lessons/active answers
    null. *)
Lemma active_queries_differ_out_of_order :
  let now := 101 * hour in
  exists l1, recent_lesson now out_of_order = Some l1 /\ l_id l1 = 1
             /\ get_lessons_active now out_of_order = (ok JNull, out_of_order).
Proof.
  cbv zeta; eexists; split; [vm_compute; reflexivity|].
  split; reflexivity.
Qed.

Lemma newest_exists (d : Db) (l : LessonRow) :
  In l (lessons d) -> exists l0, newest d l0.
Proof.
  intros Hl; destruct (latest_by l_id (lessons d)) as [l0|] eqn:E.
  - exists l0; split; [eapply latest_by_in; eassumption|].
    intros l' Hl'; eapply (latest_by_max l_id); eassumption.
  - apply latest_by_none in E; rewrite E in Hl; contradiction.
Qed.

(** C10, as amended: the lesson selected by POST /api/lessons/restart and
    POST /api/students is the lesson GET /api/lessons/active answers with
    (both none, or the same row) in every database where rowids are unique,
    the most recently created lesson joins a unit and start times do not
    decrease with the rowid, at an instant where the most recently created
    lesson is not in the last second of its 24 hours (its age is at most
    24 h - 1 s, or more than 24 h). *)
Theorem active_queries_agree (now : Z) (d : Db) :
  NoDup (map l_id (lessons d)) ->
  (forall l, newest d l -> joinable d l) ->
  (forall l l', In l (lessons d) -> In l' (lessons d) ->
                l_id l <= l_id l' -> start_time l <= start_time l') ->
  (forall l, newest d l ->
             now - start_time l <= 24 * hour - 1000
             \/ now - start_time l > 24 * hour) ->
  recent_lesson now d = active_lesson_of (fst (get_lessons_active now d)).
Proof.
  intros Hnd Hjoin Hmono Hedge.
  pose proof (active_answer now d) as HA; cbv zeta in HA.
  destruct (latest_lesson d) as [[l0 u0]|] eqn:E.
  - apply latest_lesson_newest in E; destruct E as ((Hl0 & _ & Hmax0) & _ & _).
    assert (Hnew : newest d l0).
    { destruct (newest_exists d l0 Hl0) as [top Htop].
      pose proof (Hmax0 top (proj1 Htop) (Hjoin top Htop)) as Hle.
      split; [assumption|]; intros l' Hl'.
      pose proof (proj2 Htop l' Hl'); lia. }
    destruct (Hedge l0 Hnew) as [Hin|Hout].
    + replace (older_than_a_day now (start_time l0)) with false in HA
        by (symmetry; apply older_than_a_day_false; unfold hour in *; lia).
      destruct HA as [-> _].
      destruct (recent_lesson now d) as [l|] eqn:R.
      * f_equal; pose proof (recent_lesson_in _ _ _ R) as [Hl _].
        apply (unique_by_key l_id (lessons d)); try assumption.
        apply Z.le_antisymm; [apply Hnew; assumption|].
        apply (latest_by_max _ _ _ R), filter_In; split; [assumption|].
        now apply within_sql_recent.
      * apply latest_by_none in R.
        assert (Hf : In l0 (filter (fun l => sql_recent now (start_time l))
                                   (lessons d))).
        { apply filter_In; split; [assumption | now apply within_sql_recent]. }
        rewrite R in Hf; contradiction.
    + replace (older_than_a_day now (start_time l0)) with true in HA
        by (symmetry; now apply older_than_a_day_true).
      rewrite HA; cbn [fst active_lesson_of body ok].
      destruct (recent_lesson now d) as [l|] eqn:R; [|reflexivity].
      apply recent_lesson_in in R; destruct R as [Hl Hr].
      apply sql_recent_within in Hr.
      pose proof (Hmono l l0 Hl Hl0 (proj2 Hnew l Hl)); lia.
  - rewrite HA; cbn [fst active_lesson_of body ok].
    destruct (recent_lesson now d) as [l|] eqn:R; [|reflexivity].
    apply recent_lesson_in in R; destruct R as [Hl _].
    destruct (newest_exists d l Hl) as [top Htop].
    exfalso; exact (latest_lesson_none d top E (proj1 Htop) (Hjoin top Htop)).
Qed.

Lemma active_queries_agree_witness :
  exists l, recent_lesson 1200001 (db classroom) = Some l
            /\ active_lesson_of (fst (get_lessons_active 1200001 (db classroom)))
               = Some l.
Proof.
  assert (Hnd : NoDup (map l_id (lessons (db classroom)))).
  { vm_compute; repeat constructor; cbn; intuition discriminate. }
  assert (Hjoin : forall l, newest (db classroom) l ->
                            joinable (db classroom) l).
  { intros l [H _]; vm_compute in H; destruct H as [<-|[]].
    eexists; split; [vm_compute; left; reflexivity | reflexivity]. }
  assert (Hmono : forall l l', In l (lessons (db classroom)) ->
                               In l' (lessons (db classroom)) ->
                               l_id l <= l_id l' ->
                               start_time l <= start_time l').
  { intros l l' H H'; vm_compute in H, H'.
    destruct H as [<-|[]], H' as [<-|[]]; intros _; vm_compute; discriminate. }
  assert (Hedge : forall l, newest (db classroom) l ->
                            1200001 - start_time l <= 24 * hour - 1000
                            \/ 1200001 - start_time l > 24 * hour).
  { intros l [H _]; vm_compute in H; destruct H as [<-|[]].
    left; vm_compute; discriminate. }
  pose proof (active_queries_agree 1200001 (db classroom) Hnd Hjoin Hmono Hedge)
    as Heq.
  eexists; split; [reflexivity|].
  rewrite <- Heq; reflexivity.
Defined.

(** ** The invariant of a running server *)

(** A DELETE keeps a key unique. *)
Lemma NoDup_map_filter {K R : Type} (key : R -> K) (keep : R -> bool)
    (rows : list R) :
  NoDup (map key rows) -> NoDup (map key (filter keep rows)).
Proof.
  induction rows as [|x rows IH]; cbn; intros H; [assumption|].
  inversion H as [|? ? Hnot Hnd]; subst.
  destruct (keep x); cbn; [constructor|]; auto.
  intros Hin; apply Hnot; apply in_map_iff in Hin.
  destruct Hin as [y [E Hy]]; apply filter_In in Hy.
  rewrite <- E; apply in_map; tauto.
Qed.

Lemma NoDup_snoc {A : Type} (l : list A) (x : A) :
  NoDup l -> ~ In x l -> NoDup (l ++ [x]).
Proof.
  intros Hnd Hx; apply NoDup_app; [assumption | repeat constructor; auto |].
  intros y Hy [<-|[]]; contradiction.
Qed.

Lemma status_le_refl (s : Status) : status_le s s.
Proof. now left. Qed.

Lemma status_le_trans (s1 s2 s3 : Status) :
  status_le s1 s2 -> status_le s2 s3 -> status_le s1 s3.
Proof. unfold status_le; intros [-> | ->] [-> | H]; auto. Qed.

Lemma Inv_later (d : Db) (t t' : Z) : Inv d t -> t <= t' -> Inv d t'.
Proof.
  intros [] Hle; constructor; try assumption.
  intros a l Ha Hl E S; specialize (inv_absent0 a l Ha Hl E S); lia.
Qed.

(** In a running server a rowid names one row. *)
Lemma same_lesson (d : Db) (t : Z) (l l' : LessonRow) :
  Inv d t -> In l (lessons d) -> In l' (lessons d) -> l_id l = l_id l' ->
  l = l'.
Proof.
  intros HI; apply unique_by_key, (inv_lesson_key _ _ HI).
Qed.

Lemma same_row (d : Db) (t : Z) (a a' : AttendanceRow) :
  Inv d t -> In a (attendance d) -> In a' (attendance d) ->
  a_id a = a_id a' -> a = a'.
Proof.
  intros HI; apply unique_by_key, (inv_att_key _ _ HI).
Qed.

(** Deleting rows keeps the invariant. *)
Lemma Inv_sub (d d' : Db) (t : Z) :
  Inv d t ->
  (exists p, lessons d' = filter p (lessons d)) ->
  (exists p, students d' = filter p (students d)) ->
  (exists p, attendance d' = filter p (attendance d)) ->
  seq_lessons d' = seq_lessons d ->
  seq_students d' = seq_students d ->
  seq_attendance d' = seq_attendance d ->
  Inv d' t.
Proof.
  intros [] [pl El] [ps Es] [pa Ea] Ql Qs Qa.
  constructor; rewrite ?El, ?Es, ?Ea, ?Ql, ?Qs, ?Qa;
    try (apply NoDup_map_filter; assumption);
    try (intros x Hx; apply filter_In in Hx; destruct Hx as [Hx _]; auto).
  intros a l Ha Hl E S; apply filter_In in Ha, Hl.
  destruct Ha as [Ha _], Hl as [Hl _]; eauto.
Qed.

Lemma same_filter {A : Type} (l : list A) : exists p, l = filter p l.
Proof. exists (fun _ => true); symmetry; apply filter_all. Qed.

(** Updating rows in place keeps the invariant when keys are kept, a
    start_time changes only for a lesson without attendance, and a row
    turns absent only when its lesson is past the 20 minutes. *)
Lemma Inv_relabel (d d' : Db) (t : Z) (fl : LessonRow -> LessonRow)
    (fs : StudentRow -> StudentRow) (fa : AttendanceRow -> AttendanceRow) :
  Inv d t ->
  lessons d' = map fl (lessons d) ->
  students d' = map fs (students d) ->
  attendance d' = map fa (attendance d) ->
  seq_lessons d' = seq_lessons d ->
  seq_students d' = seq_students d ->
  seq_attendance d' = seq_attendance d ->
  (forall l, l_id (fl l) = l_id l) ->
  (forall l, In l (lessons d) ->
             start_time (fl l) = start_time l
             \/ forall a, In a (attendance d) -> lesson_id a <> l_id l) ->
  (forall s, s_id (fs s) = s_id s) ->
  (forall a, a_id (fa a) = a_id a /\ lesson_id (fa a) = lesson_id a
             /\ student_id (fa a) = student_id a) ->
  (forall a, In a (attendance d) -> status (fa a) = Absent ->
             status a = Absent
             \/ forall l, In l (lessons d) -> l_id l = lesson_id a ->
                          t - start_time l > 20 * minute) ->
  Inv d' t.
Proof.
  intros [] El Es Ea Ql Qs Qa Hl Hst Hs Ha Hab.
  assert (Kl : map l_id (map fl (lessons d)) = map l_id (lessons d))
    by (rewrite map_map; apply map_ext; exact Hl).
  assert (Ks : map s_id (map fs (students d)) = map s_id (students d))
    by (rewrite map_map; apply map_ext; exact Hs).
  assert (Ka : map a_id (map fa (attendance d)) = map a_id (attendance d))
    by (rewrite map_map; apply map_ext; intros a; apply Ha).
  assert (Kp : map (fun a => (lesson_id a, student_id a)) (map fa (attendance d))
               = map (fun a => (lesson_id a, student_id a)) (attendance d)).
  { rewrite map_map; apply map_ext; intros a.
    destruct (Ha a) as (_ & -> & ->); reflexivity. }
  constructor; rewrite ?El, ?Es, ?Ea, ?Ql, ?Qs, ?Qa, ?Kl, ?Ks, ?Ka, ?Kp;
    try assumption.
  - intros l H; apply in_map_iff in H; destruct H as [l0 [<- H]].
    rewrite Hl; auto.
  - intros s H; apply in_map_iff in H; destruct H as [s0 [<- H]].
    rewrite Hs; auto.
  - intros a H; apply in_map_iff in H; destruct H as [a0 [<- H]].
    destruct (Ha a0) as (-> & _); auto.
  - intros a H; apply in_map_iff in H; destruct H as [a0 [<- H]].
    destruct (Ha a0) as (_ & -> & _); auto.
  - intros a H; apply in_map_iff in H; destruct H as [a0 [<- H]].
    destruct (Ha a0) as (_ & _ & ->); auto.
  - intros a l H H'; apply in_map_iff in H; destruct H as [a0 [<- H]].
    apply in_map_iff in H'; destruct H' as [l0 [<- H']].
    rewrite Hl; destruct (Ha a0) as (_ & -> & _); intros E S.
    destruct (Hst l0 H') as [->|Hno]; [|exfalso; apply (Hno a0 H); congruence].
    destruct (Hab a0 H S) as [S0|Hall]; eauto.
Qed.

Lemma Inv_insert_student (name adm : string) (d d' : Db) (t id : Z) :
  Inv d t -> insert_student name adm d = Some (id, d') ->
  Inv d' t /\ seq_students d < id /\ lessons d' = lessons d
  /\ attendance d' = attendance d /\ seq_attendance d' = seq_attendance d
  /\ seq_lessons d' = seq_lessons d /\ seq_students d' = id
  /\ students d' = students d
                   ++ [{| s_id := id; s_name := name; admission_number := adm |}].
Proof.
  intros HI H; unfold insert_student in H.
  destruct (existsb _ (students d)); [discriminate|].
  injection H as <- <-; cbn.
  pose proof (next_id_gt_seq (seq_students d) (map s_id (students d))) as Hq.
  split; [|repeat split; assumption].
  destruct HI; constructor; cbn; try assumption.
  - rewrite map_app; cbn; apply NoDup_snoc; [assumption|].
    intros Hin; apply in_map_iff in Hin; destruct Hin as [s [E Hs]].
    specialize (inv_student_seq0 s Hs); lia.
  - intros s Hs; apply in_app_or in Hs; destruct Hs as [Hs|[<-|[]]]; cbn; [|lia].
    specialize (inv_student_seq0 s Hs); lia.
  - intros a Ha; specialize (inv_att_student0 a Ha); lia.
Qed.

Lemma Inv_insert_lesson (uid : option Z) (dt : Z) (ven : string) (dur en : Z)
    (ss se lotp : string) (d d' : Db) (t id : Z) :
  Inv d t ->
  insert_lesson uid dt ven dur t en ss se lotp d = Some (id, d') ->
  Inv d' t /\ seq_lessons d < id /\ students d' = students d
  /\ attendance d' = attendance d /\ seq_attendance d' = seq_attendance d
  /\ seq_students d' = seq_students d /\ seq_lessons d' = id
  /\ exists l, lessons d' = lessons d ++ [l] /\ l_id l = id /\ otp_enabled l = 0.
Proof.
  intros HI H; unfold insert_lesson in H.
  match type of H with (if ?c then _ else _) = _ => destruct c end;
    [|discriminate].
  injection H as <- <-; cbn.
  pose proof (next_id_gt_seq (seq_lessons d) (map l_id (lessons d))) as Hq.
  split; [|repeat split; try assumption; eexists; repeat split].
  destruct HI; constructor; cbn; try assumption.
  - rewrite map_app; cbn; apply NoDup_snoc; [assumption|].
    intros Hin; apply in_map_iff in Hin; destruct Hin as [l [E Hl]].
    specialize (inv_lesson_seq0 l Hl); lia.
  - intros l Hl; apply in_app_or in Hl; destruct Hl as [Hl|[<-|[]]]; cbn; [|lia].
    specialize (inv_lesson_seq0 l Hl); lia.
  - intros a Ha; specialize (inv_att_lesson0 a Ha); lia.
  - intros a l Ha Hl E S; apply in_app_or in Hl; destruct Hl as [Hl|[<-|[]]].
    + eauto.
    + cbn in E; specialize (inv_att_lesson0 a Ha); lia.
Qed.

Lemma Inv_insert_attendance (lid sid : Z) (code : string) (st : Status)
    (d d' : Db) (t : Z) :
  Inv d t ->
  insert_attendance lid sid code st d = Some d' ->
  lid <= seq_lessons d ->
  sid <= seq_students d ->
  (forall a, In a (attendance d) -> lesson_id a = lid -> student_id a <> sid) ->
  (st = Absent -> forall l, In l (lessons d) -> l_id l = lid ->
                            t - start_time l > 20 * minute) ->
  Inv d' t.
Proof.
  intros HI H Hl Hs Hfresh Hab; unfold insert_attendance in H.
  match type of H with (if ?c then _ else _) = _ => destruct c end;
    [|discriminate].
  injection H as <-.
  pose proof (next_id_gt_seq (seq_attendance d) (map a_id (attendance d))) as Hq.
  destruct HI; constructor; cbn; try assumption.
  - rewrite map_app; cbn; apply NoDup_snoc; [assumption|].
    intros Hin; apply in_map_iff in Hin; destruct Hin as [a [E Ha]].
    specialize (inv_att_seq0 a Ha); lia.
  - intros a Ha; apply in_app_or in Ha; destruct Ha as [Ha|[<-|[]]]; cbn; [|lia].
    specialize (inv_att_seq0 a Ha); lia.
  - intros a Ha; apply in_app_or in Ha; destruct Ha as [Ha|[<-|[]]]; cbn; auto.
  - intros a Ha; apply in_app_or in Ha; destruct Ha as [Ha|[<-|[]]]; cbn; auto.
  - rewrite map_app; cbn; apply NoDup_snoc; [assumption|].
    intros Hin; apply in_map_iff in Hin; destruct Hin as [a [E Ha]].
    injection E as E1 E2; exact (Hfresh a Ha E1 E2).
  - intros a l Ha Hin E S; apply in_app_or in Ha; destruct Ha as [Ha|[<-|[]]].
    + eauto.
    + cbn in E, S; auto.
Qed.

(** *** How attendance rows evolve *)

Lemma rows_evolve_refl (d : Db) : rows_evolve d d.
Proof.
  split; [lia|]; intros a Ha; left; exists a.
  repeat split; auto using status_le_refl.
Qed.

Lemma rows_evolve_trans (d1 d2 d3 : Db) :
  rows_evolve d1 d2 -> rows_evolve d2 d3 -> rows_evolve d1 d3.
Proof.
  intros [Q12 H12] [Q23 H23]; split; [lia|]; intros a3 H3.
  destruct (H23 a3 H3) as [[a2 (H2 & Ei & El & Es & Hle)]|Hnew]; [|right; lia].
  destruct (H12 a2 H2) as [[a1 (H1 & Ei' & El' & Es' & Hle')]|Hnew]; [|right; lia].
  left; exists a1; repeat split; try congruence.
  eapply status_le_trans; eassumption.
Qed.

Lemma rows_evolve_sub (d d' : Db) :
  (exists p, attendance d' = filter p (attendance d)) ->
  seq_attendance d' = seq_attendance d ->
  rows_evolve d d'.
Proof.
  intros [p E] Q; split; [lia|]; intros a Ha; left; exists a.
  rewrite E in Ha; apply filter_In in Ha.
  repeat split; try tauto; apply status_le_refl.
Qed.

Lemma rows_evolve_relabel (d d' : Db) (fa : AttendanceRow -> AttendanceRow) :
  attendance d' = map fa (attendance d) ->
  seq_attendance d' = seq_attendance d ->
  (forall a, a_id (fa a) = a_id a /\ lesson_id (fa a) = lesson_id a
             /\ student_id (fa a) = student_id a) ->
  (forall a, In a (attendance d) -> status_le (status a) (status (fa a))) ->
  rows_evolve d d'.
Proof.
  intros E Q Hk Hs; split; [lia|]; intros a' Ha'; left.
  rewrite E in Ha'; apply in_map_iff in Ha'; destruct Ha' as [a [<- Ha]].
  exists a; destruct (Hk a) as (-> & -> & ->); repeat split; auto.
Qed.

Lemma insert_attendance_fields (lid sid : Z) (code : string) (st : Status)
    (d d' : Db) :
  insert_attendance lid sid code st d = Some d' ->
  lessons d' = lessons d /\ students d' = students d /\ units d' = units d
  /\ seq_lessons d' = seq_lessons d /\ seq_students d' = seq_students d
  /\ seq_attendance d' = next_id (seq_attendance d) (map a_id (attendance d))
  /\ attendance d'
     = attendance d
       ++ [{| a_id := next_id (seq_attendance d) (map a_id (attendance d));
              lesson_id := lid; student_id := sid; otp := code; status := st;
              marked_at := None |}].
Proof.
  unfold insert_attendance; intros H.
  match type of H with (if ?c then _ else _) = _ => destruct c end;
    [|discriminate].
  injection H as <-; cbn; repeat split.
Qed.

Lemma rows_evolve_insert (lid sid : Z) (code : string) (st : Status) (d d' : Db) :
  insert_attendance lid sid code st d = Some d' -> rows_evolve d d'.
Proof.
  intros H; apply insert_attendance_fields in H.
  destruct H as (_ & _ & _ & _ & _ & Q & E).
  pose proof (next_id_gt_seq (seq_attendance d) (map a_id (attendance d))).
  split; [lia|]; intros a Ha; rewrite E in Ha.
  apply in_app_or in Ha; destruct Ha as [Ha|[<-|[]]].
  - left; exists a; repeat split; auto using status_le_refl.
  - right; cbn; lia.
Qed.

(** The insert loop of start and restart. *)
Lemma Inv_insert_rows (lid : Z) (sids : list Z) (rng : nat -> Z) (n : nat)
    (d : Db) (t : Z) :
  Inv d t ->
  lid <= seq_lessons d ->
  (forall sid, In sid sids -> sid <= seq_students d) ->
  NoDup sids ->
  (forall a, In a (attendance d) -> lesson_id a = lid ->
             ~ In (student_id a) sids) ->
  let d' := fst (insert_attendance_rows lid sids rng n d) in
  Inv d' t /\ rows_evolve d d' /\ lessons d' = lessons d
  /\ seq_lessons d' = seq_lessons d.
Proof.
  revert n d; induction sids as [|sid r IH]; intros n d HI Hl Hs Hnd Hfresh;
    cbv zeta; cbn [insert_attendance_rows].
  - cbn; split; [assumption|]; split; [apply rows_evolve_refl | split; reflexivity].
  - destruct (insert_attendance lid sid (gen_otp (rng n)) Pending d) as [d1|] eqn:E;
      [|cbn; split; [assumption|]; split;
        [apply rows_evolve_refl | split; reflexivity]].
    pose proof (insert_attendance_fields _ _ _ _ _ _ E)
      as (Fl & Fs & _ & Ql & Qs & Qa & Ea).
    inversion Hnd as [|? ? Hnot Hnd']; subst.
    assert (HI1 : Inv d1 t).
    { apply (Inv_insert_attendance _ _ _ _ _ _ _ HI E); auto.
      - apply Hs; now left.
      - intros a Ha El Es; apply (Hfresh a Ha El); left; congruence.
      - discriminate. }
    assert (P1 : lid <= seq_lessons d1) by lia.
    assert (P2 : forall s, In s r -> s <= seq_students d1)
      by (intros s Hin; rewrite Qs; apply Hs; now right).
    assert (P3 : forall a, In a (attendance d1) -> lesson_id a = lid ->
                           ~ In (student_id a) r).
    { intros a Ha El Hin; rewrite Ea in Ha.
      apply in_app_or in Ha; destruct Ha as [Ha|[<-|[]]].
      - apply (Hfresh a Ha El); now right.
      - cbn in Hin; contradiction. }
    destruct (IH (S n) d1 HI1 P1 P2 Hnd' P3) as (HI2 & Hev & Fl2 & Ql2).
    split; [exact HI2|]; split; [|split; congruence].
    apply (rows_evolve_trans d d1); [|assumption].
    eapply rows_evolve_insert; eassumption.
Qed.

(** *** Every handler keeps the invariant *)

Lemma keep_update_lessons (id : Z) (f : LessonRow -> LessonRow) (d : Db) (t : Z) :
  (forall l, l_id (f l) = l_id l) ->
  (forall l, start_time (f l) = start_time l) ->
  Inv d t ->
  Inv (update_lessons id f d) t /\ rows_evolve d (update_lessons id f d).
Proof.
  intros Hid Hst HI; split.
  - refine (Inv_relabel d _ t (fun l => if l_id l =? id then f l else l)
              (fun s => s) (fun a => a) HI _ _ _ _ _ _ _ _ _ _ _);
      try reflexivity; try (cbn; symmetry; apply map_id).
    + intros l; destruct (l_id l =? id); auto.
    + intros l _; left; destruct (l_id l =? id); auto.
    + intros a; repeat split.
    + intros a _ S; now left.
  - apply rows_evolve_sub; [apply same_filter | reflexivity].
Qed.

Lemma keep_update_attendance (p : AttendanceRow -> bool)
    (f : AttendanceRow -> AttendanceRow) (d : Db) (t : Z) :
  Inv d t ->
  (forall a, a_id (f a) = a_id a /\ lesson_id (f a) = lesson_id a
             /\ student_id (f a) = student_id a) ->
  (forall a, In a (attendance d) -> p a = true -> status (f a) = Absent ->
             forall l, In l (lessons d) -> l_id l = lesson_id a ->
                       t - start_time l > 20 * minute) ->
  (forall a, In a (attendance d) -> p a = true ->
             status_le (status a) (status (f a))) ->
  Inv (update_attendance p f d) t /\ rows_evolve d (update_attendance p f d).
Proof.
  intros HI Hk Hab Hle; split.
  - refine (Inv_relabel d _ t (fun l => l) (fun s => s)
              (fun a => if p a then f a else a) HI _ _ _ _ _ _ _ _ _ _ _);
      try reflexivity; try (cbn; symmetry; apply map_id).
    + intros l _; now left.
    + intros a; destruct (p a); [apply Hk | repeat split].
    + intros a Ha S; destruct (p a) eqn:P; [right; eauto | now left].
  - apply (rows_evolve_relabel d _ (fun a => if p a then f a else a));
      try reflexivity.
    + intros a; destruct (p a); [apply Hk | repeat split].
    + intros a Ha; destruct (p a) eqn:P; [auto | apply status_le_refl].
Qed.

(** A request served at instant [now] by a server whose clock read [t]. *)
Section Serving.

Variables t now : Z.
Hypothesis Hle : t <= now.

Lemma keep_unchanged (d : Db) :
  Inv d t -> Inv d now /\ rows_evolve d d.
Proof.
  intros HI; split; [eapply Inv_later; eassumption | apply rows_evolve_refl].
Qed.

Lemma keep_post_students (name adm : string) (rng : nat -> Z) (d : Db) :
  Inv d t ->
  let d' := snd (post_students name adm rng now d) in
  Inv d' now /\ rows_evolve d d'.
Proof.
  intros HI; cbv zeta; unfold post_students.
  destruct (insert_student name adm d) as [[id d1]|] eqn:E;
    [|now apply keep_unchanged].
  apply (Inv_later _ _ now) in HI; [|assumption].
  destruct (Inv_insert_student _ _ _ _ _ _ HI E)
    as (HI1 & Hid & El & Ea & Qa & Ql & Qs & Es).
  assert (Hev : rows_evolve d d1)
    by (apply rows_evolve_sub; [rewrite Ea; apply same_filter | assumption]).
  destruct (recent_lesson now d1) as [active|] eqn:R; [|split; assumption].
  apply recent_lesson_in in R; destruct R as [Hin _].
  match goal with
  | |- context [insert_attendance ?a ?b ?c ?s d1] =>
      destruct (insert_attendance a b c s d1) as [d2|] eqn:I
  end; [|split; assumption].
  cbn [snd]; split.
  - apply (Inv_insert_attendance _ _ _ _ _ _ _ HI1 I).
    + now apply (inv_lesson_seq _ _ HI1).
    + lia.
    + intros a Ha _; rewrite Ea in Ha.
      pose proof (inv_att_student _ _ HI a Ha); lia.
    + intros S l Hl Eid.
      assert (l = active) by (apply (same_lesson d1 now); assumption).
      subst l; apply otp_expired_true.
      destruct (otp_expired now (start_time active)); [reflexivity | discriminate].
  - apply (rows_evolve_trans d d1); [assumption|].
    eapply rows_evolve_insert; eassumption.
Qed.

Lemma keep_post_units (name lect : string) (d : Db) :
  Inv d t ->
  let d' := snd (post_units name lect d) in
  Inv d' now /\ rows_evolve d d'.
Proof.
  intros HI; cbv zeta; unfold post_units, insert_unit; cbn [snd].
  apply (Inv_later _ _ now) in HI; [|assumption]; split.
  - apply (Inv_sub d); auto using same_filter.
  - apply rows_evolve_sub; [apply same_filter | reflexivity].
Qed.

Lemma keep_put_student (id : Z) (name adm : string) (d : Db) :
  Inv d t ->
  let d' := snd (put_student id name adm d) in
  Inv d' now /\ rows_evolve d d'.
Proof.
  intros HI; cbv zeta; unfold put_student, update_student.
  match goal with |- context [if ?c then None else _] => destruct c end;
    [now apply keep_unchanged|].
  apply (Inv_later _ _ now) in HI; [|assumption]; cbn [snd]; split.
  - refine (Inv_relabel d _ now (fun l => l)
              (fun s => if s_id s =? id
                        then {| s_id := s_id s; s_name := name;
                                admission_number := adm |}
                        else s)
              (fun a => a) HI _ _ _ _ _ _ _ _ _ _ _);
      try reflexivity; try (cbn; symmetry; apply map_id).
    + intros l _; now left.
    + intros s; destruct (s_id s =? id); reflexivity.
    + intros a; repeat split.
    + intros a _ S; now left.
  - apply rows_evolve_sub; [apply same_filter | reflexivity].
Qed.

Lemma keep_delete_student (id : Z) (d : Db) :
  Inv d t ->
  let d' := snd (delete_student id d) in
  Inv d' now /\ rows_evolve d d'.
Proof.
  intros HI; cbv zeta; unfold delete_student, delete_student_row.
  match goal with |- context [if ?c then None else _] => destruct c end;
    [now apply keep_unchanged|].
  apply (Inv_later _ _ now) in HI; [|assumption]; cbn [snd]; split.
  - apply (Inv_sub d); auto using same_filter; cbn; eexists; reflexivity.
  - apply rows_evolve_sub; [cbn; eexists; reflexivity | reflexivity].
Qed.

Lemma keep_put_unit (id : Z) (name lect : string) (d : Db) :
  Inv d t ->
  let d' := snd (put_unit id name lect d) in
  Inv d' now /\ rows_evolve d d'.
Proof.
  intros HI; cbv zeta; unfold put_unit, update_unit; cbn [snd].
  apply (Inv_later _ _ now) in HI; [|assumption]; split.
  - apply (Inv_sub d); auto using same_filter.
  - apply rows_evolve_sub; [apply same_filter | reflexivity].
Qed.

Lemma keep_delete_unit (id : Z) (d : Db) :
  Inv d t ->
  let d' := snd (delete_unit id d) in
  Inv d' now /\ rows_evolve d d'.
Proof.
  intros HI; cbv zeta; rewrite delete_unit_result; cbn [snd].
  now apply keep_unchanged.
Qed.

Lemma keep_start (r : StartReq) (rng : nat -> Z) (d : Db) :
  Inv d t ->
  let d' := snd (post_lessons_start r rng now d) in
  Inv d' now /\ rows_evolve d d'.
Proof.
  intros HI; cbv zeta.
  pose proof (keep_unchanged d HI) as Hsame.
  apply (Inv_later _ _ now) in HI; [|assumption].
  unfold post_lessons_start.
  assert (Hgo : forall uid,
            let res := match insert_lesson uid now (sr_venue r) (durationNum r) now
                               (now + durationNum r * 60000)
                               (sr_scheduled_start r) (sr_scheduled_end r)
                               (gen_otp (rng 0%nat)) d with
                       | Some (lessonId, d1) =>
                           match insert_attendance_rows lessonId
                                   (select_student_ids (students d1)) rng 1 d1 with
                           | (d2, true) => (ok (JStarted lessonId), d2)
                           | (_, false) =>
                               (err 500 "FOREIGN KEY constraint failed", d1)
                           end
                       | None => (err 500 "FOREIGN KEY constraint failed", d)
                       end in
            Inv (snd res) now /\ rows_evolve d (snd res)).
  { intros uid; cbv zeta.
    destruct (insert_lesson uid now _ _ now _ _ _ _ d) as [[id d1]|] eqn:E;
      [|exact Hsame].
    destruct (Inv_insert_lesson _ _ _ _ _ _ _ _ _ _ _ _ HI E)
      as (HI1 & Hid & Es & Ea & Qa & Qs & Ql & _).
    assert (Hev : rows_evolve d d1)
      by (apply rows_evolve_sub; [rewrite Ea; apply same_filter | assumption]).
    pose proof (Inv_insert_rows id (select_student_ids (students d1)) rng 1 d1 now HI1)
      as Hloop; cbv zeta in Hloop.
    destruct (insert_attendance_rows id (select_student_ids (students d1)) rng 1 d1)
      as [d2 [|]]; [|split; assumption].
    cbn [fst snd] in *.
    destruct Hloop as (HI2 & Hev2 & _).
    - lia.
    - intros sid Hin; apply select_student_ids_in in Hin.
      destruct Hin as [s [<- Hs]].
      now apply (inv_student_seq _ _ HI1).
    - apply select_student_ids_NoDup, (inv_student_key _ _ HI1).
    - intros a Ha El; rewrite Ea in Ha.
      pose proof (inv_att_lesson _ _ HI a Ha); lia.
    - split; [assumption | eapply rows_evolve_trans; eassumption]. }
  destruct (sr_unit_id r); [exact Hsame | |];
    (destruct (date_valid _); [apply Hgo | exact Hsame]).
Qed.

Lemma keep_lecturer_mark (lid : Z) (code : string) (d : Db) :
  Inv d t ->
  let d' := snd (post_lecturer_mark lid code d) in
  Inv d' now /\ rows_evolve d d'.
Proof.
  intros HI; cbv zeta; unfold post_lecturer_mark.
  pose proof (keep_unchanged d HI) as Hsame.
  destruct (find _ (lessons d)); [|exact Hsame].
  destruct (negb _); [exact Hsame|]; cbn [snd].
  apply keep_update_lessons; try reflexivity.
  eapply Inv_later; eassumption.
Qed.

Lemma keep_enable_otp (id : Z) (d : Db) :
  Inv d t ->
  let d' := snd (post_enable_otp id d) in
  Inv d' now /\ rows_evolve d d'.
Proof.
  intros HI; cbv zeta; unfold post_enable_otp; cbn [snd].
  apply keep_update_lessons; try reflexivity.
  eapply Inv_later; eassumption.
Qed.

Lemma keep_restart (rng : nat -> Z) (d : Db) :
  Inv d t ->
  let d' := snd (post_lessons_restart rng now d) in
  Inv d' now /\ rows_evolve d d'.
Proof.
  intros HI; cbv zeta; unfold post_lessons_restart.
  pose proof (keep_unchanged d HI) as Hsame.
  destruct (recent_lesson now d) as [active|] eqn:R; [|exact Hsame].
  destruct (date_valid (now + duration active * 60000)); [|exact Hsame].
  apply recent_lesson_in in R; destruct R as [Hin _].
  apply (Inv_later _ _ now) in HI; [|assumption].
  set (lid := l_id active).
  set (f := reset_times now (now + duration active * 60000)).
  set (dA := delete_attendance_of_lesson lid d).
  assert (HIA : Inv dA now)
    by (apply (Inv_sub d); auto using same_filter; cbn; eexists; reflexivity).
  assert (HevA : rows_evolve d dA)
    by (apply rows_evolve_sub; [cbn; eexists; reflexivity | reflexivity]).
  assert (Hswap : delete_attendance_of_lesson lid (update_lessons lid f d)
                  = update_lessons lid f dA) by reflexivity.
  rewrite Hswap.
  assert (HI2 : Inv (update_lessons lid f dA) now).
  { refine (Inv_relabel dA _ now (fun l => if l_id l =? lid then f l else l)
              (fun s => s) (fun a => a) HIA _ _ _ _ _ _ _ _ _ _ _);
      try reflexivity; try (cbn; symmetry; apply map_id).
    - intros l; destruct (l_id l =? lid); reflexivity.
    - intros l _; destruct (l_id l =? lid) eqn:C; [right | now left].
      apply Z.eqb_eq in C; intros a Ha; cbn in Ha.
      apply filter_In in Ha; destruct Ha as [_ Hk].
      unfold of_lesson in Hk; apply negb_true_iff, Z.eqb_neq in Hk; congruence.
    - intros a; repeat split.
    - intros a _ S; now left. }
  assert (Hev2 : rows_evolve dA (update_lessons lid f dA))
    by (apply rows_evolve_sub; [apply same_filter | reflexivity]).
  pose proof (Inv_insert_rows lid
                (select_student_ids (students (update_lessons lid f d)))
                rng 0 (update_lessons lid f dA) now HI2) as Hloop.
  cbv zeta in Hloop.
  destruct (insert_attendance_rows lid _ rng 0 (update_lessons lid f dA))
    as [d3 b].
  assert (Hgoal : Inv d3 now /\ rows_evolve d d3).
  { cbn [fst] in Hloop; destruct Hloop as (HI3 & Hev3 & _).
    - cbn; now apply (inv_lesson_seq _ _ HI).
    - intros sid Hs; cbn [students update_lessons set_lessons] in Hs.
      apply select_student_ids_in in Hs.
      destruct Hs as [s [<- Hs]]; cbn; now apply (inv_student_seq _ _ HI).
    - cbn [students update_lessons set_lessons].
      apply select_student_ids_NoDup, (inv_student_key _ _ HI).
    - intros a Ha El; exfalso; cbn in Ha.
      apply filter_In in Ha; destruct Ha as [_ Hk].
      unfold of_lesson in Hk; apply negb_true_iff, Z.eqb_neq in Hk; contradiction.
    - split; [assumption|].
      apply (rows_evolve_trans d dA); [exact HevA|].
      apply (rows_evolve_trans dA (update_lessons lid f dA)); assumption. }
  destruct b; exact Hgoal.
Qed.

Lemma keep_active (d : Db) :
  Inv d t ->
  let d' := snd (get_lessons_active now d) in
  Inv d' now /\ rows_evolve d d'.
Proof.
  intros HI; cbv zeta; unfold get_lessons_active.
  pose proof (keep_unchanged d HI) as Hsame.
  destruct (latest_lesson d) as [[lesson u]|] eqn:L; [|exact Hsame].
  destruct (older_than_a_day now (start_time lesson)); [exact Hsame|].
  destruct (otp_expired now (start_time lesson)) eqn:X; [|exact Hsame].
  cbn [snd]; apply latest_lesson_newest in L; destruct L as ((Hin & _) & _).
  apply (Inv_later _ _ now) in HI; [|assumption].
  apply keep_update_attendance; try assumption.
  - intros a; repeat split.
  - intros a Ha P _ l Hl El.
    apply andb_true_iff in P; destruct P as [P _].
    unfold of_lesson in P; apply Z.eqb_eq in P.
    assert (l = lesson)
      by (apply (same_lesson d now); [assumption.. | congruence]).
    subst l; now apply otp_expired_true.
  - intros a Ha P; right.
    apply andb_true_iff in P; destruct P as [_ P]; now apply is_pending_true.
Qed.

Lemma keep_mark (lid sid : Z) (code : string) (d : Db) :
  Inv d t ->
  let d' := snd (post_attendance_mark lid sid code now d) in
  Inv d' now /\ rows_evolve d d'.
Proof.
  intros HI; cbv zeta; unfold post_attendance_mark.
  pose proof (keep_unchanged d HI) as Hsame.
  destruct (find _ (lessons d)) as [lesson|] eqn:F; [|exact Hsame].
  apply find_lesson_some in F; destruct F as [Hin Hid].
  destruct (otp_enabled lesson =? 0); [exact Hsame|].
  pose proof (Inv_later _ _ now HI Hle) as HI'.
  destruct (otp_expired now (start_time lesson)) eqn:X; cbn [snd].
  - apply keep_update_attendance; try assumption.
    + intros a; repeat split.
    + intros a Ha P _ l Hl El.
      apply andb_true_iff in P; destruct P as [P _].
      apply andb_true_iff in P; destruct P as [P _].
      unfold of_lesson in P; apply Z.eqb_eq in P.
      assert (l = lesson)
        by (apply (same_lesson d t); [assumption.. | congruence]).
      subst l; now apply otp_expired_true.
    + intros a Ha P; right.
      apply andb_true_iff in P; destruct P as [_ P]; now apply is_pending_true.
  - destruct (find_record lid sid code d) as [record|] eqn:R; [|exact Hsame].
    destruct (Status_eqb (status record) Present) eqn:S; [exact Hsame|].
    apply find_some in R; destruct R as [Hrec Hmatch].
    apply andb_true_iff in Hmatch; destruct Hmatch as [Hmatch _].
    apply andb_true_iff in Hmatch; destruct Hmatch as [Hl _].
    unfold of_lesson in Hl; apply Z.eqb_eq in Hl.
    apply Status_eqb_neq in S; apply otp_expired_false in X.
    assert (Hpend : status record = Pending).
    { destruct (status record) eqn:St; [reflexivity | contradiction|].
      pose proof (inv_absent _ _ HI record lesson Hrec Hin
                    (eq_trans Hid (eq_sym Hl)) St); lia. }
    cbn [snd]; apply keep_update_attendance; try assumption.
    + intros a; repeat split.
    + intros a _ _ Ab; discriminate.
    + intros a Ha P; right; apply Z.eqb_eq in P.
      assert (a = record) by (apply (same_row d t); assumption).
      now subst a.
Qed.

(** Serving any request keeps the invariant and evolves the attendance
    rows. *)
Lemma keep_handle (o : Op) (d : Db) :
  Inv d t ->
  Inv (snd (handle o now d)) now /\ rows_evolve d (snd (handle o now d)).
Proof.
  intros HI; destruct o; cbn [handle].
  - now apply keep_post_students.
  - now apply keep_post_units.
  - now apply keep_put_student.
  - now apply keep_delete_student.
  - now apply keep_put_unit.
  - now apply keep_delete_unit.
  - now apply keep_start.
  - now apply keep_lecturer_mark.
  - now apply keep_restart.
  - now apply keep_enable_otp.
  - now apply keep_active.
  - now apply keep_mark.
Qed.

End Serving.

(** ** Reachable worlds *)

Lemma Inv_boot (fk : bool) (t0 : Z) : Inv (db (boot fk t0)) (clock (boot fk t0)).
Proof. constructor; cbn; try constructor; intros; contradiction. Qed.

Lemma step_keeps (w : World) (req : N * Op) :
  Inv (db w) (clock w) ->
  Inv (db (step w req)) (clock (step w req))
  /\ rows_evolve (db w) (db (step w req)).
Proof.
  intros HI; unfold step; cbn [db clock].
  apply keep_handle with (t := clock w); [lia | assumption].
Qed.

Lemma run_keeps (reqs : list (N * Op)) (w : World) :
  Inv (db w) (clock w) ->
  Inv (db (run w reqs)) (clock (run w reqs))
  /\ rows_evolve (db w) (db (run w reqs)).
Proof.
  revert w; induction reqs as [|req reqs IH]; intros w HI; cbn [run fold_left].
  - split; [assumption | apply rows_evolve_refl].
  - destruct (step_keeps w req HI) as [HI1 Hev1].
    destruct (IH (step w req) HI1) as [HI2 Hev2].
    split; [assumption | eapply rows_evolve_trans; eassumption].
Qed.

Lemma reachable_Inv (w : World) : reachable w -> Inv (db w) (clock w).
Proof.
  intros (fk & t0 & reqs & ->); apply run_keeps, Inv_boot.
Qed.

Lemma reachable_run (w : World) (reqs : list (N * Op)) :
  reachable w -> reachable (run w reqs).
Proof.
  intros (fk & t0 & reqs0 & ->); exists fk, t0, (reqs0 ++ reqs).
  unfold run; now rewrite fold_left_app.
Qed.

Lemma classroom_reachable : reachable classroom.
Proof.
  apply reachable_run; exists true, 0; eexists; reflexivity.
Qed.

(** A row met again later, under the same rowid, has a status that left
    pending at most. *)
Lemma row_lineage (w : World) (reqs : list (N * Op)) (a a' : AttendanceRow) :
  Inv (db w) (clock w) ->
  In a (attendance (db w)) ->
  In a' (attendance (db (run w reqs))) ->
  a_id a' = a_id a ->
  status_le (status a) (status a').
Proof.
  intros HI Ha Ha' Eid.
  destruct (run_keeps reqs w HI) as [_ [_ Hev]].
  destruct (Hev a' Ha') as [[a0 (H0 & E0 & _ & _ & Hle)]|Hnew].
  - assert (a0 = a)
      by (apply (same_row (db w) (clock w)); [assumption.. | congruence]).
    now subst a0.
  - pose proof (inv_att_seq _ _ HI a Ha); lia.
Qed.

(** ** One transition per row *)

(** C2: along every run of the server (all twelve writing handlers, clock
    never running backwards), an attendance row followed by its rowid
    through three successive moments changes status at most once, and only
    from pending to present or from pending to absent; a present row stays
    present. *)
Theorem status_changes_once (w0 : World) (reqs1 reqs2 : list (N * Op))
    (a0 a1 a2 : AttendanceRow) :
  reachable w0 ->
  let w1 := run w0 reqs1 in
  let w2 := run w1 reqs2 in
  In a0 (attendance (db w0)) ->
  In a1 (attendance (db w1)) ->
  In a2 (attendance (db w2)) ->
  a_id a1 = a_id a0 ->
  a_id a2 = a_id a0 ->
  (status a1 = status a0
   \/ (status a0 = Pending /\ (status a1 = Present \/ status a1 = Absent)))
  /\ (status a1 <> status a0 -> status a2 = status a1)
  /\ (status a0 = Present -> status a1 = Present /\ status a2 = Present).
Proof.
  intros Hr w1 w2 H0 H1 H2 E1 E2.
  pose proof (reachable_Inv w0 Hr) as HI0.
  pose proof (reachable_Inv w1 (reachable_run w0 reqs1 Hr)) as HI1.
  pose proof (row_lineage w0 reqs1 a0 a1 HI0 H0 H1 E1) as L01.
  pose proof (row_lineage w1 reqs2 a1 a2 HI1 H1 H2 (eq_trans E2 (eq_sym E1))) as L12.
  unfold status_le in *.
  destruct L01 as [E01|E01], L12 as [E12|E12];
    rewrite ?E01, ?E12 in *; repeat split; intros; try tauto; try congruence;
    destruct (status a1); auto; congruence.
Qed.

Lemma status_changes_once_witness :
  reachable classroom
  /\ exists a0 a1 a2,
       In a0 (attendance (db classroom))
       /\ In a1 (attendance (db first_marked))
       /\ In a2 (attendance (db (run first_marked [(1200000%N, LessonsActive)])))
       /\ a_id a1 = a_id a0 /\ a_id a2 = a_id a0
       /\ status a0 = Pending /\ status a1 = Present
       /\ status a2 = status a1.
Proof.
  pose proof classroom_reachable as Hr.
  split; [exact Hr|].
  pose (a0 := {| a_id := 1; lesson_id := 1; student_id := 1; otp := "100007";
                 status := Pending; marked_at := None |}).
  pose (a1 := set_present 1001 a0).
  assert (H0 : In a0 (attendance (db classroom))) by (vm_compute; tauto).
  assert (H1 : In a1 (attendance (db first_marked))) by (vm_compute; tauto).
  assert (H2 : In a1 (attendance
                        (db (run first_marked [(1200000%N, LessonsActive)]))))
    by (vm_compute; tauto).
  exists a0, a1, a1.
  pose proof (status_changes_once classroom [(1000%N, AttendanceMark 1 1 "100007")]
                [(1200000%N, LessonsActive)] a0 a1 a1 Hr H0 H1 H2 eq_refl eq_refl)
    as (_ & Hstay & _).
  split; [exact H0|]; split; [exact H1|]; split; [exact H2|].
  split; [reflexivity|]; split; [reflexivity|].
  split; [reflexivity|]; split; [reflexivity|].
  apply Hstay; discriminate.
Defined.

(** ** The OTP-input flag *)

Lemma lessons_evolve_refl (d : Db) : lessons_evolve d d.
Proof.
  split; [lia|]; intros l Hl; left; exists l; auto.
Qed.

Lemma lessons_evolve_trans (d1 d2 d3 : Db) :
  lessons_evolve d1 d2 -> lessons_evolve d2 d3 -> lessons_evolve d1 d3.
Proof.
  intros [Q12 H12] [Q23 H23]; split; [lia|]; intros l3 H3.
  destruct (H23 l3 H3) as [[l2 (H2 & E2 & K2)]|Hnew]; [|right; lia].
  destruct (H12 l2 H2) as [[l1 (H1 & E1 & K1)]|Hnew]; [|right; lia].
  left; exists l1; repeat split; [assumption | congruence | auto].
Qed.

Lemma lessons_evolve_same (d d' : Db) :
  lessons d' = lessons d -> seq_lessons d' = seq_lessons d ->
  lessons_evolve d d'.
Proof.
  intros E Q; split; [lia|]; intros l Hl; left; exists l.
  rewrite E in Hl; auto.
Qed.

Lemma lessons_evolve_update (id : Z) (f : LessonRow -> LessonRow) (d : Db) :
  (forall l, l_id (f l) = l_id l) ->
  (forall l, otp_enabled l <> 0 -> otp_enabled (f l) <> 0) ->
  lessons_evolve d (update_lessons id f d).
Proof.
  intros Hid Hen; split; [cbn; lia|]; intros l' Hl'; left.
  cbn in Hl'; apply in_map_iff in Hl'; destruct Hl' as [l [<- Hl]].
  exists l; destruct (l_id l =? id); auto.
Qed.

Lemma insert_rows_lessons (lid : Z) (sids : list Z) (rng : nat -> Z) (n : nat)
    (d : Db) :
  let d' := fst (insert_attendance_rows lid sids rng n d) in
  lessons d' = lessons d /\ seq_lessons d' = seq_lessons d.
Proof.
  revert n d; induction sids as [|sid r IH]; intros n d; cbv zeta;
    cbn [insert_attendance_rows]; [split; reflexivity|].
  destruct (insert_attendance lid sid (gen_otp (rng n)) Pending d) as [d1|] eqn:E;
    [|split; reflexivity].
  apply insert_attendance_fields in E; destruct E as (El & _ & _ & Ql & _).
  destruct (IH (S n) d1) as [El' Ql']; split; congruence.
Qed.

Lemma lessons_evolve_start (r : StartReq) (rng : nat -> Z) (now : Z) (d : Db) :
  lessons_evolve d (snd (post_lessons_start r rng now d)).
Proof.
  unfold post_lessons_start.
  assert (Hgo : forall uid,
            let res := match insert_lesson uid now (sr_venue r) (durationNum r) now
                               (now + durationNum r * 60000)
                               (sr_scheduled_start r) (sr_scheduled_end r)
                               (gen_otp (rng 0%nat)) d with
                       | Some (lessonId, d1) =>
                           match insert_attendance_rows lessonId
                                   (select_student_ids (students d1)) rng 1 d1 with
                           | (d2, true) => (ok (JStarted lessonId), d2)
                           | (_, false) =>
                               (err 500 "FOREIGN KEY constraint failed", d1)
                           end
                       | None => (err 500 "FOREIGN KEY constraint failed", d)
                       end in
            lessons_evolve d (snd res)).
  { intros uid; cbv zeta; unfold insert_lesson.
    match goal with |- context [if ?c then _ else None] => destruct c end;
      [|apply lessons_evolve_refl].
    set (id := next_id (seq_lessons d) (map l_id (lessons d))).
    set (d1 := set_lessons _ id d).
    assert (H1 : lessons_evolve d d1).
    { pose proof (next_id_gt_seq (seq_lessons d) (map l_id (lessons d))).
      split; [cbn; fold id; lia|]; intros l Hl; cbn in Hl.
      apply in_app_or in Hl; destruct Hl as [Hl|[<-|[]]].
      - left; exists l; auto.
      - right; cbn; fold id; lia. }
    pose proof (insert_rows_lessons id (select_student_ids (students d1)) rng 1 d1) as Hl.
    cbv zeta in Hl.
    destruct (insert_attendance_rows id (select_student_ids (students d1)) rng 1 d1)
      as [d2 [|]]; [|exact H1].
    cbn [fst snd] in *; destruct Hl as [El Ql].
    apply (lessons_evolve_trans d d1); [assumption|].
    now apply lessons_evolve_same. }
  destruct (sr_unit_id r); [apply lessons_evolve_refl | |];
    (destruct (date_valid _); [apply Hgo | apply lessons_evolve_refl]).
Qed.

Lemma lessons_evolve_post_students (name adm : string) (rng : nat -> Z) (now : Z)
    (d : Db) :
  lessons_evolve d (snd (post_students name adm rng now d)).
Proof.
  unfold post_students, insert_student.
  match goal with |- context [if ?c then None else _] => destruct c end;
    [apply lessons_evolve_refl|].
  match goal with
  | |- context [recent_lesson now ?x] => destruct (recent_lesson now x)
  end; [|now apply lessons_evolve_same].
  match goal with
  | |- context [insert_attendance ?a ?b ?c ?s ?x] =>
      destruct (insert_attendance a b c s x) as [d2|] eqn:I
  end; [|now apply lessons_evolve_same].
  apply insert_attendance_fields in I; destruct I as (El & _ & _ & Ql & _).
  apply lessons_evolve_same; cbn [snd]; [rewrite El | rewrite Ql]; reflexivity.
Qed.

Lemma lessons_evolve_mark (lid sid : Z) (code : string) (now : Z) (d : Db) :
  lessons_evolve d (snd (post_attendance_mark lid sid code now d)).
Proof.
  unfold post_attendance_mark.
  destruct (find _ (lessons d)) as [lesson|]; [|apply lessons_evolve_refl].
  destruct (otp_enabled lesson =? 0); [apply lessons_evolve_refl|].
  destruct (otp_expired now (start_time lesson));
    [now apply lessons_evolve_same|].
  destruct (find_record lid sid code d) as [record|];
    [|apply lessons_evolve_refl].
  destruct (Status_eqb (status record) Present);
    [apply lessons_evolve_refl | now apply lessons_evolve_same].
Qed.

(** No handler but restart turns the flag of a lesson off. *)
Lemma lessons_evolve_handle (o : Op) (now : Z) (d : Db) :
  is_restart o = false -> lessons_evolve d (snd (handle o now d)).
Proof.
  intros Hno; destruct o; cbn [handle]; try discriminate.
  - apply lessons_evolve_post_students.
  - now apply lessons_evolve_same.
  - unfold put_student, update_student.
    match goal with |- context [if ?c then None else _] => destruct c end;
      [apply lessons_evolve_refl | now apply lessons_evolve_same].
  - unfold delete_student, delete_student_row.
    match goal with |- context [if ?c then None else _] => destruct c end;
      [apply lessons_evolve_refl | now apply lessons_evolve_same].
  - now apply lessons_evolve_same.
  - rewrite delete_unit_result; apply lessons_evolve_refl.
  - apply lessons_evolve_start.
  - unfold post_lecturer_mark.
    destruct (find _ (lessons d)); [|apply lessons_evolve_refl].
    destruct (negb _); [apply lessons_evolve_refl|]; cbn [snd].
    apply lessons_evolve_update; auto.
  - unfold post_enable_otp; cbn [snd].
    apply lessons_evolve_update; [reflexivity | intros; cbn; discriminate].
  - unfold get_lessons_active.
    destruct (latest_lesson d) as [[lesson u]|]; [|apply lessons_evolve_refl].
    destruct (older_than_a_day now (start_time lesson));
      [apply lessons_evolve_refl|].
    destruct (otp_expired now (start_time lesson)); now apply lessons_evolve_same.
  - apply lessons_evolve_mark.
Qed.

Lemma lessons_evolve_run (reqs : list (N * Op)) (w : World) :
  Forall (fun req => is_restart (snd req) = false) reqs ->
  lessons_evolve (db w) (db (run w reqs)).
Proof.
  revert w; induction reqs as [|req reqs IH]; intros w H; cbn [run fold_left].
  - apply lessons_evolve_refl.
  - inversion H as [|? ? Hreq Hrest]; subst.
    apply (lessons_evolve_trans _ (db (step w req))); [|now apply IH].
    unfold step; cbn [db]; now apply lessons_evolve_handle.
Qed.

(** C5, counterexample: in the classroom OTP input was enabled for lesson
    1; a restart one second later leaves lesson 1 with otp_enabled = 0. *)
Lemma restart_disables_otp :
  (exists l, In l (lessons (db classroom)) /\ l_id l = 1 /\ otp_enabled l = 1)
  /\ (exists l', In l' (lessons (db (run classroom
                                         [(1000%N, LessonsRestart draws)])))
                 /\ l_id l' = 1 /\ otp_enabled l' = 0).
Proof.
  split; eexists; (split; [vm_compute; left; reflexivity|]); split; reflexivity.
Qed.

(** C5, as amended: in a running server, once a lesson's otp_enabled flag
    is set, no sequence of requests that contains no POST
    /api/lessons/restart sets it back to 0: whenever a lesson with that
    rowid is in the table afterwards, its flag is still set.  (A restart
    resets the flag of the lesson it restarts.) *)
Theorem otp_enabled_stays (w : World) (reqs : list (N * Op)) (l l' : LessonRow) :
  reachable w ->
  Forall (fun req => is_restart (snd req) = false) reqs ->
  In l (lessons (db w)) ->
  otp_enabled l <> 0 ->
  In l' (lessons (db (run w reqs))) ->
  l_id l' = l_id l ->
  otp_enabled l' <> 0.
Proof.
  intros Hr Hno Hl Hen Hl' Eid.
  pose proof (reachable_Inv w Hr) as HI.
  destruct (lessons_evolve_run reqs w Hno) as [_ Hev].
  destruct (Hev l' Hl') as [[l0 (H0 & E0 & K)]|Hnew].
  - assert (l0 = l)
      by (apply (same_lesson (db w) (clock w)); [assumption.. | congruence]).
    subst l0; auto.
  - pose proof (inv_lesson_seq _ _ HI l Hl); lia.
Qed.

Lemma otp_enabled_stays_witness :
  exists l l',
    In l (lessons (db classroom)) /\ otp_enabled l <> 0
    /\ In l' (lessons (db first_marked)) /\ l_id l' = l_id l
    /\ otp_enabled l' <> 0.
Proof.
  pose proof classroom_reachable as Hr.
  pose (l := set_otp_enabled
               {| l_id := 1; unit_id := Some 1; date := 0; venue := "Room 4";
                  duration := 60; start_time := 0; end_time := 3600000;
                  scheduled_start := "08:00"; scheduled_end := "09:00";
                  lecturer_otp := "100000"; lecturer_present := 0;
                  otp_enabled := 0 |}).
  assert (Hno : Forall (fun req => is_restart (snd req) = false)
                       [(1000%N, AttendanceMark 1 1 "100007")])
    by (repeat constructor).
  assert (Hl : In l (lessons (db classroom))) by (vm_compute; tauto).
  assert (Hen : otp_enabled l <> 0) by (vm_compute; discriminate).
  assert (Hl' : In l (lessons (db first_marked))) by (vm_compute; tauto).
  exists l, l.
  split; [exact Hl|]; split; [exact Hen|]; split; [exact Hl'|].
  split; [reflexivity|].
  exact (otp_enabled_stays classroom _ l l Hr Hno Hl Hen Hl' eq_refl).
Defined.

(** ** Marking attendance *)

Lemma find_by_key (ls : list LessonRow) (l : LessonRow) :
  NoDup (map l_id ls) -> In l ls ->
  find (fun x => l_id x =? l_id l) ls = Some l.
Proof.
  intros Hnd Hin.
  destruct (find (fun x => l_id x =? l_id l) ls) as [l0|] eqn:F.
  - apply find_lesson_some in F; destruct F as [H0 E0].
    f_equal; now apply (unique_by_key l_id ls).
  - exfalso; apply (find_none _ _ F) in Hin.
    rewrite Z.eqb_refl in Hin; discriminate.
Qed.

Lemma find_record_some (lid sid : Z) (code : string) (d : Db) (a : AttendanceRow) :
  find_record lid sid code d = Some a -> code_matches d lid sid code a.
Proof.
  intros F; apply find_some in F; destruct F as [Hin Hm].
  unfold of_lesson, of_student in Hm.
  rewrite !andb_true_iff, !Z.eqb_eq, String.eqb_eq in Hm.
  unfold code_matches; tauto.
Qed.

Lemma find_record_unique (lid sid : Z) (code : string) (d : Db) (t : Z)
    (a : AttendanceRow) :
  Inv d t -> code_matches d lid sid code a ->
  find_record lid sid code d = Some a.
Proof.
  intros HI (Hin & El & Es & Ec).
  destruct (find_record lid sid code d) as [r|] eqn:F.
  - apply find_record_some in F; destruct F as (Hr & El' & Es' & _).
    f_equal.
    apply (unique_by_key (fun x => (lesson_id x, student_id x)) (attendance d));
      [apply (inv_att_pair _ _ HI) | assumption | assumption | congruence].
  - exfalso; apply (find_none _ _ F) in Hin.
    unfold of_lesson, of_student in Hin.
    rewrite El, Es, Ec, !Z.eqb_refl, String.eqb_refl in Hin; discriminate.
Qed.

(** The only way through POST /api/attendance/mark that answers 200. *)
Lemma mark_ok_branch (lid sid : Z) (code : string) (now : Z) (d : Db) :
  is_ok (fst (post_attendance_mark lid sid code now d)) = true ->
  exists lesson record,
    find (fun l => l_id l =? lid) (lessons d) = Some lesson
    /\ otp_enabled lesson <> 0
    /\ now - start_time lesson <= 20 * minute
    /\ find_record lid sid code d = Some record
    /\ status record <> Present
    /\ post_attendance_mark lid sid code now d
       = (ok JSuccess,
          update_attendance (fun a => a_id a =? a_id record) (set_present now) d).
Proof.
  unfold post_attendance_mark.
  destruct (find _ (lessons d)) as [lesson|]; [|discriminate].
  destruct (otp_enabled lesson =? 0) eqn:En; [discriminate|].
  destruct (otp_expired now (start_time lesson)) eqn:X; [discriminate|].
  destruct (find_record lid sid code d) as [record|]; [|discriminate].
  destruct (Status_eqb (status record) Present) eqn:S; [discriminate|].
  intros _; exists lesson, record.
  apply Z.eqb_neq in En; apply otp_expired_false in X; apply Status_eqb_neq in S.
  repeat split; assumption.
Qed.

Lemma mark_goes_through (lid sid : Z) (code : string) (now : Z) (d : Db)
    (lesson : LessonRow) (record : AttendanceRow) :
  find (fun l => l_id l =? lid) (lessons d) = Some lesson ->
  otp_enabled lesson <> 0 ->
  now - start_time lesson <= 20 * minute ->
  find_record lid sid code d = Some record ->
  status record <> Present ->
  post_attendance_mark lid sid code now d
  = (ok JSuccess,
     update_attendance (fun a => a_id a =? a_id record) (set_present now) d).
Proof.
  intros F En X R S; unfold post_attendance_mark; rewrite F.
  apply Z.eqb_neq in En; apply otp_expired_false in X; apply Status_eqb_neq in S.
  now rewrite En, X, R, S.
Qed.

Lemma mark_rejected (lid sid : Z) (code : string) (now : Z) (d : Db) :
  is_ok (fst (post_attendance_mark lid sid code now d)) = false ->
  exists c msg, fst (post_attendance_mark lid sid code now d) = err c msg
                /\ (c = 400 \/ c = 404).
Proof.
  unfold post_attendance_mark.
  destruct (find _ (lessons d)) as [lesson|];
    [|intros _; exists 404; eexists; split; [reflexivity | now right]].
  destruct (otp_enabled lesson =? 0);
    [intros _; exists 400; eexists; split; [reflexivity | now left]|].
  destruct (otp_expired now (start_time lesson));
    [intros _; exists 400; eexists; split; [reflexivity | now left]|].
  destruct (find_record lid sid code d) as [record|];
    [|intros _; exists 400; eexists; split; [reflexivity | now left]].
  destruct (Status_eqb (status record) Present);
    [intros _; exists 400; eexists; split; [reflexivity | now left]
    | discriminate].
Qed.

(** In a running server, a row that is neither present nor past the 20
    minutes of its lesson is pending. *)
Lemma open_row_pending (d : Db) (t now : Z) (lesson : LessonRow)
    (a : AttendanceRow) :
  Inv d t -> t <= now ->
  In lesson (lessons d) -> In a (attendance d) ->
  l_id lesson = lesson_id a ->
  now - start_time lesson <= 20 * minute ->
  status a <> Present ->
  status a = Pending.
Proof.
  intros HI Hle Hl Ha E X S.
  destruct (status a) eqn:St; [reflexivity | contradiction|].
  pose proof (inv_absent _ _ HI a lesson Ha Hl E St); lia.
Qed.

(** The clock matters.  The guard of the handler only refuses a present
    row: handed the swept classroom at an instant inside the 20 minutes
    (which a clock that never runs backwards cannot produce, the sweep
    having run after them), it marks an absent row present. *)
Lemma mark_with_clock_set_back :
  clock swept = 1200001
  /\ (exists a, In a (attendance (db swept)) /\ a_id a = 1 /\ status a = Absent)
  /\ fst (post_attendance_mark 1 1 "100007" 1000 (db swept)) = ok JSuccess
  /\ (exists a, In a (attendance (snd (post_attendance_mark 1 1 "100007" 1000
                                                            (db swept))))
                /\ a_id a = 1 /\ status a = Present).
Proof.
  split; [reflexivity|]; split; [|split; [reflexivity|]];
    eexists; (split; [vm_compute; left; reflexivity|]); split; reflexivity.
Qed.

(** C1, counterexample: one second after the first student was marked
    present, the same submission meets every condition of the claim (lesson
    1 exists, OTP input is enabled, two seconds since the start, the code
    is the one stored in the student's row) and is rejected: "Already
    marked present". *)
Lemma resubmission_rejected :
  let d := db first_marked in
  let now := clock first_marked + 1000 in
  lesson_open d now 1
  /\ (exists a, code_matches d 1 1 "100007" a)
  /\ fst (post_attendance_mark 1 1 "100007" now d)
     = err 400 "Already marked present"
  /\ is_ok (fst (post_attendance_mark 1 1 "100007" now d)) = false.
Proof.
  cbv zeta; split; [|split; [|split; reflexivity]].
  - eexists; split; [vm_compute; left; reflexivity|].
    split; [reflexivity|]; split; vm_compute; discriminate.
  - eexists; split; [vm_compute; left; reflexivity|].
    repeat split; reflexivity.
Qed.

(** C1, as amended: in a running server, a submission to POST
    /api/attendance/mark succeeds if and only if a lesson with that id
    exists, its OTP input is enabled, at most 20 minutes have passed since
    its start_time, the submitted code is exactly (case-sensitively) the
    code stored in that student's row for that lesson, and that row is
    still pending.  When it succeeds, that row goes from pending to
    present with marked_at set to the instant of the request and every
    other row is kept; otherwise the request is rejected with a 400 or 404
    error. *)
Theorem mark_succeeds_iff (w : World) (delay : N) (lid sid : Z) (code : string) :
  reachable w ->
  let now := clock w + Z.of_N delay in
  let res := post_attendance_mark lid sid code now (db w) in
  (is_ok (fst res) = true
   <-> lesson_open (db w) now lid
       /\ exists a, code_matches (db w) lid sid code a /\ status a = Pending)
  /\ (is_ok (fst res) = true ->
      exists a, code_matches (db w) lid sid code a /\ status a = Pending
                /\ status (set_present now a) = Present
                /\ marked_at (set_present now a) = Some now
                /\ Forall2 (marked_where a now) (attendance (db w))
                           (attendance (snd res)))
  /\ (is_ok (fst res) = false ->
      exists c msg, fst res = err c msg /\ (c = 400 \/ c = 404)).
Proof.
  intros Hr now res; pose proof (reachable_Inv w Hr) as HI.
  assert (Hle : clock w <= now) by (subst now; lia).
  assert (Hfwd : is_ok (fst res) = true ->
            exists lesson a,
              In lesson (lessons (db w)) /\ l_id lesson = lid
              /\ otp_enabled lesson <> 0
              /\ now - start_time lesson <= 20 * minute
              /\ code_matches (db w) lid sid code a /\ status a = Pending
              /\ res = (ok JSuccess,
                        update_attendance (fun x => a_id x =? a_id a)
                                          (set_present now) (db w))).
  { intros Hok; apply mark_ok_branch in Hok.
    destruct Hok as (lesson & record & F & En & X & R & S & E).
    apply find_lesson_some in F; destruct F as [Hl Eid].
    pose proof (find_record_some _ _ _ _ _ R) as Hm.
    exists lesson, record; repeat split; try assumption; try apply Hm.
    destruct Hm as (Ha & El & _).
    apply (open_row_pending (db w) (clock w) now lesson record); auto; congruence. }
  split; [split|split].
  - intros Hok; destruct (Hfwd Hok) as (lesson & a & Hl & Eid & En & X & Hm & P & _).
    split; [exists lesson; auto | exists a; auto].
  - intros [(lesson & Hl & Eid & En & X) (a & Hm & P)].
    subst res; rewrite (mark_goes_through lid sid code now (db w) lesson a);
      try assumption; try reflexivity.
    + subst lid; apply find_by_key; [apply (inv_lesson_key _ _ HI) | assumption].
    + now apply (find_record_unique _ _ _ _ (clock w)).
    + rewrite P; discriminate.
  - intros Hok; destruct (Hfwd Hok) as (_ & a & _ & _ & _ & _ & Hm & P & E).
    exists a; split; [assumption|]; split; [assumption|].
    split; [reflexivity|]; split; [reflexivity|].
    rewrite E; cbn [snd update_attendance attendance set_attendance].
    apply Forall2_map_same; intros x Hx; unfold marked_where.
    destruct (a_id x =? a_id a) eqn:C.
    + apply Z.eqb_eq in C; left.
      assert (x = a)
        by (apply (same_row (db w) (clock w));
            [assumption | assumption | apply Hm | assumption]).
      subst x; split; reflexivity.
    + right; split; [|reflexivity].
      intros ->; rewrite Z.eqb_refl in C; discriminate.
  - apply mark_rejected.
Qed.

Lemma mark_succeeds_iff_witness :
  reachable classroom
  /\ is_ok (fst (post_attendance_mark 1 1 "100007"
                   (clock classroom + Z.of_N 1000) (db classroom))) = true
  /\ lesson_open (db classroom) (clock classroom + Z.of_N 1000) 1.
Proof.
  pose proof classroom_reachable as Hr.
  split; [exact Hr|]; split; [reflexivity|].
  destruct (mark_succeeds_iff classroom 1000 1 1 "100007" Hr) as ([Hcond _] & _).
  exact (proj1 (Hcond eq_refl)).
Defined.

(** * Further properties of the handlers *)

(** ** Students *)

(** The transaction of DELETE /api/students/:id cannot be refused: the
    attendance rows of the student are deleted first. *)
Lemma delete_student_result (id : Z) (d : Db) :
  delete_student id d
  = (ok JSuccess,
     set_students (filter (fun s => negb (s_id s =? id)) (students d))
       (seq_students d)
       (set_attendance (filter (fun a => negb (student_id a =? id))
                               (attendance d))
                       (seq_attendance d) d)).
Proof.
  unfold delete_student, delete_student_row.
  set (dA := delete_attendance_of_student id d).
  assert (Hfk : foreign_keys dA
                && existsb (fun a =>
                     existsb (fun s => s_id s =? student_id a)
                             (filter (fun s => s_id s =? id) (students dA))
                     && negb (existsb (fun s => s_id s =? student_id a)
                                (filter (fun s => negb (s_id s =? id))
                                        (students dA))))
                   (attendance dA) = false).
  { replace (existsb _ (attendance dA)) with false; [apply andb_false_r|].
    symmetry; apply not_true_is_false; intros H.
    apply existsb_exists in H; destruct H as [a [Hin Ho]].
    subst dA; cbn in Hin, Ho.
    apply filter_In in Hin; destruct Hin as [_ Hk].
    apply andb_true_iff in Ho; destruct Ho as [Ho _].
    apply existsb_exists in Ho; destruct Ho as [s [Hs E]].
    apply filter_In in Hs; destruct Hs as [_ Hid].
    apply Z.eqb_eq in Hid, E; unfold of_student in Hk.
    rewrite <- E, Hid, Z.eqb_refl in Hk; discriminate. }
  rewrite Hfk; reflexivity.
Qed.

(** X1: DELETE /api/students/:id always succeeds, whether or not foreign
    keys are enforced: it removes the student row and every attendance row
    of that student, keeps every other student and attendance row in order
    and unchanged, and touches neither lessons nor units.  Deleting an id
    no student has is answered with success too and keeps the students
    table as it is. *)
Theorem delete_student_cascade (id : Z) (d : Db) :
  let r := delete_student id d in
  fst r = ok JSuccess
  /\ students (snd r) = filter (fun s => negb (s_id s =? id)) (students d)
  /\ attendance (snd r)
     = filter (fun a => negb (student_id a =? id)) (attendance d)
  /\ lessons (snd r) = lessons d
  /\ units (snd r) = units d
  /\ (has_student d id = false -> students (snd r) = students d).
Proof.
  cbv zeta; rewrite delete_student_result; cbn.
  repeat split.
  intros Hno.
  rewrite <- (filter_all (students d)) at 2; apply filter_ext_in.
  intros s Hs; apply negb_true_iff, not_true_is_false; intros E.
  unfold has_student in Hno.
  assert (existsb (fun s0 => s_id s0 =? id) (students d) = true)
    by (apply existsb_exists; exists s; auto).
  congruence.
Qed.

Lemma admission_taken (adm : string) (d : Db) :
  existsb (fun s => String.eqb (admission_number s) adm) (students d) = true
  <-> exists s, In s (students d) /\ admission_number s = adm.
Proof.
  rewrite existsb_exists; split; intros [s [Hs E]]; exists s; split; auto;
    now apply String.eqb_eq.
Qed.

(** What POST /api/students leaves when the admission number is new. *)
Lemma post_students_result (name adm : string) (rng : nat -> Z) (now : Z) (d : Db) :
  (forall s, In s (students d) -> admission_number s <> adm) ->
  let id := next_id (seq_students d) (map s_id (students d)) in
  let d1 := set_students
              (students d ++ [{| s_id := id; s_name := name;
                                 admission_number := adm |}]) id d in
  post_students name adm rng now d
  = (ok (JId id),
     match recent_lesson now d with
     | Some l =>
         let rowid := next_id (seq_attendance d) (map a_id (attendance d)) in
         set_attendance
           (attendance d ++ [late_row rowid id l (gen_otp (rng 0%nat)) now])
           rowid d1
     | None => d1
     end).
Proof.
  intros Hnew; cbv zeta; unfold post_students, insert_student.
  replace (existsb _ (students d)) with false
    by (symmetry; apply not_true_is_false; intros H;
        apply admission_taken in H; destruct H as [s [Hs E]];
        exact (Hnew s Hs E)).
  set (id := next_id (seq_students d) (map s_id (students d))).
  set (d1 := set_students _ id d).
  change (recent_lesson now d1) with (recent_lesson now d).
  destruct (recent_lesson now d) as [l|] eqn:R; [|reflexivity].
  apply recent_lesson_in in R; destruct R as [Hl _].
  unfold insert_attendance.
  replace (negb (foreign_keys d1) || (has_lesson d1 (l_id l) && has_student d1 id))
    with true; [reflexivity|].
  symmetry; apply orb_true_iff; right; apply andb_true_iff; split.
  - now apply (has_lesson_in d).
  - unfold has_student, d1; cbn; rewrite existsb_app; cbn.
    now rewrite Z.eqb_refl, orb_true_r.
Qed.

(** X2: POST /api/students.  With an admission number some student
    already holds it answers 400 and writes nothing.  With a new one it
    succeeds: it appends one student row under a rowid no student has and
    answers with that rowid; when the 24-hour query finds an active lesson
    it also appends exactly one attendance row for that lesson and that
    student, with a code from the request's draw, absent from the outset if
    more than 20 minutes have passed since the lesson's start_time and
    pending otherwise; with no active lesson it appends no attendance row.
    Lessons and units are not touched. *)
Theorem register_student (name adm : string) (rng : nat -> Z) (now : Z) (d : Db) :
  let r := post_students name adm rng now d in
  let id := next_id (seq_students d) (map s_id (students d)) in
  ((exists s, In s (students d) /\ admission_number s = adm) ->
   r = (err 400 "Admission number already exists", d))
  /\ ((forall s, In s (students d) -> admission_number s <> adm) ->
      fst r = ok (JId id)
      /\ ~ In id (map s_id (students d))
      /\ students (snd r)
         = students d ++ [{| s_id := id; s_name := name;
                             admission_number := adm |}]
      /\ attendance (snd r)
         = attendance d
           ++ match recent_lesson now d with
              | Some l =>
                  [late_row (next_id (seq_attendance d)
                                     (map a_id (attendance d)))
                            id l (gen_otp (rng 0%nat)) now]
              | None => []
              end
      /\ lessons (snd r) = lessons d
      /\ units (snd r) = units d).
Proof.
  cbv zeta; split.
  - intros H; apply admission_taken in H.
    unfold post_students, insert_student; now rewrite H.
  - intros Hnew; rewrite (post_students_result name adm rng now d Hnew).
    cbn [fst snd]; split; [reflexivity|]; split.
    + intros Hin; apply (next_id_gt_ids (seq_students d)) in Hin; lia.
    + destruct (recent_lesson now d); cbn; rewrite ?app_nil_r; repeat split.
Qed.

Lemma register_student_witness :
  fst (post_students "Chebet" "ADM-003" draws 1500000 (db classroom)) = ok (JId 3)
  /\ exists a, In a (attendance (snd (post_students "Chebet" "ADM-003" draws
                                                    1500000 (db classroom))))
               /\ student_id a = 3 /\ lesson_id a = 1 /\ status a = Absent.
Proof.
  assert (Hnew : forall s, In s (students (db classroom)) ->
                           admission_number s <> "ADM-003"%string).
  { intros s H; vm_compute in H.
    destruct H as [<-|[<-|[]]]; vm_compute; discriminate. }
  destruct (proj2 (register_student "Chebet" "ADM-003" draws 1500000 (db classroom))
              Hnew) as (Hok & _ & _ & Hatt & _).
  split; [exact Hok|].
  eexists; split; [rewrite Hatt; apply in_or_app; right; left; reflexivity|].
  repeat split.
Defined.

(** ** From a started session to a marked student *)

Lemma find_app_skip {R : Type} (hit : R -> bool) (old new : list R) :
  (forall x, In x old -> hit x = false) ->
  find hit (old ++ new) = find hit new.
Proof.
  induction old as [|x old IH]; intros H; cbn; [reflexivity|].
  rewrite (H x (or_introl eq_refl)); apply IH; intros y Hy; apply H; now right.
Qed.

(** When the insert loop reports success it has appended exactly the
    expected rows and touched nothing else. *)
Lemma insert_rows_done (lid : Z) (sids : list Z) (rng : nat -> Z) (n : nat)
    (d d' : Db) :
  insert_attendance_rows lid sids rng n d = (d', true) ->
  attendance d'
  = attendance d
    ++ fresh_rows lid sids rng n
                  (next_id (seq_attendance d) (map a_id (attendance d)))
  /\ lessons d' = lessons d /\ students d' = students d /\ units d' = units d.
Proof.
  revert n d; induction sids as [|sid r IH]; intros n d H;
    cbn [insert_attendance_rows] in H.
  - injection H as <-; cbn; rewrite app_nil_r; repeat split.
  - destruct (insert_attendance lid sid (gen_otp (rng n)) Pending d) as [d1|] eqn:E;
      [|discriminate].
    apply insert_attendance_fields in E.
    destruct E as (El & Es & Eu & _ & _ & Q & Ea).
    destruct (IH (S n) d1 H) as (Ha' & El' & Es' & Eu').
    split; [|repeat split; congruence].
    rewrite Ha', Ea, Q, map_app; cbn [map a_id].
    rewrite next_id_after_insert, <- app_assoc; reflexivity.
Qed.

(** What a successful POST /api/lessons/start has written. *)
Lemma start_outcome (r : StartReq) (rng : nat -> Z) (now : Z) (d : Db) (lid : Z) :
  fst (post_lessons_start r rng now d) = ok (JStarted lid) ->
  lid = next_id (seq_lessons d) (map l_id (lessons d))
  /\ (exists l, lessons (snd (post_lessons_start r rng now d)) = lessons d ++ [l]
                /\ l_id l = lid /\ otp_enabled l = 0 /\ start_time l = now
                /\ lecturer_otp l = gen_otp (rng 0%nat)
                /\ lecturer_present l = 0)
  /\ attendance (snd (post_lessons_start r rng now d))
     = attendance d
       ++ fresh_rows lid (select_student_ids (students d)) rng 1
                     (next_id (seq_attendance d) (map a_id (attendance d)))
  /\ students (snd (post_lessons_start r rng now d)) = students d.
Proof.
  unfold post_lessons_start.
  assert (Hgo : forall uid,
    let res := match insert_lesson uid now (sr_venue r) (durationNum r) now
                       (now + durationNum r * 60000)
                       (sr_scheduled_start r) (sr_scheduled_end r)
                       (gen_otp (rng 0%nat)) d with
               | Some (lessonId, d1) =>
                   match insert_attendance_rows lessonId
                           (select_student_ids (students d1)) rng 1 d1 with
                   | (d2, true) => (ok (JStarted lessonId), d2)
                   | (_, false) => (err 500 "FOREIGN KEY constraint failed", d1)
                   end
               | None => (err 500 "FOREIGN KEY constraint failed", d)
               end in
    fst res = ok (JStarted lid) ->
    lid = next_id (seq_lessons d) (map l_id (lessons d))
    /\ (exists l, lessons (snd res) = lessons d ++ [l]
                  /\ l_id l = lid /\ otp_enabled l = 0 /\ start_time l = now
                  /\ lecturer_otp l = gen_otp (rng 0%nat)
                  /\ lecturer_present l = 0)
    /\ attendance (snd res)
       = attendance d
         ++ fresh_rows lid (select_student_ids (students d)) rng 1
                       (next_id (seq_attendance d) (map a_id (attendance d)))
    /\ students (snd res) = students d).
  { intros uid; cbv zeta; unfold insert_lesson.
    match goal with |- context [if ?c then _ else None] => destruct c end;
      [|discriminate].
    set (id := next_id (seq_lessons d) (map l_id (lessons d))).
    set (d1 := set_lessons _ id d).
    destruct (insert_attendance_rows id (select_student_ids (students d1)) rng 1 d1)
      as [d2 [|]] eqn:L; [|discriminate].
    cbn [fst snd]; intros [= <-].
    apply insert_rows_done in L; destruct L as (Ha & El & Es & _).
    split; [reflexivity|]; split; [|split].
    - eexists; split; [rewrite El; reflexivity|]; repeat split.
    - rewrite Ha; reflexivity.
    - rewrite Es; reflexivity. }
  destruct (sr_unit_id r); [discriminate | |];
    (destruct (date_valid _); [apply Hgo | discriminate]).
Qed.

Lemma find_new_lesson (ls : list LessonRow) (l : LessonRow)
    (f : LessonRow -> LessonRow) :
  (forall x, In x ls -> l_id x < l_id l) ->
  find (fun x => l_id x =? l_id l)
       (map (fun x => if l_id x =? l_id l then f x else x) (ls ++ [l]))
  = if l_id (f l) =? l_id l then Some (f l) else None.
Proof.
  intros Hold; rewrite map_app, find_app_skip.
  - cbn; rewrite Z.eqb_refl; reflexivity.
  - intros y Hy; apply in_map_iff in Hy; destruct Hy as [x [<- Hx]].
    specialize (Hold x Hx).
    replace (l_id x =? l_id l) with false by (symmetry; apply Z.eqb_neq; lia).
    apply Z.eqb_neq; lia.
Qed.

(** The row of the k-th student is the one a search by lesson, student
    and that student's code finds among the rows of a new session. *)
Lemma find_fresh_row (lid : Z) (sids : list Z) (rng : nat -> Z) (n : nat) (id : Z)
    (k : nat) (sid : Z) :
  NoDup sids -> nth_error sids k = Some sid ->
  find (fun a => of_lesson lid a && of_student sid a
                 && String.eqb (otp a) (gen_otp (rng (n + k)%nat)))
       (fresh_rows lid sids rng n id)
  = Some {| a_id := id + Z.of_nat k; lesson_id := lid; student_id := sid;
            otp := gen_otp (rng (n + k)%nat); status := Pending;
            marked_at := None |}.
Proof.
  revert n id k; induction sids as [|x r IH]; intros n id k Hnd Hk.
  - destruct k; discriminate.
  - inversion Hnd as [|? ? Hnot Hnd']; subst.
    destruct k as [|k]; cbn [nth_error] in Hk; cbn [fresh_rows find].
    + injection Hk as ->.
      unfold of_lesson, of_student; cbn [lesson_id student_id otp].
      rewrite Nat.add_0_r, !Z.eqb_refl, String.eqb_refl, Z.add_0_r; reflexivity.
    + assert (x <> sid)
        by (intros ->; apply Hnot; eapply nth_error_In; eassumption).
      unfold of_student at 1; cbn [student_id].
      replace (x =? sid) with false by (symmetry; now apply Z.eqb_neq).
      rewrite andb_false_r; cbn [andb].
      replace (n + S k)%nat with (S n + k)%nat by lia.
      rewrite (IH (S n) (id + 1) k Hnd' Hk).
      do 2 f_equal; lia.
Qed.

(** In a running server a submission for a lesson whose OTP input is off
    is rejected as such and writes nothing. *)
Lemma closed_lesson_rejects (d : Db) (t : Z) (l : LessonRow) (sid : Z)
    (code : string) (now : Z) :
  Inv d t -> In l (lessons d) -> otp_enabled l = 0 ->
  post_attendance_mark (l_id l) sid code now d
  = (err 400 "OTP input is not yet enabled by the representative", d).
Proof.
  intros HI Hl Hoff; unfold post_attendance_mark.
  rewrite (find_by_key (lessons d) l (inv_lesson_key _ _ HI) Hl), Hoff.
  reflexivity.
Qed.

Lemma restart_goes_through (rng : nat -> Z) (now : Z) (d : Db)
    (active : LessonRow) :
  recent_lesson now d = Some active ->
  fst (post_lessons_restart rng now d) = ok JSuccess ->
  date_valid (now + duration active * 60000) = true.
Proof.
  intros R; unfold post_lessons_restart; rewrite R.
  destruct (date_valid _); [reflexivity | discriminate].
Qed.

Lemma restart_outcome (rng : nat -> Z) (now : Z) (d : Db) (active : LessonRow) :
  recent_lesson now d = Some active ->
  date_valid (now + duration active * 60000) = true ->
  lessons (snd (post_lessons_restart rng now d))
  = map (fun l => if l_id l =? l_id active
                  then reset_times now (now + duration active * 60000) l
                  else l) (lessons d).
Proof.
  intros R V; unfold post_lessons_restart; rewrite R, V.
  match goal with
  | |- context [insert_attendance_rows ?l ?s ?g ?n ?x] =>
      pose proof (insert_rows_lessons l s g n x) as H;
      destruct (insert_attendance_rows l s g n x) as [d3 [|]]
  end; cbv zeta in H; cbn [fst snd] in *; destruct H as [-> _]; reflexivity.
Qed.

(** X4: a session that was just started or restarted accepts no code.  In
    a running server, after POST /api/lessons/start or POST
    /api/lessons/restart answered success, every submission for the lesson
    started or restarted, whatever the student, the code and the instant,
    is rejected with "OTP input is not yet enabled by the representative"
    and writes nothing, until OTP input is enabled (again). *)
Theorem new_session_is_closed (w : World) (dt : N) (o : Op) (lid sid : Z)
    (code : string) (now : Z) :
  reachable w ->
  let w1 := step w (dt, o) in
  (exists r rng, o = LessonsStart r rng
                 /\ fst (post_lessons_start r rng (clock w1) (db w))
                    = ok (JStarted lid))
  \/ (exists rng active, o = LessonsRestart rng
                         /\ recent_lesson (clock w1) (db w) = Some active
                         /\ fst (post_lessons_restart rng (clock w1) (db w))
                            = ok JSuccess
                         /\ lid = l_id active) ->
  post_attendance_mark lid sid code now (db w1)
  = (err 400 "OTP input is not yet enabled by the representative", db w1).
Proof.
  intros Hr w1 Hop.
  assert (Hr1 : reachable w1) by (apply (reachable_run w [(dt, o)]); assumption).
  pose proof (reachable_Inv w1 Hr1) as HI1.
  assert (Hl : exists l, In l (lessons (db w1)) /\ l_id l = lid
                         /\ otp_enabled l = 0).
  { destruct Hop as [(r & rng & -> & Hok)|(rng & active & -> & R & Hok & ->)].
    - destruct (start_outcome _ _ _ _ _ Hok) as (_ & (l & El & Eid & Een & _) & _).
      exists l; split; [|split; assumption].
      change (lessons (db w1))
        with (lessons (snd (post_lessons_start r rng (clock w1) (db w)))).
      rewrite El; apply in_or_app; right; now left.
    - pose proof (recent_lesson_in _ _ _ R) as [Hin _].
      pose proof (restart_goes_through _ _ _ _ R Hok) as V.
      exists (reset_times (clock w1) (clock w1 + duration active * 60000) active).
      split; [|split; reflexivity].
      change (lessons (db w1))
        with (lessons (snd (post_lessons_restart rng (clock w1) (db w)))).
      rewrite (restart_outcome _ _ _ _ R V).
      apply in_map_iff; exists active; split; [|assumption].
      now rewrite Z.eqb_refl. }
  destruct Hl as (l & Hl & <- & Hoff).
  now apply (closed_lesson_rejects (db w1) (clock w1)).
Qed.

Lemma new_session_is_closed_witness :
  post_attendance_mark 1 1 "100007" 5
    (db (step classroom (2%N, LessonsRestart draws)))
  = (err 400 "OTP input is not yet enabled by the representative",
     db (step classroom (2%N, LessonsRestart draws))).
Proof.
  apply (new_session_is_closed classroom 2 (LessonsRestart draws) 1 1 "100007" 5
           classroom_reachable).
  right; eexists; eexists; split; [reflexivity|]; split; [reflexivity|].
  split; reflexivity.
Defined.

(** A restart that fails leaves the session open: the lesson that ends on
    the last instant of a date keeps OTP input enabled through a restart a
    minute later, and the code issued at the start is still accepted. *)
Lemma failed_restart_keeps_session_open :
  code (fst (post_lessons_restart draws 60001 (db longest_classroom))) = 500
  /\ fst (post_attendance_mark 1 1 "100007" 60002
            (snd (post_lessons_restart draws 60001 (db longest_classroom))))
     = ok JSuccess.
Proof. split; vm_compute; reflexivity. Qed.

(** ** What a submission never does *)

(** X5: POST /api/attendance/mark never inserts or deletes a row, never
    changes a rowid, a key or a stored code, and never writes students,
    units or lessons: whatever the answer, the attendance table afterwards
    has the same rows in the same order, up to status and marked_at. *)
Theorem mark_keeps_rows (lid sid : Z) (code : string) (now : Z) (d : Db) :
  let r := post_attendance_mark lid sid code now d in
  students (snd r) = students d
  /\ units (snd r) = units d
  /\ lessons (snd r) = lessons d
  /\ Forall2 (fun a a' => a_id a' = a_id a /\ lesson_id a' = lesson_id a
                          /\ student_id a' = student_id a /\ otp a' = otp a)
             (attendance d) (attendance (snd r)).
Proof.
  assert (Hsame : Forall2 (fun a a' => a_id a' = a_id a
                                       /\ lesson_id a' = lesson_id a
                                       /\ student_id a' = student_id a
                                       /\ otp a' = otp a)
                          (attendance d) (attendance d)).
  { rewrite <- (map_id (attendance d)) at 2.
    apply Forall2_map_same; intros; repeat split. }
  assert (Hupd : forall p f,
            (forall a, a_id (f a) = a_id a /\ lesson_id (f a) = lesson_id a
                       /\ student_id (f a) = student_id a /\ otp (f a) = otp a) ->
            Forall2 (fun a a' => a_id a' = a_id a /\ lesson_id a' = lesson_id a
                                 /\ student_id a' = student_id a /\ otp a' = otp a)
                    (attendance d) (attendance (update_attendance p f d))).
  { intros p f Hf; cbn; apply Forall2_map_same; intros a _.
    destruct (p a); [apply Hf | repeat split]. }
  cbv zeta; unfold post_attendance_mark.
  destruct (find _ (lessons d)) as [lesson|]; [|repeat split; assumption].
  destruct (otp_enabled lesson =? 0); [repeat split; assumption|].
  destruct (otp_expired now (start_time lesson)).
  - repeat split; apply Hupd; intros; repeat split.
  - destruct (find_record lid sid code d) as [record|];
      [|repeat split; assumption].
    destruct (Status_eqb (status record) Present);
      [repeat split; assumption|].
    repeat split; apply Hupd; intros; repeat split.
Qed.

(** X6: a rejected submission writes nothing, unless it is rejected as
    expired: with any other error answer (lesson not found, OTP input not
    enabled, invalid OTP, already marked present) the database after the
    request is the database before it. *)
Theorem rejected_mark_writes_nothing (lid sid : Z) (code : string) (now : Z)
    (d : Db) :
  let r := post_attendance_mark lid sid code now d in
  is_ok (fst r) = false ->
  fst r <> err 400 "OTP has expired (20 minutes elapsed)" ->
  snd r = d.
Proof.
  cbv zeta; unfold post_attendance_mark.
  destruct (find _ (lessons d)) as [lesson|]; [|reflexivity].
  destruct (otp_enabled lesson =? 0); [reflexivity|].
  destruct (otp_expired now (start_time lesson)); [intros _ H; now elim H|].
  destruct (find_record lid sid code d) as [record|]; [|reflexivity].
  destruct (Status_eqb (status record) Present); [reflexivity | discriminate].
Qed.

Lemma rejected_mark_writes_nothing_witness :
  snd (post_attendance_mark 1 1 "100008" 1000 (db classroom)) = db classroom.
Proof.
  apply (rejected_mark_writes_nothing 1 1 "100008" 1000 (db classroom));
    [reflexivity | vm_compute; discriminate].
Defined.

(** ** Polling the active lesson *)

Lemma set_absent_done (p : AttendanceRow -> bool) (a : AttendanceRow) :
  (if p (if p a && is_pending a then set_absent a else a)
      && is_pending (if p a && is_pending a then set_absent a else a)
   then set_absent (if p a && is_pending a then set_absent a else a)
   else (if p a && is_pending a then set_absent a else a))
  = (if p a && is_pending a then set_absent a else a).
Proof.
  destruct (p a && is_pending a) eqn:E.
  - unfold is_pending at 1; cbn [status set_absent Status_eqb].
    now rewrite andb_false_r.
  - now rewrite E.
Qed.

Lemma expire_lesson_twice (lid : Z) (d : Db) :
  expire_lesson lid (expire_lesson lid d) = expire_lesson lid d.
Proof.
  unfold expire_lesson, update_attendance, set_attendance; cbn.
  f_equal; rewrite map_map; apply map_ext; intros a.
  apply (set_absent_done (of_lesson lid)).
Qed.

(** X7: GET /api/lessons/active writes at most once per expiry.  Polling
    again at the same instant gives the same answer and leaves the database
    as the first poll left it; and a poll writes nothing at all when it
    answers null or when at most 20 minutes have passed since the start of
    the lesson it answers with. *)
Theorem poll_is_idempotent (now : Z) (d : Db) :
  let r := get_lessons_active now d in
  get_lessons_active now (snd r) = r
  /\ (fst r = ok JNull -> snd r = d)
  /\ (forall l, active_lesson_of (fst r) = Some l ->
                now - start_time l <= 20 * minute -> snd r = d).
Proof.
  cbv zeta; unfold get_lessons_active.
  destruct (latest_lesson d) as [[lesson u]|] eqn:L.
  - destruct (older_than_a_day now (start_time lesson)) eqn:O.
    + cbn [snd fst]; rewrite L, O; repeat split; discriminate.
    + destruct (otp_expired now (start_time lesson)) eqn:X; cbn [snd fst].
      * change (latest_lesson (expire_lesson (l_id lesson) d))
          with (latest_lesson d).
        rewrite L, O, X, expire_lesson_twice.
        split; [reflexivity|]; split; [discriminate|].
        intros l [= <-] Hwin; apply otp_expired_true in X; lia.
      * rewrite L, O, X; repeat split.
  - cbn [snd fst]; rewrite L; repeat split; discriminate.
Qed.

Lemma in_attendance_join (lid : Z) (d : Db) (a : AttendanceRow) (s : StudentRow) :
  In (a, s) (attendance_join_students lid d)
  <-> In a (attendance d) /\ lesson_id a = lid
      /\ In s (students d) /\ s_id s = student_id a.
Proof.
  unfold attendance_join_students; rewrite in_flat_map; split.
  - intros [a0 [Ha Hp]]; apply in_map_iff in Hp; destruct Hp as [s0 [E Hs]].
    injection E as -> ->.
    apply filter_In in Ha, Hs; unfold of_lesson in Ha.
    rewrite Z.eqb_eq in Ha, Hs; tauto.
  - intros (Ha & El & Hs & Es); exists a; split.
    + apply filter_In; split; [assumption | now apply Z.eqb_eq].
    + apply in_map, filter_In; split; [assumption | now apply Z.eqb_eq].
Qed.

(** X8: what the answer of GET /api/lessons/active lists.  Every entry of
    its attendance list is an attendance row of the answered lesson, as
    stored after the request, joined with the student it references; and
    once more than 20 minutes have passed since the lesson's start_time no
    entry is pending: the sweep runs before the list is read. *)
Theorem active_answer_rows (now : Z) (d : Db) (l : LessonRow) (u : UnitRow)
    (rows : list (AttendanceRow * StudentRow)) :
  fst (get_lessons_active now d) = ok (JActive l u rows) ->
  (forall a s, In (a, s) rows ->
               In a (attendance (snd (get_lessons_active now d)))
               /\ lesson_id a = l_id l
               /\ In s (students d) /\ s_id s = student_id a)
  /\ (now - start_time l > 20 * minute ->
      forall a s, In (a, s) rows -> status a <> Pending).
Proof.
  unfold get_lessons_active.
  destruct (latest_lesson d) as [[lesson u0]|]; [|discriminate].
  destruct (older_than_a_day now (start_time lesson)); [discriminate|].
  cbn [fst snd]; intros [= <- <- <-]; split.
  - intros a s H; apply in_attendance_join in H.
    destruct (otp_expired now (start_time lesson)); cbn in *; tauto.
  - intros Hlate a s H; apply otp_expired_true in Hlate; rewrite Hlate in H.
    apply in_attendance_join in H; destruct H as (Ha & El & _).
    pose proof (expired_lesson_no_pending (l_id lesson) d
                  (expire_lesson (l_id lesson) d)
                  (expire_lesson_rows (l_id lesson) d)) as Hno.
    exact (Hno a Ha El).
Qed.

Lemma active_answer_rows_witness :
  exists l u rows,
    fst (get_lessons_active 1200001 (db classroom)) = ok (JActive l u rows)
    /\ List.length rows = 2%nat
    /\ forall a s, In (a, s) rows -> status a <> Pending.
Proof.
  eexists; eexists; eexists; split; [reflexivity|]; split; [reflexivity|].
  refine (proj2 (active_answer_rows 1200001 (db classroom) _ _ _ eq_refl) _).
  vm_compute; reflexivity.
Defined.

(** ** References and admission numbers in a running server *)

(** The database a handler leaves is sound when no key disappeared, every
    attendance row carries the keys of a row that was there or of rows
    that exist, and admission numbers are still unique. *)
Lemma Sound_step (d d' : Db) :
  Sound d ->
  (forall id, has_lesson d id = true -> has_lesson d' id = true) ->
  (forall a', In a' (attendance d') ->
     (exists a, In a (attendance d) /\ lesson_id a = lesson_id a'
                /\ student_id a = student_id a'
                /\ has_student d' (student_id a) = true)
     \/ (has_lesson d' (lesson_id a') = true
         /\ has_student d' (student_id a') = true)) ->
  NoDup (map admission_number (students d')) ->
  Sound d'.
Proof.
  intros [Sl Ss Sa] Hl Hrows Hadm; constructor; [| |assumption].
  - intros a' Ha'; destruct (Hrows a' Ha') as [(a & Ha & El & _)|[H _]];
      [|assumption].
    rewrite <- El; auto.
  - intros a' Ha'; destruct (Hrows a' Ha') as [(a & Ha & _ & Es & H)|[_ H]];
      [|assumption].
    now rewrite <- Es.
Qed.

(** The same when the students are kept and rows are only deleted or
    updated in place. *)
Lemma Sound_rows (d d' : Db) :
  Sound d ->
  map l_id (lessons d') = map l_id (lessons d) ->
  students d' = students d ->
  (forall a', In a' (attendance d') ->
     exists a, In a (attendance d) /\ lesson_id a = lesson_id a'
               /\ student_id a = student_id a') ->
  Sound d'.
Proof.
  intros HS El Es Hrows; apply (Sound_step d d' HS).
  - intros id H; now rewrite (has_lesson_ids d d' id El).
  - intros a' Ha'; left; destruct (Hrows a' Ha') as (a & Ha & E1 & E2).
    exists a; repeat split; try assumption.
    unfold has_student; rewrite Es; apply (sound_student d HS a Ha).
  - rewrite Es; apply (sound_admission d HS).
Qed.

Lemma Sound_update_attendance (p : AttendanceRow -> bool)
    (f : AttendanceRow -> AttendanceRow) (d : Db) :
  (forall a, lesson_id (f a) = lesson_id a /\ student_id (f a) = student_id a) ->
  Sound d -> Sound (update_attendance p f d).
Proof.
  intros Hf HS; apply (Sound_rows d); try reflexivity; [assumption|].
  intros a' Ha'; cbn in Ha'; apply in_map_iff in Ha'.
  destruct Ha' as [a [<- Ha]]; exists a; split; [assumption|].
  destruct (p a); [destruct (Hf a); split; congruence | split; reflexivity].
Qed.

Lemma Sound_update_lessons (id : Z) (f : LessonRow -> LessonRow) (d : Db) :
  (forall l, l_id (f l) = l_id l) ->
  Sound d -> Sound (update_lessons id f d).
Proof.
  intros Hf HS; apply (Sound_rows d); try reflexivity; try assumption.
  - now apply update_lessons_ids.
  - intros a Ha; exists a; auto.
Qed.

(** Rows the insert loop adds, complete or not, are rows of lesson [lid]
    for one of the students [sids]. *)
Lemma insert_rows_origin (lid : Z) (sids : list Z) (rng : nat -> Z) (n : nat)
    (d : Db) :
  let d' := fst (insert_attendance_rows lid sids rng n d) in
  lessons d' = lessons d /\ students d' = students d
  /\ forall a, In a (attendance d') ->
               In a (attendance d)
               \/ (lesson_id a = lid /\ In (student_id a) sids).
Proof.
  revert n d; induction sids as [|sid r IH]; intros n d; cbv zeta;
    cbn [insert_attendance_rows]; [cbn; auto|].
  destruct (insert_attendance lid sid (gen_otp (rng n)) Pending d) as [d1|] eqn:E;
    [|cbn; auto].
  apply insert_attendance_fields in E.
  destruct E as (El & Es & _ & _ & _ & _ & Ea).
  destruct (IH (S n) d1) as (El' & Es' & Hrows).
  split; [congruence|]; split; [congruence|].
  intros a Ha; destruct (Hrows a Ha) as [Hold|[E1 E2]].
  - rewrite Ea in Hold; apply in_app_or in Hold.
    destruct Hold as [Hold|[<-|[]]]; [now left|].
    right; cbn; split; [reflexivity | now left].
  - right; split; [assumption | now right].
Qed.

Lemma Sound_insert_rows (lid : Z) (rng : nat -> Z) (n : nat) (d : Db) :
  Sound d -> has_lesson d lid = true ->
  Sound (fst (insert_attendance_rows lid (select_student_ids (students d))
                                     rng n d)).
Proof.
  intros HS Hl.
  destruct (insert_rows_origin lid (select_student_ids (students d)) rng n d)
    as (El & Es & Hrows).
  apply (Sound_step d _ HS).
  - intros id H; unfold has_lesson in *; now rewrite El.
  - intros a Ha; destruct (Hrows a Ha) as [Hold|[E1 E2]].
    + left; exists a; repeat split; try assumption.
      unfold has_student; rewrite Es; apply (sound_student d HS a Hold).
    + right; split.
      * unfold has_lesson in *; now rewrite El, E1.
      * unfold has_student; rewrite Es.
        apply select_student_ids_in in E2; destruct E2 as [s [E Hs]].
        rewrite <- E; now apply has_student_in.
  - rewrite Es; apply (sound_admission d HS).
Qed.

(** The databases POST /api/lessons/start can leave. *)
Lemma start_shape (r : StartReq) (rng : nat -> Z) (now : Z) (d : Db) :
  let res := snd (post_lessons_start r rng now d) in
  res = d
  \/ exists uid id d1,
       insert_lesson uid now (sr_venue r) (durationNum r) now
                     (now + durationNum r * 60000) (sr_scheduled_start r)
                     (sr_scheduled_end r) (gen_otp (rng 0%nat)) d
       = Some (id, d1)
       /\ (res = d1
           \/ res = fst (insert_attendance_rows id (select_student_ids (students d1))
                                                rng 1 d1)).
Proof.
  cbv zeta; unfold post_lessons_start.
  assert (Hgo : forall uid,
    let out := match insert_lesson uid now (sr_venue r) (durationNum r) now
                       (now + durationNum r * 60000)
                       (sr_scheduled_start r) (sr_scheduled_end r)
                       (gen_otp (rng 0%nat)) d with
               | Some (lessonId, d1) =>
                   match insert_attendance_rows lessonId
                           (select_student_ids (students d1)) rng 1 d1 with
                   | (d2, true) => (ok (JStarted lessonId), d2)
                   | (_, false) => (err 500 "FOREIGN KEY constraint failed", d1)
                   end
               | None => (err 500 "FOREIGN KEY constraint failed", d)
               end in
    snd out = d
    \/ exists uid id d1,
         insert_lesson uid now (sr_venue r) (durationNum r) now
                       (now + durationNum r * 60000) (sr_scheduled_start r)
                       (sr_scheduled_end r) (gen_otp (rng 0%nat)) d
         = Some (id, d1)
         /\ (snd out = d1
             \/ snd out = fst (insert_attendance_rows id (select_student_ids (students d1))
                                                      rng 1 d1))).
  { intros uid; cbv zeta.
    destruct (insert_lesson uid now _ _ now _ _ _ _ d) as [[id d1]|] eqn:E;
      [|now left].
    right; exists uid, id, d1; split; [assumption|].
    destruct (insert_attendance_rows id (select_student_ids (students d1)) rng 1 d1)
      as [d2 [|]]; [now right | now left]. }
  destruct (sr_unit_id r); [now left | |];
    (destruct (date_valid _); [apply Hgo | now left]).
Qed.

Lemma insert_lesson_fields (uid : option Z) (dt : Z) (ven : string)
    (dur st en : Z) (ss se lotp : string) (d d' : Db) (id : Z) :
  insert_lesson uid dt ven dur st en ss se lotp d = Some (id, d') ->
  students d' = students d /\ attendance d' = attendance d
  /\ units d' = units d
  /\ exists l, lessons d' = lessons d ++ [l] /\ l_id l = id.
Proof.
  unfold insert_lesson; intros H.
  match type of H with (if ?c then _ else _) = _ => destruct c end;
    [|discriminate].
  injection H as <- <-; cbn; repeat split.
  eexists; split; reflexivity.
Qed.

Lemma Sound_insert_lesson (uid : option Z) (dt : Z) (ven : string)
    (dur st en : Z) (ss se lotp : string) (d d' : Db) (id : Z) :
  insert_lesson uid dt ven dur st en ss se lotp d = Some (id, d') ->
  Sound d -> Sound d' /\ has_lesson d' id = true.
Proof.
  intros H HS; apply insert_lesson_fields in H.
  destruct H as (Es & Ea & _ & l & El & Eid).
  assert (Hmono : forall x, has_lesson d x = true -> has_lesson d' x = true).
  { intros x Hx; unfold has_lesson in *; rewrite El, existsb_app, Hx.
    reflexivity. }
  split.
  - apply (Sound_step d d' HS); [assumption | | rewrite Es; apply HS].
    intros a Ha; rewrite Ea in Ha; left; exists a; repeat split; try assumption.
    unfold has_student; rewrite Es; apply (sound_student d HS a Ha).
  - unfold has_lesson; rewrite El, existsb_app; cbn.
    now rewrite Eid, Z.eqb_refl, orb_true_r.
Qed.

(** Renaming one student keeps admission numbers unique when no other
    student holds the new number. *)
Lemma renamed_admissions (id : Z) (name adm : string) (ss : list StudentRow) :
  NoDup (map s_id ss) ->
  NoDup (map admission_number ss) ->
  (forall s, In s ss -> s_id s <> id -> admission_number s <> adm) ->
  NoDup (map admission_number (map (renamed id name adm) ss)).
Proof.
  induction ss as [|x ss IH]; intros Hid Hadm Hfree; cbn; [constructor|].
  inversion Hid as [|? ? Hx Hid']; inversion Hadm as [|? ? Hy Hadm']; subst.
  assert (Htail : forall s, In s ss -> s_id s <> id -> admission_number s <> adm)
    by (intros s Hs; apply Hfree; now right).
  constructor; [|now apply IH].
  intros Hin; apply in_map_iff in Hin; destruct Hin as [s' [E Hs']].
  apply in_map_iff in Hs'; destruct Hs' as [s [<- Hs]].
  unfold renamed in E.
  destruct (s_id x =? id) eqn:Cx, (s_id s =? id) eqn:Cs; cbn in E.
  - apply Z.eqb_eq in Cx, Cs; apply Hx, in_map_iff; exists s; split; congruence.
  - apply Z.eqb_neq in Cs; exact (Htail s Hs Cs E).
  - apply Z.eqb_neq in Cx; apply (Hfree x (or_introl eq_refl) Cx); congruence.
  - apply Hy, in_map_iff; exists s; split; assumption.
Qed.

Lemma no_hit_no_student (id : Z) (ss : list StudentRow) :
  filter (fun s => s_id s =? id) ss = [] ->
  forall s, In s ss -> s_id s <> id.
Proof.
  intros H s Hs E.
  assert (Hin : In s (filter (fun x => s_id x =? id) ss))
    by (apply filter_In; split; [assumption | now apply Z.eqb_eq]).
  rewrite H in Hin; contradiction.
Qed.

Lemma renamed_nobody (id : Z) (name adm : string) (ss : list StudentRow) :
  (forall s, In s ss -> s_id s <> id) -> map (renamed id name adm) ss = ss.
Proof.
  intros H; rewrite <- (map_id ss) at 2; apply map_ext_in; intros s Hs.
  unfold renamed; apply H, Z.eqb_neq in Hs; now rewrite Hs.
Qed.

(** What an accepted UPDATE students has checked and written. *)
Lemma update_student_some (id : Z) (name adm : string) (d d' : Db) :
  update_student id name adm d = Some d' ->
  d' = set_students (map (renamed id name adm) (students d)) (seq_students d) d
  /\ ((forall s, In s (students d) -> s_id s <> id)
      \/ (forall s, In s (students d) -> s_id s <> id ->
                    admission_number s <> adm)).
Proof.
  unfold update_student; intros H.
  destruct (filter (fun s => s_id s =? id) (students d)) as [|x [|y hit]] eqn:F.
  - injection H as <-; split; [reflexivity|]; left.
    now apply no_hit_no_student.
  - destruct (existsb _ (filter _ (students d))) eqn:C; [discriminate|].
    injection H as <-; split; [reflexivity|]; right.
    intros s Hs Hne E.
    assert (existsb (fun s0 => String.eqb (admission_number s0) adm)
                    (filter (fun s0 => negb (s_id s0 =? id)) (students d)) = true).
    { apply existsb_exists; exists s; split; [|now apply String.eqb_eq].
      apply filter_In; split; [assumption|].
      now apply negb_true_iff, Z.eqb_neq. }
    congruence.
  - discriminate.
Qed.

Lemma Sound_put_student (id : Z) (name adm : string) (d : Db) (t : Z) :
  Inv d t -> Sound d -> Sound (snd (put_student id name adm d)).
Proof.
  intros HI HS; unfold put_student.
  destruct (update_student id name adm d) as [d1|] eqn:U; [|assumption].
  apply update_student_some in U; destruct U as [-> Hfree]; cbn [snd].
  assert (Hids : map s_id (map (renamed id name adm) (students d))
                 = map s_id (students d)).
  { rewrite map_map; apply map_ext; intros s; unfold renamed.
    destruct (s_id s =? id); reflexivity. }
  apply (Sound_step d _ HS).
  - auto.
  - intros a Ha; left; exists a; repeat split; try assumption.
    unfold has_student; cbn [students set_students].
    rewrite <- (existsb_of_map (fun x => x =? student_id a) s_id), Hids,
      existsb_of_map.
    apply (sound_student d HS a Ha).
  - cbn [students set_students]; destruct Hfree as [Hno|Hfree].
    + rewrite renamed_nobody by assumption; apply HS.
    + apply renamed_admissions;
        [apply (inv_student_key _ _ HI) | apply HS | assumption].
Qed.

Lemma Sound_delete_student (id : Z) (d : Db) :
  Sound d -> Sound (snd (delete_student id d)).
Proof.
  intros HS; rewrite delete_student_result; cbn [snd].
  apply (Sound_step d _ HS).
  - auto.
  - intros a Ha; cbn in Ha; apply filter_In in Ha; destruct Ha as [Ha Hk].
    left; exists a; repeat split; try assumption.
    pose proof (sound_student d HS a Ha) as Hs.
    unfold has_student in *; cbn [students set_students set_attendance].
    apply existsb_exists in Hs; destruct Hs as [s [Hs E]].
    apply existsb_exists; exists s; split; [|assumption].
    apply filter_In; split; [assumption|].
    apply Z.eqb_eq in E; now rewrite E.
  - cbn; apply NoDup_map_filter, HS.
Qed.

Lemma Sound_post_students (name adm : string) (rng : nat -> Z) (now : Z) (d : Db) :
  Sound d -> Sound (snd (post_students name adm rng now d)).
Proof.
  intros HS.
  destruct (existsb (fun s => String.eqb (admission_number s) adm) (students d))
    eqn:T.
  - unfold post_students, insert_student; now rewrite T.
  - assert (Hnew : forall s, In s (students d) -> admission_number s <> adm).
    { intros s Hs E.
      assert (existsb (fun s0 => String.eqb (admission_number s0) adm)
                      (students d) = true)
        by (apply admission_taken; exists s; auto).
      congruence. }
    rewrite (post_students_result name adm rng now d Hnew); cbn [snd].
    set (id := next_id (seq_students d) (map s_id (students d))).
    assert (Hmono : forall x, has_student d x = true ->
              existsb (fun s => s_id s =? x)
                      (students d ++ [{| s_id := id; s_name := name;
                                         admission_number := adm |}]) = true).
    { intros x Hx; unfold has_student in Hx; now rewrite existsb_app, Hx. }
    assert (Hme : existsb (fun s => s_id s =? id)
                    (students d ++ [{| s_id := id; s_name := name;
                                       admission_number := adm |}]) = true).
    { rewrite existsb_app; cbn; now rewrite Z.eqb_refl, orb_true_r. }
    assert (Hadm : NoDup (map admission_number
                            (students d ++ [{| s_id := id; s_name := name;
                                               admission_number := adm |}]))).
    { rewrite map_app; cbn; apply NoDup_snoc; [apply HS|].
      intros Hin; apply in_map_iff in Hin; destruct Hin as [s [E Hs]].
      exact (Hnew s Hs E). }
    destruct (recent_lesson now d) as [l|] eqn:R.
    + apply recent_lesson_in in R; destruct R as [Hl _].
      apply (Sound_step d _ HS); [auto | | exact Hadm].
      intros a Ha; cbn in Ha; apply in_app_or in Ha.
      destruct Ha as [Ha|[<-|[]]].
      * left; exists a; repeat split; try assumption.
        apply Hmono, (sound_student d HS a Ha).
      * right; split; [now apply (has_lesson_in d) | exact Hme].
    + apply (Sound_step d _ HS); [auto | | exact Hadm].
      intros a Ha; left; exists a; repeat split; try assumption.
      apply Hmono, (sound_student d HS a Ha).
Qed.

Lemma Sound_start (r : StartReq) (rng : nat -> Z) (now : Z) (d : Db) :
  Sound d -> Sound (snd (post_lessons_start r rng now d)).
Proof.
  intros HS.
  destruct (start_shape r rng now d) as [->|(uid & id & d1 & E & [->| ->])];
    [assumption | |].
  - now apply (Sound_insert_lesson _ _ _ _ _ _ _ _ _ _ _ _ E).
  - destruct (Sound_insert_lesson _ _ _ _ _ _ _ _ _ _ _ _ E HS) as [HS1 Hl].
    now apply Sound_insert_rows.
Qed.

Lemma Sound_restart (rng : nat -> Z) (now : Z) (d : Db) :
  Sound d -> Sound (snd (post_lessons_restart rng now d)).
Proof.
  intros HS; unfold post_lessons_restart.
  destruct (recent_lesson now d) as [active|] eqn:R; [|assumption].
  destruct (date_valid (now + duration active * 60000)); [|assumption].
  apply recent_lesson_in in R; destruct R as [Hin _].
  set (f := reset_times now (now + duration active * 60000)).
  set (d2 := delete_attendance_of_lesson (l_id active)
               (update_lessons (l_id active) f d)).
  assert (HS2 : Sound d2).
  { apply (Sound_rows d); try reflexivity; [assumption | |].
    - apply (update_lessons_ids (l_id active) f d); reflexivity.
    - intros a Ha; cbn in Ha; apply filter_In in Ha; exists a; tauto. }
  assert (Hl : has_lesson d2 (l_id active) = true).
  { rewrite (has_lesson_ids d d2);
      [now apply has_lesson_in
      | apply (update_lessons_ids (l_id active) f d); reflexivity]. }
  pose proof (Sound_insert_rows (l_id active) rng 0 d2 HS2 Hl) as H.
  change (students d2) with (students (update_lessons (l_id active) f d)) in H.
  destruct (insert_attendance_rows (l_id active) _ rng 0 d2) as [d3 [|]];
    exact H.
Qed.

(** Serving a request keeps the database sound. *)
Lemma Sound_handle (o : Op) (t now : Z) (d : Db) :
  Inv d t -> Sound d -> Sound (snd (handle o now d)).
Proof.
  intros HI HS; destruct o; cbn [handle].
  - now apply Sound_post_students.
  - apply (Sound_rows d); try reflexivity; [assumption|].
    intros a Ha; exists a; auto.
  - now apply (Sound_put_student _ _ _ _ t).
  - now apply Sound_delete_student.
  - apply (Sound_rows d); try reflexivity; [assumption|].
    intros a Ha; exists a; auto.
  - now rewrite delete_unit_result.
  - now apply Sound_start.
  - unfold post_lecturer_mark.
    destruct (find _ (lessons d)); [|assumption].
    destruct (negb _); [assumption|].
    now apply Sound_update_lessons.
  - now apply Sound_restart.
  - now apply Sound_update_lessons.
  - unfold get_lessons_active.
    destruct (latest_lesson d) as [[lesson u]|]; [|assumption].
    destruct (older_than_a_day now (start_time lesson)); [assumption|].
    destruct (otp_expired now (start_time lesson)); [|assumption].
    apply Sound_update_attendance; [|assumption]; intros; split; reflexivity.
  - unfold post_attendance_mark.
    destruct (find _ (lessons d)) as [lesson|]; [|assumption].
    destruct (otp_enabled lesson =? 0); [assumption|].
    destruct (otp_expired now (start_time lesson)).
    + apply Sound_update_attendance; [|assumption]; intros; split; reflexivity.
    + destruct (find_record _ _ _ d) as [record|]; [|assumption].
      destruct (Status_eqb (status record) Present); [assumption|].
      apply Sound_update_attendance; [|assumption]; intros; split; reflexivity.
Qed.

Lemma run_sound (reqs : list (N * Op)) (w : World) :
  Inv (db w) (clock w) -> Sound (db w) -> Sound (db (run w reqs)).
Proof.
  revert w; induction reqs as [|req reqs IH]; intros w HI HS;
    cbn [run fold_left]; [assumption|].
  apply IH.
  - apply step_keeps; assumption.
  - unfold step; cbn [db]; now apply (Sound_handle _ (clock w)).
Qed.

Lemma reachable_Sound (w : World) : reachable w -> Sound (db w).
Proof.
  intros (fk & t0 & reqs & ->); apply run_sound; [apply Inv_boot|].
  constructor; cbn; try constructor; intros; contradiction.
Qed.

(** ** The roster of a running server *)

(** X9: the handlers keep attendance rows attached, with or without
    foreign-key enforcement: in a running server every attendance row
    references exactly one lesson row and exactly one student row. *)
Theorem references_resolve (w : World) (a : AttendanceRow) :
  reachable w ->
  In a (attendance (db w)) ->
  (exists l, In l (lessons (db w)) /\ l_id l = lesson_id a
             /\ forall l', In l' (lessons (db w)) -> l_id l' = lesson_id a ->
                           l' = l)
  /\ (exists s, In s (students (db w)) /\ s_id s = student_id a
                /\ forall s', In s' (students (db w)) ->
                              s_id s' = student_id a -> s' = s).
Proof.
  intros Hr Ha.
  pose proof (reachable_Inv w Hr) as HI; pose proof (reachable_Sound w Hr) as HS.
  pose proof (sound_lesson _ HS a Ha) as Hl.
  pose proof (sound_student _ HS a Ha) as Hs.
  apply existsb_exists in Hl, Hs.
  destruct Hl as [l [Hl El]], Hs as [s [Hs Es]]; apply Z.eqb_eq in El, Es.
  split.
  - exists l; repeat split; try assumption.
    intros l' Hl' El'; apply (same_lesson (db w) (clock w)); auto; congruence.
  - exists s; repeat split; try assumption.
    intros s' Hs' Es'.
    apply (unique_by_key s_id (students (db w)));
      [apply (inv_student_key _ _ HI) | assumption | assumption | congruence].
Qed.

Lemma references_resolve_witness :
  exists a l s,
    In a (attendance (db unenforced_classroom))
    /\ In l (lessons (db unenforced_classroom)) /\ l_id l = lesson_id a
    /\ In s (students (db unenforced_classroom)) /\ s_id s = student_id a.
Proof.
  assert (Hr : reachable unenforced_classroom)
    by (exists false, 0; eexists; reflexivity).
  pose (a := {| a_id := 1; lesson_id := 1; student_id := 1; otp := "100007";
                status := Pending; marked_at := None |}).
  assert (Ha : In a (attendance (db unenforced_classroom)))
    by (vm_compute; tauto).
  destruct (references_resolve unenforced_classroom a Hr Ha)
    as [(l & Hl & El & _) (s & Hs & Es & _)].
  exists a, l, s; repeat split; assumption.
Defined.

(** X10: no two students of a running server share an admission number:
    POST /api/students and PUT /api/students/:id answer 400 rather than
    write a number another student holds. *)
Theorem admission_numbers_unique (w : World) (s s' : StudentRow) :
  reachable w ->
  In s (students (db w)) -> In s' (students (db w)) ->
  admission_number s = admission_number s' ->
  s = s'.
Proof.
  intros Hr Hs Hs' E.
  apply (unique_by_key admission_number (students (db w))); try assumption.
  apply (sound_admission _ (reachable_Sound w Hr)).
Qed.

Lemma admission_numbers_unique_witness :
  hd {| s_id := 2; s_name := "Baraka"; admission_number := "ADM-002" |}
     (students (db classroom))
  = {| s_id := 1; s_name := "Achieng"; admission_number := "ADM-001" |}.
Proof.
  apply (admission_numbers_unique classroom _ _ classroom_reachable);
    [vm_compute; tauto | vm_compute; tauto | reflexivity].
Defined.

(** X11: in a running server there is one attendance row at most per
    (lesson, student) pair; rowids of attendance rows, of lessons and of
    students are not shared within their table; and every rowid of these
    three tables is at most the AUTOINCREMENT sequence of its table.
    Attendance rowids are never issued twice: after any further requests,
    an attendance row either continues a row that was there, under the
    same rowid and for the same lesson and student, or has a rowid larger
    than the sequence was, so the rowid of a row that a restart or the
    deletion of a student removed does not come back. *)
Theorem one_row_per_pair (w : World) (reqs : list (N * Op)) :
  reachable w ->
  NoDup (map (fun a => (lesson_id a, student_id a)) (attendance (db w)))
  /\ NoDup (map a_id (attendance (db w)))
  /\ NoDup (map l_id (lessons (db w)))
  /\ NoDup (map s_id (students (db w)))
  /\ (forall a, In a (attendance (db w)) -> a_id a <= seq_attendance (db w))
  /\ (forall l, In l (lessons (db w)) -> l_id l <= seq_lessons (db w))
  /\ (forall s, In s (students (db w)) -> s_id s <= seq_students (db w))
  /\ (forall a', In a' (attendance (db (run w reqs))) ->
        (exists a, In a (attendance (db w)) /\ a_id a = a_id a'
                   /\ lesson_id a = lesson_id a'
                   /\ student_id a = student_id a')
        \/ seq_attendance (db w) < a_id a').
Proof.
  intros Hr; pose proof (reachable_Inv w Hr) as HI.
  destruct (run_keeps reqs w HI) as [_ [_ Hev]].
  destruct HI.
  split; [assumption|]; split; [assumption|]; split; [assumption|].
  split; [assumption|]; split; [assumption|]; split; [assumption|].
  split; [assumption|].
  intros a' Ha'; destruct (Hev a' Ha') as [(a & Ha & E1 & E2 & E3 & _)|Hnew];
    [left; exists a; auto | now right].
Qed.

Lemma one_row_per_pair_witness :
  NoDup (map (fun a => (lesson_id a, student_id a))
             (attendance (db two_sessions)))
  /\ forall a', In a' (attendance (db (step two_sessions
                                          (5%N, LessonsRestart draws)))) ->
       (exists a, In a (attendance (db two_sessions)) /\ a_id a = a_id a'
                  /\ lesson_id a = lesson_id a'
                  /\ student_id a = student_id a')
       \/ seq_attendance (db two_sessions) < a_id a'.
Proof.
  assert (Hr : reachable two_sessions)
    by (apply reachable_run, classroom_reachable).
  pose proof (one_row_per_pair two_sessions [(5%N, LessonsRestart draws)] Hr)
    as (H1 & _ & _ & _ & _ & _ & _ & H2).
  split; [exact H1 | exact H2].
Defined.

Lemma filter_by_rowid (ss : list StudentRow) (s : StudentRow) :
  NoDup (map s_id ss) -> In s ss ->
  filter (fun x => s_id x =? s_id s) ss = [s].
Proof.
  induction ss as [|y ss IH]; intros Hnd Hin; [contradiction|].
  inversion Hnd as [|? ? Hnot Hnd']; subst; cbn [filter].
  destruct Hin as [->|Hin].
  - rewrite Z.eqb_refl; f_equal.
    destruct (filter (fun x => s_id x =? s_id s) ss) as [|z r] eqn:F;
      [reflexivity|].
    assert (Hz : In z (filter (fun x => s_id x =? s_id s) ss))
      by (rewrite F; now left).
    apply filter_In in Hz; destruct Hz as [Hz E]; apply Z.eqb_eq in E.
    exfalso; apply Hnot; rewrite <- E; now apply in_map.
  - replace (s_id y =? s_id s) with false; [now apply IH|].
    symmetry; apply Z.eqb_neq; intros E; apply Hnot; rewrite E.
    now apply in_map.
Qed.

(** With every reference resolved by one student, the join of GET
    /api/lessons/active neither drops nor repeats an attendance row. *)
Lemma join_complete (lid : Z) (d : Db) (t : Z) :
  Inv d t -> Sound d ->
  map fst (attendance_join_students lid d)
  = filter (of_lesson lid) (attendance d).
Proof.
  intros HI HS; unfold attendance_join_students.
  assert (Hall : forall a, In a (filter (of_lesson lid) (attendance d)) ->
                           In a (attendance d))
    by (intros a Ha; apply filter_In in Ha; tauto).
  induction (filter (of_lesson lid) (attendance d)) as [|a rows IH];
    [reflexivity|].
  cbn [flat_map]; rewrite map_app, IH by (intros x Hx; apply Hall; now right).
  pose proof (sound_student d HS a (Hall a (or_introl eq_refl))) as Hs.
  apply existsb_exists in Hs; destruct Hs as [s [Hs E]]; apply Z.eqb_eq in E.
  rewrite <- E, (filter_by_rowid (students d) s (inv_student_key _ _ HI) Hs).
  reflexivity.
Qed.

(** X12: in a running server the attendance list GET /api/lessons/active
    answers with is complete: it has exactly one entry per attendance row
    of the answered lesson, in table order, no row dropped by the join with
    students and none repeated. *)
Theorem active_lists_every_row (w : World) (dt : N) (l : LessonRow) (u : UnitRow)
    (rows : list (AttendanceRow * StudentRow)) :
  reachable w ->
  let now := clock w + Z.of_N dt in
  fst (get_lessons_active now (db w)) = ok (JActive l u rows) ->
  map fst rows
  = filter (of_lesson (l_id l)) (attendance (snd (get_lessons_active now (db w)))).
Proof.
  intros Hr now Hans.
  pose (w1 := step w (dt, LessonsActive)).
  assert (Hr1 : reachable w1) by (apply (reachable_run w [(dt, LessonsActive)] Hr)).
  pose proof (join_complete (l_id l) (db w1) (clock w1) (reachable_Inv w1 Hr1)
                (reachable_Sound w1 Hr1)) as Hjoin.
  change (db w1) with (snd (get_lessons_active now (db w))) in Hjoin.
  rewrite <- Hjoin; f_equal.
  revert Hans; unfold get_lessons_active.
  destruct (latest_lesson (db w)) as [[lesson u0]|]; [|discriminate].
  destruct (older_than_a_day now (start_time lesson)); [discriminate|].
  cbn [fst snd]; now intros [= <- <- <-].
Qed.

Lemma active_lists_every_row_witness :
  exists l u rows,
    fst (get_lessons_active (clock classroom + Z.of_N 5) (db classroom))
    = ok (JActive l u rows)
    /\ map (fun p => a_id (fst p)) rows = [1; 2].
Proof.
  eexists; eexists; eexists; split; [reflexivity|].
  rewrite <- map_map.
  rewrite (active_lists_every_row classroom 5 _ _ _ classroom_reachable eq_refl).
  reflexivity.
Defined.

(** X13: PUT /api/students/:id in a running server.  When the student
    exists and another student holds the new admission number the answer
    is 400 and nothing is written.  Otherwise it succeeds: the student of
    that rowid gets the new name and admission number, keeps its rowid
    (and with it its attendance rows), every other student is kept as it
    is, and no other table is written; with no student of that rowid it
    succeeds too and the students are the same. *)
Theorem put_student_spec (w : World) (id : Z) (name adm : string) :
  reachable w ->
  let r := put_student id name adm (db w) in
  ((exists s s', In s (students (db w)) /\ s_id s = id
                 /\ In s' (students (db w)) /\ s_id s' <> id
                 /\ admission_number s' = adm) ->
   r = (err 400 "Admission number already exists", db w))
  /\ (~ (exists s s', In s (students (db w)) /\ s_id s = id
                      /\ In s' (students (db w)) /\ s_id s' <> id
                      /\ admission_number s' = adm) ->
      fst r = ok JSuccess
      /\ students (snd r) = map (renamed id name adm) (students (db w))
      /\ attendance (snd r) = attendance (db w)
      /\ lessons (snd r) = lessons (db w)
      /\ units (snd r) = units (db w))
  /\ (has_student (db w) id = false -> students (snd r) = students (db w)).
Proof.
  intros Hr r; pose proof (reachable_Inv w Hr) as HI.
  assert (Hhit : forall s, In s (students (db w)) -> s_id s = id ->
                   filter (fun x => s_id x =? id) (students (db w)) = [s]).
  { intros s Hs <-; apply filter_by_rowid;
      [apply (inv_student_key _ _ HI) | assumption]. }
  assert (Hnone : has_student (db w) id = false ->
                  filter (fun x => s_id x =? id) (students (db w)) = []).
  { intros Hno.
    destruct (filter (fun x => s_id x =? id) (students (db w))) as [|z q] eqn:F;
      [reflexivity|].
    assert (Hz : In z (filter (fun x => s_id x =? id) (students (db w))))
      by (rewrite F; now left).
    apply filter_In in Hz; destruct Hz as [Hz E].
    assert (has_student (db w) id = true)
      by (apply existsb_exists; exists z; auto).
    congruence. }
  split; [|split].
  - intros (s & s' & Hs & Es & Hs' & Ne & Ea).
    subst r; unfold put_student, update_student.
    rewrite (Hhit s Hs Es).
    replace (existsb _ (filter _ (students (db w)))) with true; [reflexivity|].
    symmetry; apply existsb_exists; exists s'; split.
    + apply filter_In; split; [assumption|].
      now apply negb_true_iff, Z.eqb_neq.
    + now apply String.eqb_eq.
  - intros Hfree; subst r; unfold put_student, update_student.
    destruct (has_student (db w) id) eqn:Hh.
    + apply existsb_exists in Hh; destruct Hh as [s [Hs Es]].
      apply Z.eqb_eq in Es; rewrite (Hhit s Hs Es).
      replace (existsb _ (filter _ (students (db w)))) with false;
        [cbn; repeat split|].
      symmetry; apply not_true_is_false; intros H.
      apply existsb_exists in H; destruct H as [s' [Hs' Ea]].
      apply filter_In in Hs'; destruct Hs' as [Hs' Ne].
      apply negb_true_iff, Z.eqb_neq in Ne; apply String.eqb_eq in Ea.
      apply Hfree; exists s, s'; auto.
    + rewrite (Hnone eq_refl); cbn; repeat split.
  - intros Hno; subst r; unfold put_student, update_student.
    rewrite (Hnone Hno); cbn [snd students set_students].
    apply (renamed_nobody id name adm), no_hit_no_student, Hnone, Hno.
Qed.

Lemma put_student_spec_witness :
  put_student 2 "Baraka" "ADM-001" (db classroom)
  = (err 400 "Admission number already exists", db classroom).
Proof.
  apply (proj1 (put_student_spec classroom 2 "Baraka" "ADM-001"
                  classroom_reachable)).
  exists {| s_id := 2; s_name := "Baraka"; admission_number := "ADM-002" |},
         {| s_id := 1; s_name := "Achieng"; admission_number := "ADM-001" |}.
  split; [vm_compute; tauto|]; split; [reflexivity|].
  split; [vm_compute; tauto|]; split; [vm_compute; discriminate | reflexivity].
Defined.

(** ** Lecturer verification and the OTP switch *)

Lemma find_updated (lid : Z) (f : LessonRow -> LessonRow) (ls : list LessonRow) :
  (forall l, l_id (f l) = l_id l) ->
  find (fun l => l_id l =? lid)
       (map (fun l => if l_id l =? lid then f l else l) ls)
  = option_map f (find (fun l => l_id l =? lid) ls).
Proof.
  intros Hf; induction ls as [|x ls IH]; cbn; [reflexivity|].
  destruct (l_id x =? lid) eqn:C.
  - now rewrite Hf, C.
  - now rewrite C.
Qed.

Lemma update_lessons_twice (lid : Z) (f : LessonRow -> LessonRow) (d : Db) :
  (forall l, l_id (f l) = l_id l) -> (forall l, f (f l) = f l) ->
  update_lessons lid f (update_lessons lid f d) = update_lessons lid f d.
Proof.
  intros Hid Hf; unfold update_lessons, set_lessons; cbn; f_equal.
  rewrite map_map; apply map_ext; intros l.
  destruct (l_id l =? lid) eqn:C; [now rewrite Hid, C, Hf | now rewrite C].
Qed.

Lemma update_lessons_nobody (lid : Z) (f : LessonRow -> LessonRow) (d : Db) :
  has_lesson d lid = false -> update_lessons lid f d = d.
Proof.
  intros Hno; unfold update_lessons.
  replace (map (fun l => if l_id l =? lid then f l else l) (lessons d))
    with (lessons d); [destruct d; reflexivity|].
  rewrite <- (map_id (lessons d)) at 1; apply map_ext_in; intros l Hl.
  destruct (l_id l =? lid) eqn:C; [|reflexivity].
  assert (has_lesson d lid = true) by (apply existsb_exists; exists l; auto).
  congruence.
Qed.

(** X14: POST /api/lecturer/mark in a running server succeeds exactly when
    a lesson has that id and the submitted code is its lecturer code; there
    is no time window and no OTP switch in its way.  On success the lesson
    of that id has lecturer_present = 1 and every other column as before,
    every other lesson and every other table is as it was, and the same
    submission succeeds again with the same result: it is not single-shot.
    A rejected submission writes nothing. *)
Theorem lecturer_mark_spec (w : World) (lid : Z) (code : string) :
  reachable w ->
  let r := post_lecturer_mark lid code (db w) in
  (is_ok (fst r) = true
   <-> exists l, In l (lessons (db w)) /\ l_id l = lid /\ lecturer_otp l = code)
  /\ (is_ok (fst r) = true ->
      lessons (snd r)
      = map (fun l => if l_id l =? lid
                      then {| l_id := l_id l; unit_id := unit_id l;
                              date := date l; venue := venue l;
                              duration := duration l;
                              start_time := start_time l;
                              end_time := end_time l;
                              scheduled_start := scheduled_start l;
                              scheduled_end := scheduled_end l;
                              lecturer_otp := lecturer_otp l;
                              lecturer_present := 1;
                              otp_enabled := otp_enabled l |}
                      else l)
            (lessons (db w))
      /\ (forall l, In l (lessons (snd r)) -> l_id l = lid ->
                    lecturer_present l = 1)
      /\ attendance (snd r) = attendance (db w)
      /\ students (snd r) = students (db w)
      /\ units (snd r) = units (db w)
      /\ post_lecturer_mark lid code (snd r) = (ok JSuccess, snd r))
  /\ (is_ok (fst r) = false -> snd r = db w).
Proof.
  intros Hr r; pose proof (reachable_Inv w Hr) as HI.
  subst r; unfold post_lecturer_mark.
  destruct (find (fun l => l_id l =? lid) (lessons (db w))) as [lesson|] eqn:F.
  - pose proof (find_lesson_some _ _ _ F) as [Hin Eid].
    destruct (String.eqb (lecturer_otp lesson) code) eqn:C; cbn [negb].
    + apply String.eqb_eq in C; split; [|split; [|discriminate]].
      * split; [intros _; exists lesson; auto | reflexivity].
      * intros _; cbn [snd]; split; [reflexivity|]; split.
        { intros l Hl El; cbn in Hl; apply in_map_iff in Hl.
          destruct Hl as [l0 [<- Hl0]].
          destruct (l_id l0 =? lid) eqn:C0; [reflexivity|].
          apply Z.eqb_neq in C0; contradiction. }
        repeat split.
        cbn [lessons update_lessons set_lessons].
        rewrite find_updated by reflexivity; rewrite F; cbn [option_map].
        cbn [lecturer_otp set_lecturer_present].
        rewrite <- C, String.eqb_refl; cbn [negb].
        now rewrite update_lessons_twice.
    + apply String.eqb_neq in C; split; [|split; [discriminate | reflexivity]].
      split; [discriminate|].
      intros (l & Hl & El & Ec).
      assert (l = lesson)
        by (apply (same_lesson (db w) (clock w)); auto; congruence).
      congruence.
  - split; [|split; [discriminate | reflexivity]].
    split; [discriminate|].
    intros (l & Hl & El & _); apply (find_none _ _ F) in Hl.
    apply Z.eqb_neq in Hl; contradiction.
Qed.

Lemma lecturer_mark_spec_witness :
  is_ok (fst (post_lecturer_mark 1 "100000" (db classroom))) = true.
Proof.
  apply (proj1 (lecturer_mark_spec classroom 1 "100000" classroom_reachable)).
  eexists; split; [vm_compute; left; reflexivity|]; split; reflexivity.
Defined.

(** X15: POST /api/lessons/:id/enable-otp always answers success.  It sets
    otp_enabled of the lessons of that id and writes nothing else; with no
    lesson of that id the database is unchanged; and enabling twice is
    enabling once. *)
Theorem enable_otp_spec (id : Z) (d : Db) :
  let r := post_enable_otp id d in
  fst r = ok JSuccess
  /\ lessons (snd r)
     = map (fun l => if l_id l =? id then set_otp_enabled l else l) (lessons d)
  /\ (forall l, In l (lessons (snd r)) -> l_id l = id -> otp_enabled l = 1)
  /\ attendance (snd r) = attendance d
  /\ students (snd r) = students d
  /\ units (snd r) = units d
  /\ (has_lesson d id = false -> snd r = d)
  /\ post_enable_otp id (snd r) = r.
Proof.
  cbv zeta; unfold post_enable_otp; cbn [fst snd].
  split; [reflexivity|]; split; [reflexivity|]; split; [|repeat split].
  - intros l Hl El; cbn in Hl; apply in_map_iff in Hl.
    destruct Hl as [l0 [<- Hl0]].
    destruct (l_id l0 =? id) eqn:C; [reflexivity|].
    apply Z.eqb_neq in C; contradiction.
  - apply update_lessons_nobody.
  - now rewrite update_lessons_twice.
Qed.

(** X16: POST /api/lessons/restart regenerates the students' codes only.
    Whatever it answers, every lesson keeps its rowid, unit, date, venue,
    duration, scheduled times, lecturer code and lecturer_present: a
    restart neither issues a new lecturer code nor clears the lecturer's
    presence. *)
Theorem restart_keeps_lecturer (rng : nat -> Z) (now : Z) (d : Db) :
  Forall2 (fun l l' => l_id l' = l_id l /\ unit_id l' = unit_id l
                       /\ date l' = date l /\ venue l' = venue l
                       /\ duration l' = duration l
                       /\ scheduled_start l' = scheduled_start l
                       /\ scheduled_end l' = scheduled_end l
                       /\ lecturer_otp l' = lecturer_otp l
                       /\ lecturer_present l' = lecturer_present l)
          (lessons d) (lessons (snd (post_lessons_restart rng now d))).
Proof.
  destruct (recent_lesson now d) as [active|] eqn:R.
  - destruct (date_valid (now + duration active * 60000)) eqn:V.
    + rewrite (restart_outcome rng now d active R V).
      apply Forall2_map_same; intros l _.
      destruct (l_id l =? l_id active); repeat split.
    + unfold post_lessons_restart; rewrite R, V; cbn [snd].
      rewrite <- (map_id (lessons d)) at 2.
      apply Forall2_map_same; intros; repeat split.
  - unfold post_lessons_restart; rewrite R; cbn [snd].
    rewrite <- (map_id (lessons d)) at 2.
    apply Forall2_map_same; intros; repeat split.
Qed.

(** ** The codes *)

Lemma below_all (count : nat) (r : Z) (keep : Z -> bool) :
  below count r keep = true ->
  forall x, r <= x < r + Z.of_nat count -> keep x = true.
Proof.
  revert r; induction count as [|k IH]; intros r H x Hx; [lia|].
  cbn [below] in H; apply andb_prop in H; destruct H as [H0 H1].
  destruct (Z.eq_dec x r) as [-> | Hn]; [assumption|].
  apply (IH _ H1); lia.
Qed.

Lemma every_draw_six_digits :
  below (Z.to_nat 900000) 0 (fun r => six_digits (gen_otp r)) = true.
Proof. vm_compute; reflexivity. Qed.

(** X17: the code drawn as [Math.floor(100000 + Math.random() * 900000)
    .toString()], for a scaled draw [r] of [0, 900000), is a string of
    exactly six decimal digits; read back as a number it is [100000 + r],
    so that different draws give different codes (and only they do). *)
Theorem codes_are_six_digits (r r' : Z) :
  0 <= r < 900000 ->
  six_digits (gen_otp r) = true
  /\ option_map Z.of_int (NilZero.int_of_string (gen_otp r)) = Some (100000 + r)
  /\ (gen_otp r = gen_otp r' <-> r = r').
Proof.
  intros Hr; split; [|split; [apply gen_otp_read_back|]].
  - apply (below_all _ _ _ every_draw_six_digits).
    rewrite Z2Nat.id by lia; lia.
  - split; [|now intros ->].
    intros E; pose proof (gen_otp_read_back r) as H.
    rewrite E, gen_otp_read_back in H.
    assert (Hsome : forall a b : Z, Some a = Some b -> a = b)
      by (intros a b K; now injection K).
    apply Hsome in H; lia.
Qed.

Lemma codes_are_six_digits_witness :
  six_digits (gen_otp 7) = true.
Proof.
  apply (proj1 (codes_are_six_digits 7 7 ltac:(lia))).
Defined.

(** ** Refused sessions *)

(** The four ways POST /api/lessons/start can go. *)
Lemma start_cases (r : StartReq) (rng : nat -> Z) (now : Z) (d : Db) :
  let res := post_lessons_start r rng now d in
  let missing := exists n, sr_unit_id r = UnitIdNum n
                           /\ foreign_keys d = true /\ has_unit d n = false in
  (sr_unit_id r = UnitIdFalsy /\ res = (err 400 "Unit ID is required", d))
  \/ (sr_unit_id r <> UnitIdFalsy
      /\ date_valid (now + durationNum r * 60000) = false
      /\ res = (err 500 "Invalid time value", d))
  \/ (date_valid (now + durationNum r * 60000) = true /\ missing
      /\ res = (err 500 "FOREIGN KEY constraint failed", d))
  \/ (sr_unit_id r <> UnitIdFalsy
      /\ date_valid (now + durationNum r * 60000) = true /\ ~ missing
      /\ is_ok (fst res) = true).
Proof.
  cbv zeta.
  destruct (sr_unit_id r) as [| |n] eqn:E.
  - left; split; [reflexivity|]; unfold post_lessons_start; now rewrite E.
  - right; destruct (date_valid (now + durationNum r * 60000)) eqn:V.
    + right; right; split; [discriminate|]; split; [reflexivity|]; split.
      * intros (m & Em & _); discriminate.
      * rewrite start_goes_through; [reflexivity | congruence | | assumption].
        intros m Em; congruence.
    + left; split; [discriminate|]; split; [reflexivity|].
      unfold post_lessons_start; now rewrite E, V.
  - right; destruct (date_valid (now + durationNum r * 60000)) eqn:V.
    + right; destruct (foreign_keys d && negb (has_unit d n)) eqn:M.
      * left; apply andb_true_iff in M; destruct M as [F U].
        apply negb_true_iff in U.
        split; [reflexivity|]; split; [exists n; auto|].
        unfold post_lessons_start, insert_lesson; rewrite E, V, F, U.
        reflexivity.
      * right; split; [discriminate|]; split; [reflexivity|].
        assert (Hfk : forall m, sr_unit_id r = UnitIdNum m ->
                                foreign_keys d = true -> has_unit d m = true).
        { intros m Em F; rewrite E in Em; injection Em as <-.
          rewrite F in M; cbn in M; now apply negb_false_iff in M. }
        split.
        -- intros (m & Em & F & U); injection Em as <-.
           rewrite (Hfk n E F) in U; discriminate.
        -- rewrite start_goes_through;
             [reflexivity | congruence | assumption | assumption].
    + left; split; [discriminate|]; split; [reflexivity|].
      unfold post_lessons_start; now rewrite E, V.
Qed.

(** X18: POST /api/lessons/start, sent with the fields the client sends, is
    refused in three cases only: the request has no unit_id (a falsy one:
    400); the end time, start plus duration minutes, is no valid date
    (500); or foreign keys are enforced and the unit_id is a number that
    names no unit (500).  A refused request leaves the database as it was:
    no lesson row and no attendance row is left behind.  A unit_id that
    does not parse to a number is not refused for that. *)
Theorem start_refused_iff (r : StartReq) (rng : nat -> Z) (now : Z) (d : Db) :
  let res := post_lessons_start r rng now d in
  (is_ok (fst res) = false
   <-> sr_unit_id r = UnitIdFalsy
       \/ ~ in_date_range (now + durationNum r * 60000)
       \/ exists n, sr_unit_id r = UnitIdNum n /\ foreign_keys d = true
                    /\ has_unit d n = false)
  /\ (is_ok (fst res) = false -> snd res = d)
  /\ (sr_unit_id r = UnitIdFalsy -> fst res = err 400 "Unit ID is required")
  /\ (sr_unit_id r <> UnitIdFalsy ->
      ~ in_date_range (now + durationNum r * 60000) ->
      fst res = err 500 "Invalid time value")
  /\ (is_ok (fst res) = false -> sr_unit_id r <> UnitIdFalsy ->
      code (fst res) = 500)
  /\ (sr_unit_id r = UnitIdNaN ->
      in_date_range (now + durationNum r * 60000) ->
      is_ok (fst res) = true).
Proof.
  cbv zeta; rewrite <- date_valid_false, <- date_valid_true.
  destruct (start_cases r rng now d)
    as [(E & ->)|[(E & V & ->)|[(V & M & ->)|(E & V & M & Hok)]]];
    cbn [fst snd is_ok code err Z.eqb].
  - split; [split; [now left | reflexivity]|].
    split; [reflexivity|]; split; [reflexivity|].
    split; [contradiction|]; split; [contradiction|].
    rewrite E; discriminate.
  - split; [split; [right; now left | reflexivity]|].
    split; [reflexivity|]; split; [contradiction|].
    split; [reflexivity|]; split; [reflexivity|].
    rewrite V; discriminate.
  - split; [split; [right; now right | reflexivity]|].
    split; [reflexivity|].
    destruct M as (n & E & F & U); rewrite E.
    split; [discriminate|]; split; [congruence|].
    split; [reflexivity | discriminate].
  - rewrite Hok.
    split; [split; [discriminate|]|].
    { intros [H | [H | H]]; [contradiction | congruence | contradiction]. }
    split; [discriminate|]; split; [contradiction|].
    split; [congruence|]; split; [discriminate | reflexivity].
Qed.

(** ** Records that stay *)

Lemma Forall2_chain {Row : Type} (kept : Row -> Row -> Prop)
    (first second third : list Row) :
  (forall a b c, kept a b -> kept b c -> kept a c) ->
  Forall2 kept first second -> Forall2 kept second third ->
  Forall2 kept first third.
Proof.
  intros Htr H12; revert third; induction H12 as [|a b r1 r2 Hab _ IH];
    intros third H23; inversion H23; subst; constructor; eauto.
Qed.

Lemma Forall2_continued {Row : Type} (kept : Row -> Row -> Prop)
    (table same : list Row) (row : Row) :
  Forall2 kept table same -> In row table ->
  exists row', In row' same /\ kept row row'.
Proof.
  induction 1 as [|a b r1 r2 Hab _ IH]; intros Hin; [destruct Hin|].
  destruct Hin as [<- | Hin]; [exists b; split; [now left | assumption]|].
  destruct (IH Hin) as (row' & H1 & H2); exists row'; split; [now right | assumption].
Qed.

Lemma extends_same {Row : Type} (kept : Row -> Row -> Prop) (table table' : list Row) :
  (forall a, kept a a) -> table' = table -> extends kept table table'.
Proof.
  intros Hrefl ->; exists table, []; split; [now rewrite app_nil_r|].
  rewrite <- (map_id table) at 2; apply Forall2_map_same; auto.
Qed.

Lemma extends_more {Row : Type} (kept : Row -> Row -> Prop)
    (table table' added : list Row) :
  (forall a, kept a a) -> table' = table ++ added -> extends kept table table'.
Proof.
  intros Hrefl ->; exists table, added; split; [reflexivity|].
  rewrite <- (map_id table) at 2; apply Forall2_map_same; auto.
Qed.

Lemma extends_updated {Row : Type} (kept : Row -> Row -> Prop)
    (change : Row -> Row) (table table' : list Row) :
  (forall a, kept a (change a)) -> table' = map change table ->
  extends kept table table'.
Proof.
  intros Hch ->; exists (map change table), []; split; [now rewrite app_nil_r|].
  apply Forall2_map_same; auto.
Qed.

Lemma extends_chain {Row : Type} (kept : Row -> Row -> Prop)
    (first second third : list Row) :
  (forall a b c, kept a b -> kept b c -> kept a c) ->
  extends kept first second -> extends kept second third ->
  extends kept first third.
Proof.
  intros Htr (s1 & m1 & -> & H1) (s2 & m2 & -> & H2).
  apply Forall2_app_inv_l in H2; destruct H2 as (s2a & s2b & Ha & Hb & ->).
  exists s2a, (s2b ++ m2); split; [now rewrite app_assoc|].
  eapply Forall2_chain; eassumption.
Qed.

Lemma lesson_kept_refl (l : LessonRow) : lesson_kept l l.
Proof. unfold lesson_kept; repeat split; auto. Qed.

Lemma lesson_kept_trans (a b c : LessonRow) :
  lesson_kept a b -> lesson_kept b c -> lesson_kept a c.
Proof.
  unfold lesson_kept; intros (?&?&?&?&?&?&?&?&?) (?&?&?&?&?&?&?&?&?).
  repeat split; try congruence; auto.
Qed.

Lemma lesson_kept_update (id : Z) (f : LessonRow -> LessonRow) (l : LessonRow) :
  (forall x, lesson_kept x (f x)) ->
  lesson_kept l (if l_id l =? id then f l else l).
Proof.
  intros Hf; destruct (l_id l =? id); [apply Hf | apply lesson_kept_refl].
Qed.

Lemma persist_same (d d' : Db) :
  units d' = units d -> lessons d' = lessons d -> persist d d'.
Proof.
  intros Eu El; split; apply extends_same; auto using lesson_kept_refl.
  reflexivity.
Qed.

Lemma persist_chain (d1 d2 d3 : Db) :
  persist d1 d2 -> persist d2 d3 -> persist d1 d3.
Proof.
  intros [U12 L12] [U23 L23]; split.
  - eapply extends_chain; [|eassumption..]; unfold unit_kept; congruence.
  - eapply extends_chain; [|eassumption..]; apply lesson_kept_trans.
Qed.

Lemma persist_update_lessons (id : Z) (f : LessonRow -> LessonRow) (d : Db) :
  (forall x, lesson_kept x (f x)) -> persist d (update_lessons id f d).
Proof.
  intros Hf; split; [apply extends_same; [reflexivity | reflexivity]|].
  eapply extends_updated; [|reflexivity].
  intros l; now apply lesson_kept_update.
Qed.

Lemma insert_rows_units (lid : Z) (sids : list Z) (rng : nat -> Z) (n : nat)
    (d : Db) :
  units (fst (insert_attendance_rows lid sids rng n d)) = units d.
Proof.
  revert n d; induction sids as [|sid r IH]; intros n d;
    cbn [insert_attendance_rows]; [reflexivity|].
  destruct (insert_attendance lid sid (gen_otp (rng n)) Pending d) as [d1|] eqn:E;
    [|reflexivity].
  apply insert_attendance_fields in E; destruct E as (_ & _ & Eu & _).
  rewrite IH; assumption.
Qed.

Lemma persist_start (r : StartReq) (rng : nat -> Z) (now : Z) (d : Db) :
  persist d (snd (post_lessons_start r rng now d)).
Proof.
  destruct (start_shape r rng now d) as [-> | (uid & id & d1 & I & Hres)];
    [now apply persist_same|].
  apply insert_lesson_fields in I; destruct I as (_ & _ & Eu & l & El & _).
  assert (H1 : persist d d1).
  { split; [apply extends_same; [reflexivity | assumption]|].
    eapply extends_more; [apply lesson_kept_refl | eassumption]. }
  destruct Hres as [-> | ->]; [assumption|].
  eapply persist_chain; [eassumption|].
  apply persist_same; [|apply insert_rows_lessons].
  apply insert_rows_units.
Qed.

Lemma persist_restart (rng : nat -> Z) (now : Z) (d : Db) :
  persist d (snd (post_lessons_restart rng now d)).
Proof.
  unfold post_lessons_restart.
  destruct (recent_lesson now d) as [active|]; [|now apply persist_same].
  destruct (date_valid (now + duration active * 60000));
    [|now apply persist_same].
  match goal with
  | |- context [insert_attendance_rows ?l ?s ?g ?n ?x] =>
      pose proof (insert_rows_lessons l s g n x) as Hl;
      pose proof (insert_rows_units l s g n x) as Hu;
      destruct (insert_attendance_rows l s g n x) as [d3 [|]]
  end; cbv zeta in Hl; cbn [fst snd] in *; destruct Hl as [Hl _].
  all: eapply persist_chain; [|apply persist_same; eassumption].
  all: eapply persist_chain;
    [apply (persist_update_lessons (l_id active)
              (reset_times now (now + duration active * 60000)))
    | now apply persist_same].
  all: intros x; unfold lesson_kept; cbn; repeat split; auto.
Qed.

Lemma persist_handle (o : Op) (now : Z) (d : Db) :
  persist d (snd (handle o now d)).
Proof.
  destruct o; cbn [handle].
  - unfold post_students, insert_student.
    destruct (existsb _ (students d)); [now apply persist_same|].
    match goal with
    | |- context [recent_lesson now ?x] => destruct (recent_lesson now x)
    end; [|now apply persist_same].
    match goal with
    | |- context [insert_attendance ?a ?b ?c ?s ?x] =>
        destruct (insert_attendance a b c s x) as [d2|] eqn:I
    end; [|now apply persist_same].
    apply insert_attendance_fields in I; destruct I as (El & _ & Eu & _).
    now apply persist_same.
  - unfold post_units, insert_unit; cbn [snd]; split.
    + eapply extends_more; [reflexivity | reflexivity].
    + now apply extends_same; [apply lesson_kept_refl|].
  - unfold put_student, update_student.
    match goal with |- context [if ?c then None else _] => destruct c end;
      now apply persist_same.
  - unfold delete_student, delete_student_row.
    match goal with |- context [if ?c then None else _] => destruct c end;
      now apply persist_same.
  - unfold put_unit, update_unit; cbn [snd]; split.
    + eapply extends_updated; [|reflexivity].
      intros u; unfold unit_kept; now destruct (u_id u =? id).
    + now apply extends_same; [apply lesson_kept_refl|].
  - rewrite delete_unit_result; now apply persist_same.
  - apply persist_start.
  - unfold post_lecturer_mark.
    destruct (find _ (lessons d)) as [lesson|]; [|now apply persist_same].
    destruct (negb _); [now apply persist_same|].
    apply persist_update_lessons.
    intros x; unfold lesson_kept; cbn; repeat split; auto; discriminate.
  - apply persist_restart.
  - apply persist_update_lessons.
    intros x; unfold lesson_kept; cbn; repeat split; auto.
  - apply persist_same; [|apply active_keeps_lessons].
    unfold get_lessons_active.
    destruct (latest_lesson d) as [[l u]|]; [|reflexivity].
    destruct (older_than_a_day now (start_time l)); [reflexivity|].
    destruct (otp_expired now (start_time l)); reflexivity.
  - unfold post_attendance_mark.
    destruct (find _ (lessons d)) as [lesson|]; [|now apply persist_same].
    destruct (otp_enabled lesson =? 0); [now apply persist_same|].
    destruct (otp_expired now (start_time lesson)); [now apply persist_same|].
    destruct (find_record _ _ _ d) as [record|]; [|now apply persist_same].
    destruct (Status_eqb (status record) Present); now apply persist_same.
Qed.

Lemma persist_run (reqs : list (N * Op)) (w : World) :
  persist (db w) (db (run w reqs)).
Proof.
  revert w; induction reqs as [|req reqs IH]; intros w; cbn [run fold_left].
  - now apply persist_same.
  - eapply persist_chain; [|apply IH].
    unfold step; cbn [db]; apply persist_handle.
Qed.

(** X19: no sequence of requests removes a unit or a lesson.  After any
    requests the units table holds the units it held, in their order and
    under their rowids, followed by new ones only; and the lessons table
    holds the lessons it held, each with its rowid, unit, date, venue,
    duration, scheduled times and lecturer code, and still verified by the
    lecturer if it was: restarts, renames and failed deletions included. *)
Theorem records_persist (w : World) (reqs : list (N * Op)) :
  extends unit_kept (units (db w)) (units (db (run w reqs)))
  /\ extends lesson_kept (lessons (db w)) (lessons (db (run w reqs)))
  /\ (forall l, In l (lessons (db w)) ->
        exists l', In l' (lessons (db (run w reqs))) /\ lesson_kept l l')
  /\ (forall u, In u (units (db w)) ->
        existsb (fun u' => u_id u' =? u_id u) (units (db (run w reqs))) = true).
Proof.
  destruct (persist_run reqs w) as [Hu Hl].
  split; [assumption|]; split; [assumption|]; split.
  - destruct Hl as (same & more & -> & HF); intros l Hin.
    destruct (Forall2_continued _ _ _ _ HF Hin) as (l' & Hin' & Hk).
    exists l'; split; [apply in_or_app; now left | assumption].
  - destruct Hu as (same & more & -> & HF); intros u Hin.
    destruct (Forall2_continued _ _ _ _ HF Hin) as (u' & Hin' & Hk).
    apply existsb_exists; exists u'; split;
      [apply in_or_app; now left | now apply Z.eqb_eq].
Qed.

(** ** From the start of a session to the poll *)

Lemma start_result (r : StartReq) (rng : nat -> Z) (now : Z) (d : Db) (n : Z) :
  sr_unit_id r = UnitIdNum n -> has_unit d n = true ->
  date_valid (now + durationNum r * 60000) = true ->
  let lid := next_id (seq_lessons d) (map l_id (lessons d)) in
  let res := post_lessons_start r rng now d in
  fst res = ok (JStarted lid)
  /\ (exists l, lessons (snd res) = lessons d ++ [l]
                /\ l_id l = lid /\ unit_id l = Some n /\ start_time l = now
                /\ venue l = sr_venue r /\ duration l = durationNum r)
  /\ attendance (snd res)
     = attendance d
       ++ fresh_rows lid (select_student_ids (students d)) rng 1
                     (next_id (seq_attendance d) (map a_id (attendance d)))
  /\ students (snd res) = students d
  /\ units (snd res) = units d.
Proof.
  intros E Hu V; cbv zeta.
  rewrite start_goes_through;
    [| congruence | intros m Em _; congruence | assumption].
  cbn [fst snd lessons attendance students units set_attendance set_lessons].
  split; [reflexivity|]; split; [|repeat split].
  eexists; split; [reflexivity|]; rewrite E; repeat split.
Qed.

Lemma filter_relabelled (keep : AttendanceRow -> bool)
    (change : AttendanceRow -> AttendanceRow) (rows : list AttendanceRow) :
  (forall a, keep (change a) = keep a) ->
  filter keep (map change rows) = map change (filter keep rows).
Proof.
  intros H; induction rows as [|a rows IH]; cbn; [reflexivity|].
  rewrite H; destruct (keep a); cbn; now rewrite IH.
Qed.

Lemma expire_lesson_students (lid : Z) (d : Db) :
  map student_id (filter (of_lesson lid) (attendance (expire_lesson lid d)))
  = map student_id (filter (of_lesson lid) (attendance d)).
Proof.
  unfold expire_lesson, update_attendance; cbn [attendance set_attendance].
  rewrite filter_relabelled, map_map.
  - apply map_ext; intros a; now destruct (of_lesson lid a && is_pending a).
  - intros a; now destruct (of_lesson lid a && is_pending a).
Qed.

Lemma filter_other_lessons (lid : Z) (rows : list AttendanceRow) :
  (forall a, In a rows -> lesson_id a < lid) ->
  filter (of_lesson lid) rows = [].
Proof.
  induction rows as [|a rows IH]; intros H; cbn; [reflexivity|].
  unfold of_lesson at 1.
  replace (lesson_id a =? lid) with false
    by (symmetry; apply Z.eqb_neq; specialize (H a (or_introl eq_refl)); lia).
  apply IH; intros x Hx; apply H; now right.
Qed.

Lemma filter_fresh_rows (lid : Z) (sids : list Z) (rng : nat -> Z) (n : nat)
    (id : Z) :
  filter (of_lesson lid) (fresh_rows lid sids rng n id)
  = fresh_rows lid sids rng n id
  /\ map student_id (fresh_rows lid sids rng n id) = sids.
Proof.
  revert n id; induction sids as [|sid r IH]; intros n id; cbn;
    [split; reflexivity|].
  unfold of_lesson at 1; cbn [lesson_id]; rewrite Z.eqb_refl.
  destruct (IH (S n) (id + 1)) as [-> ->]; split; reflexivity.
Qed.

(** X20: a started session is what the poll shows.  In a running server,
    once POST /api/lessons/start was sent with the number of an existing
    unit and a duration whose end time is a valid date, GET
    /api/lessons/active answers, for the next 24 hours and as long as no
    other request comes in between, with the new lesson (its rowid, the
    start instant, the venue of the request), that unit, and one
    attendance entry per registered student, the students in the order of
    their admission numbers (a student stands after exactly the students
    whose admission numbers come before); within the first 20 minutes the
    entries are the rows the start inserted: pending, with the codes
    drawn. *)
Theorem started_session_is_active (w : World) (r : StartReq) (rng : nat -> Z)
    (dt dt2 : N) (n : Z) :
  reachable w ->
  sr_unit_id r = UnitIdNum n -> has_unit (db w) n = true ->
  in_date_range (clock w + Z.of_N dt + durationNum r * 60000) ->
  Z.of_N dt2 <= 24 * hour ->
  let w1 := step w (dt, LessonsStart r rng) in
  let lid := next_id (seq_lessons (db w)) (map l_id (lessons (db w))) in
  let sids := select_student_ids (students (db w)) in
  exists l u rows,
    fst (get_lessons_active (clock w1 + Z.of_N dt2) (db w1))
    = ok (JActive l u rows)
    /\ l_id l = lid /\ start_time l = clock w1 /\ venue l = sr_venue r
    /\ In u (units (db w)) /\ u_id u = n
    /\ map (fun p => student_id (fst p)) rows = sids
    /\ Permutation sids (map s_id (students (db w)))
    /\ (forall s, In s (students (db w)) ->
          nth_error (map (fun p => student_id (fst p)) rows)
                    (admission_rank s (students (db w)))
          = Some (s_id s))
    /\ (Z.of_N dt2 <= 20 * minute ->
        map fst rows
        = fresh_rows lid sids rng 1
                     (next_id (seq_attendance (db w))
                              (map a_id (attendance (db w))))).
Proof.
  intros Hr E Hu V Hday w1 lid sids.
  apply date_valid_true in V.
  pose proof (reachable_Inv w Hr) as HI.
  assert (Hr1 : reachable w1) by (apply (reachable_run w [(dt, LessonsStart r rng)] Hr)).
  destruct (start_result r rng (clock w1) (db w) n E Hu V)
    as (_ & (newl & El & Eid & Eunit & Est & Even & _) & Eatt & Estud & Eunits).
  change (snd (post_lessons_start r rng (clock w1) (db w))) with (db w1)
    in El, Eatt, Estud, Eunits.
  fold lid sids in Eid, Eatt.
  apply existsb_exists in Hu; destruct Hu as (u0 & Hu0 & Eu0).
  apply Z.eqb_eq in Eu0.
  assert (Hold : forall x, In x (lessons (db w)) -> l_id x < lid)
    by (intros x Hx; apply next_id_gt_ids; now apply in_map).
  (* the candidate of the query is the new lesson *)
  destruct (latest_lesson (db w1)) as [[l u]|] eqn:L.
  2:{ exfalso; apply (latest_lesson_none (db w1) newl L).
      - rewrite El; apply in_or_app; right; now left.
      - exists u0; rewrite Eunits; split; [assumption | congruence]. }
  destruct (latest_lesson_newest (db w1) l u L) as ((Hl & _ & Hmax) & Hu & Eu).
  assert (l = newl).
  { rewrite El in Hl; apply in_app_or in Hl; destruct Hl as [Hl|[<-|[]]];
      [|reflexivity].
    exfalso; specialize (Hold l Hl).
    assert (l_id newl <= l_id l); [|lia].
    apply Hmax; [rewrite El; apply in_or_app; right; now left|].
    exists u0; rewrite Eunits; split; [assumption | congruence]. }
  subst l.
  (* the answer *)
  pose (now := clock w1 + Z.of_N dt2).
  assert (Hans : exists rows,
             fst (get_lessons_active now (db w1)) = ok (JActive newl u rows)).
  { unfold get_lessons_active; rewrite L.
    replace (older_than_a_day now (start_time newl)) with false
      by (symmetry; apply older_than_a_day_false; subst now; lia).
    eexists; reflexivity. }
  destruct Hans as [rows Hans]; exists newl, u, rows.
  split; [exact Hans|]; split; [assumption|]; split; [assumption|].
  split; [assumption|]; split; [now rewrite <- Eunits|].
  split; [congruence|].
  cut (map (fun p => student_id (fst p)) rows = sids
       /\ (Z.of_N dt2 <= 20 * minute ->
           map fst rows
           = fresh_rows lid sids rng 1
               (next_id (seq_attendance (db w)) (map a_id (attendance (db w)))))).
  { intros [H1 H2]; split; [exact H1|]; split; [|split; [|exact H2]].
    - apply select_student_ids_perm.
    - intros s Hs; rewrite H1; apply select_position; [|assumption].
      apply (sound_admission _ (reachable_Sound w Hr)). }
  (* the list *)
  pose (w2 := step w1 (dt2, LessonsActive)).
  assert (Hr2 : reachable w2) by (apply (reachable_run w1 [(dt2, LessonsActive)] Hr1)).
  pose proof (join_complete (l_id newl) (db w2) (clock w2) (reachable_Inv w2 Hr2)
                (reachable_Sound w2 Hr2)) as Hjoin.
  change (db w2) with (snd (get_lessons_active now (db w1))) in Hjoin.
  assert (Hrows : rows = attendance_join_students (l_id newl)
                           (snd (get_lessons_active now (db w1)))).
  { revert Hans; unfold get_lessons_active; rewrite L.
    destruct (older_than_a_day now (start_time newl)); [discriminate|].
    cbn [fst snd]; now intros [= <-]. }
  assert (Hmine : filter (of_lesson lid) (attendance (db w1))
                  = fresh_rows lid sids rng 1
                      (next_id (seq_attendance (db w))
                               (map a_id (attendance (db w))))).
  { rewrite Eatt, filter_app, filter_other_lessons.
    - apply filter_fresh_rows.
    - intros a Ha; pose proof (inv_att_lesson _ _ HI a Ha).
      pose proof (next_id_gt_seq (seq_lessons (db w)) (map l_id (lessons (db w)))).
      fold lid in H0; lia. }
  split.
  - rewrite <- (map_map fst student_id), Hrows, Hjoin, Eid.
    unfold get_lessons_active; rewrite L.
    destruct (older_than_a_day now (start_time newl)); cbn [snd];
      [|destruct (otp_expired now (start_time newl));
        [rewrite Eid, expire_lesson_students|]];
      rewrite Hmine; apply filter_fresh_rows.
  - intros Hwin; rewrite Hrows, Hjoin, Eid.
    unfold get_lessons_active; rewrite L.
    destruct (older_than_a_day now (start_time newl)); cbn [snd];
      [exact Hmine|].
    replace (otp_expired now (start_time newl)) with false; [exact Hmine|].
    symmetry; apply otp_expired_false; subst now; lia.
Qed.

Lemma started_session_is_active_witness :
  exists l u rows,
    fst (get_lessons_active
           (clock (step late_enrolment (0%N, LessonsStart maths_session draws))
            + Z.of_N 1000)
           (db (step late_enrolment (0%N, LessonsStart maths_session draws))))
    = ok (JActive l u rows)
    /\ map (fun p => student_id (fst p)) rows = [2; 1].
Proof.
  assert (Hr : reachable late_enrolment) by (exists true, 0; eexists; reflexivity).
  assert (Hday : Z.of_N 1000 <= 24 * hour) by (vm_compute; discriminate).
  assert (Hend : in_date_range (clock late_enrolment + Z.of_N 0
                                + durationNum maths_session * 60000))
    by (vm_compute; split; discriminate).
  destruct (started_session_is_active late_enrolment maths_session draws 0 1000 1
              Hr eq_refl eq_refl Hend Hday)
    as (l & u & rows & Hans & _ & _ & _ & _ & _ & Hrows & _).
  exists l, u, rows; split; [exact Hans | exact Hrows].
Defined.

(** X3: the code a session start issues to a student is accepted.  In a
    running server, after a successful POST /api/lessons/start and POST
    /api/lessons/:id/enable-otp for the new lesson, a registered student
    who has k students before it by admission number (the start reads the
    students in that order) and submits the code of draw 1 + k at most 20
    minutes after the start (20 minutes sharp included) is answered with
    success, and the student's row of that lesson is present, marked at
    the instant of the request. *)
Theorem issued_code_accepted (w : World) (r : StartReq) (rng : nat -> Z)
    (dt1 dt2 dt3 : N) (s : StudentRow) :
  reachable w ->
  let w1 := step w (dt1, LessonsStart r rng) in
  let lid := next_id (seq_lessons (db w)) (map l_id (lessons (db w))) in
  let w2 := step w1 (dt2, EnableOtp lid) in
  let now := clock w2 + Z.of_N dt3 in
  let k := admission_rank s (students (db w)) in
  fst (post_lessons_start r rng (clock w1) (db w)) = ok (JStarted lid) ->
  In s (students (db w)) ->
  Z.of_N dt2 + Z.of_N dt3 <= 20 * minute ->
  let res := post_attendance_mark lid (s_id s) (gen_otp (rng (S k))) now (db w2) in
  fst res = ok JSuccess
  /\ exists a, In a (attendance (snd res))
               /\ lesson_id a = lid /\ student_id a = s_id s
               /\ status a = Present /\ marked_at a = Some now.
Proof.
  intros Hr w1 lid w2 now k Hok Hs Hwin res.
  pose proof (reachable_Inv w Hr) as HI.
  assert (Hk : nth_error (select_student_ids (students (db w))) k
               = Some (s_id s))
    by (apply select_position;
        [apply (sound_admission _ (reachable_Sound w Hr)) | assumption]).
  set (sid := s_id s) in *.
  destruct (start_outcome r rng (clock w1) (db w) lid Hok)
    as (_ & (l & El & Eid & Een & Est & _) & Ea & _).
  set (first := next_id (seq_attendance (db w)) (map a_id (attendance (db w)))) in Ea.
  set (sids := select_student_ids (students (db w))) in *.
  set (record := {| a_id := first + Z.of_nat k; lesson_id := lid;
                    student_id := sid; otp := gen_otp (rng (1 + k)%nat);
                    status := Pending; marked_at := None |}).
  assert (Hl : find (fun x => l_id x =? lid) (lessons (db w2))
               = Some (set_otp_enabled l)).
  { subst w2; unfold step; cbn [db snd fst handle post_enable_otp update_lessons
                                lessons set_lessons].
    change (db w1) with (snd (post_lessons_start r rng (clock w1) (db w))).
    rewrite El, <- Eid, find_new_lesson; [cbn; now rewrite Z.eqb_refl|].
    intros x Hx; rewrite Eid.
    apply (next_id_gt_ids (seq_lessons (db w))), in_map; assumption. }
  assert (Hatt : attendance (db w2)
                 = attendance (db w) ++ fresh_rows lid sids rng 1 first).
  { subst w2; unfold step; cbn [db snd fst handle post_enable_otp update_lessons
                                attendance set_lessons].
    exact Ea. }
  assert (Hrec : find_record lid sid (gen_otp (rng (S k))) (db w2)
                 = Some record).
  { unfold find_record; rewrite Hatt, find_app_skip.
    - apply (find_fresh_row lid sids rng 1 first k sid); [|exact Hk].
      apply select_student_ids_NoDup, (inv_student_key _ _ HI).
    - intros a Ha; unfold of_lesson.
      pose proof (inv_att_lesson _ _ HI a Ha).
      pose proof (next_id_gt_seq (seq_lessons (db w)) (map l_id (lessons (db w)))).
      replace (lesson_id a =? lid) with false; [reflexivity|].
      symmetry; apply Z.eqb_neq; subst lid; lia. }
  assert (Hres : res = (ok JSuccess,
                        update_attendance (fun a => a_id a =? a_id record)
                                          (set_present now) (db w2))).
  { subst res; apply (mark_goes_through _ _ _ _ _ (set_otp_enabled l) record);
      try assumption.
    - cbn; discriminate.
    - cbn [start_time set_otp_enabled]; rewrite Est.
      subst now w2 w1; unfold step; cbn [clock fst]; lia.
    - cbn; discriminate. }
  rewrite Hres; cbn [fst snd]; split; [reflexivity|].
  exists (set_present now record); split; [|repeat split].
  cbn [attendance update_attendance set_attendance].
  apply in_map_iff; exists record; split.
  - now rewrite Z.eqb_refl.
  - rewrite Hatt; apply in_or_app; right.
    eapply nth_error_In.
    apply (fresh_rows_nth lid sids rng 1 first k); exact Hk.
Qed.

Lemma issued_code_accepted_witness :
  fst (post_attendance_mark 1 1 "100014" 1200000
         (db (run late_enrolment [(0%N, LessonsStart maths_session draws);
                                  (1%N, EnableOtp 1)])))
  = ok JSuccess.
Proof.
  assert (Hr : reachable late_enrolment) by (exists true, 0; eexists; reflexivity).
  assert (Hwin : Z.of_N 1 + Z.of_N 1199999 <= 20 * minute)
    by (vm_compute; discriminate).
  assert (Hin : In {| s_id := 1; s_name := "Achieng"; admission_number := "ADM-002" |}
                   (students (db late_enrolment)))
    by (vm_compute; tauto).
  exact (proj1 (issued_code_accepted late_enrolment maths_session draws 0 1 1199999
                  _ Hr eq_refl Hin Hwin)).
Defined.

(** ** Units *)

Lemma filter_renamed (keep : UnitRow -> bool) (change : UnitRow -> UnitRow)
    (table : list UnitRow) :
  (forall u, keep (change u) = keep u) ->
  filter keep (map change table) = map change (filter keep table).
Proof.
  intros H; induction table as [|u table IH]; cbn; [reflexivity|].
  rewrite H; destruct (keep u); cbn; now rewrite IH.
Qed.

Lemma join_renamed (change : UnitRow -> UnitRow) (ls : list LessonRow)
    (table : list UnitRow) :
  (forall u, u_id (change u) = u_id u) ->
  flat_map (fun l => map (pair l)
                         (filter (fun u => of_unit (u_id u) l) (map change table)))
           ls
  = map (fun p => (fst p, change (snd p)))
        (flat_map (fun l => map (pair l)
                                (filter (fun u => of_unit (u_id u) l) table))
                  ls).
Proof.
  intros Hid; induction ls as [|l ls IH]; cbn [flat_map map]; [reflexivity|].
  rewrite map_app, IH; f_equal.
  rewrite filter_renamed by (intros u; now rewrite Hid).
  now rewrite !map_map.
Qed.

Lemma latest_by_renamed (change : UnitRow -> UnitRow)
    (joined : list (LessonRow * UnitRow)) :
  latest_by (fun p => l_id (fst p))
            (map (fun p => (fst p, change (snd p))) joined)
  = option_map (fun p => (fst p, change (snd p)))
               (latest_by (fun p => l_id (fst p)) joined).
Proof.
  induction joined as [|p joined IH]; cbn [map latest_by]; [reflexivity|].
  rewrite IH; destruct (latest_by _ joined) as [q|]; cbn [option_map fst];
    [|reflexivity].
  now destruct (l_id (fst p) <? l_id (fst q)).
Qed.

(** X21: PUT /api/units/:id always answers success and shows at once in
    the poll.  If GET /api/lessons/active answers with a lesson, then after
    the update it answers, at the same instant, with the same lesson and
    the same attendance list, and with the unit's new name and lecturer
    when the lesson's unit is the one updated (the unit as it was
    otherwise).  The update writes no lesson, student or attendance row and
    keeps the rowid of every unit. *)
Theorem unit_update_shows (id : Z) (name lect : string) (now : Z) (d : Db)
    (l : LessonRow) (u : UnitRow) (rows : list (AttendanceRow * StudentRow)) :
  fst (get_lessons_active now d) = ok (JActive l u rows) ->
  let res := put_unit id name lect d in
  fst res = ok JSuccess
  /\ fst (get_lessons_active now (snd res))
     = ok (JActive l (if u_id u =? id
                      then {| u_id := u_id u; u_name := name; lecturer := lect |}
                      else u) rows)
  /\ map u_id (units (snd res)) = map u_id (units d)
  /\ lessons (snd res) = lessons d
  /\ students (snd res) = students d
  /\ attendance (snd res) = attendance d.
Proof.
  intros Hans; cbv zeta; unfold put_unit; cbn [fst snd].
  split; [reflexivity|]; split; [|repeat split].
  - revert Hans; unfold get_lessons_active, latest_lesson, lessons_join_units.
    unfold update_unit at 1 2; cbn [units lessons set_units].
    rewrite join_renamed by (intros x; now destruct (u_id x =? id)).
    rewrite (latest_by_renamed
               (fun x => if u_id x =? id
                         then {| u_id := u_id x; u_name := name; lecturer := lect |}
                         else x)).
    destruct (latest_by _ _) as [[l0 u0]|]; cbn [option_map fst snd];
      [|discriminate].
    destruct (older_than_a_day now (start_time l0)); [discriminate|].
    cbn [fst]; intros [= <- <- <-].
    now destruct (otp_expired now (start_time l0)).
  - unfold update_unit; cbn [units set_units]; rewrite map_map.
    apply map_ext; intros x; now destruct (u_id x =? id).
Qed.

Lemma unit_update_shows_witness :
  exists l rows,
    fst (get_lessons_active 5 (snd (put_unit 1 "Algebra" "Dr Wanjiru" (db classroom))))
    = ok (JActive l {| u_id := 1; u_name := "Algebra"; lecturer := "Dr Wanjiru" |}
                  rows).
Proof.
  eexists; eexists.
  refine (proj1 (proj2 (unit_update_shows 1 "Algebra" "Dr Wanjiru" 5 (db classroom)
                          _ {| u_id := 1; u_name := "Maths"; lecturer := "Dr Otieno" |}
                          _ _))).
  vm_compute; reflexivity.
Defined.
